(** * Okta security health check: the detection execution engine

    A shallow embedding of the three components that carry the control flow
    of the scanner:

    - [OktaClient.querySystemLog]   (src/oktaClient.js): the paginated query;
    - [DetectionLoader.loadDetections] (the DetectionLoader class with the
      [sources] list): the rule loader with its collections and its cache;
    - [DetectionRunner.runAllDetections] (src/detectionRunner.js): the
      sequential coordinator.

    Asynchronous methods are embedded in a state-and-exception monad over an
    abstract outside world ([Platform]): every [await] on the network, the
    file system or the PDF generator asks the world for its answer and appends
    an [Effect] to a trace, so that requests and pacing delays can be counted.
    Console output is not modelled. *)

From Stdlib Require Import List String Ascii ZArith Lia Bool Arith PeanoNat.
From Stdlib Require Import DecimalString.
Import ListNotations.
Open Scope string_scope.

(** ** JavaScript string and array primitives used by the sources *)

Module Js.

(** Does [s] begin with [pat]? *)
Fixpoint starts_with (pat s : string) : bool :=
  match pat, s with
  | EmptyString, _ => true
  | String a pat', String b s' => Ascii.eqb a b && starts_with pat' s'
  | String _ _, EmptyString => false
  end.

(** [s.includes(sub)] *)
Fixpoint includes (s sub : string) : bool :=
  if starts_with sub s then true
  else match s with
       | EmptyString => false
       | String _ s' => includes s' sub
       end.

(** Remove the first [n] characters. *)
Fixpoint drop (n : nat) (s : string) : string :=
  match n, s with
  | O, _ => s
  | S n', String _ s' => drop n' s'
  | S _, EmptyString => EmptyString
  end.

(** [s.replace(pat, '')] with a string pattern: only the first occurrence
    is removed. *)
Fixpoint replace_first (pat s : string) : string :=
  if starts_with pat s then drop (String.length pat) s
  else match s with
       | EmptyString => EmptyString
       | String c s' => String c (replace_first pat s')
       end.

(** [s.endsWith(suf)] *)
Definition endsWith (s suf : string) : bool :=
  (String.length suf <=? String.length s)%nat &&
  String.eqb (drop (String.length s - String.length suf) s) suf.

(** White space of the regular expression class [\s] and of [trim], on
    8-bit characters: TAB, LF, VT, FF, CR, SPACE and NBSP. *)
Definition is_space (c : ascii) : bool :=
  let n := nat_of_ascii c in
  ((9 <=? n) && (n <=? 13))%nat || (n =? 32)%nat || (n =? 160)%nat.

Fixpoint trimStart (s : string) : string :=
  match s with
  | String c s' => if is_space c then trimStart s' else s
  | EmptyString => EmptyString
  end.

Fixpoint rev_string (s acc : string) : string :=
  match s with
  | EmptyString => acc
  | String c s' => rev_string s' (String c acc)
  end.

(** [s.trim()] *)
Definition trim (s : string) : string :=
  rev_string (trimStart (rev_string (trimStart s) "")) "".

(** The text [rel="next"] that marks the link to the following page. *)
Definition rel_next : string :=
  Eval cbv in "rel=" ++ String (ascii_of_nat 34) "next" ++ String (ascii_of_nat 34) "".

(** Longest prefix without [>] and what follows it: the group [[^>]+]. *)
Fixpoint span_not_gt (s : string) : string * string :=
  match s with
  | EmptyString => (EmptyString, EmptyString)
  | String c s' =>
      if Ascii.eqb c ">" then (EmptyString, s)
      else let (g, r) := span_not_gt s' in (String c g, r)
  end.

(** The expression [/<([^>]+)>;\s*rel="next"/] anchored at the start of [s];
    the result is the captured group.  Both repetitions are followed by a
    character outside their class, so only the longest runs can match. *)
Definition match_next_here (s : string) : option string :=
  match s with
  | String "<" rest =>
      match span_not_gt rest with
      | (EmptyString, _) => None
      | (g, String ">" (String ";" r)) =>
          if starts_with rel_next (trimStart r) then Some g else None
      | _ => None
      end
  | _ => None
  end.

(** [s.match(/<([^>]+)>;\s*rel="next"/)]: the leftmost match; [Some g] is
    [nextMatch[1]]. *)
Fixpoint match_next (s : string) : option string :=
  match match_next_here s with
  | Some g => Some g
  | None => match s with
            | EmptyString => None
            | String _ s' => match_next s'
            end
  end.

(** [s.toLowerCase()] on 8-bit characters: [A]-[Z] and the capital letters
    of Latin-1 ([À]-[Þ] but for the multiplication sign) move up by 32. *)
Definition lower_char (c : ascii) : ascii :=
  let n := nat_of_ascii c in
  if ((65 <=? n) && (n <=? 90))%nat
     || ((192 <=? n) && (n <=? 222) && negb (n =? 215))%nat
  then ascii_of_nat (n + 32)
  else c.

Fixpoint toLowerCase (s : string) : string :=
  match s with
  | EmptyString => EmptyString
  | String c s' => String (lower_char c) (toLowerCase s')
  end.

(** [arr.slice(0, e)] *)
Definition slice0 {A : Type} (l : list A) (e : Z) : list A :=
  let len := Z.of_nat (List.length l) in
  let k := if (e <? 0)%Z then Z.max (len + e) 0 else Z.min e len in
  firstn (Z.to_nat k) l.

(** A number inside a template literal. *)
Definition decimal (n : nat) : string := NilEmpty.string_of_uint (Nat.to_uint n).

End Js.

(** ** Data model *)

(** An entry of the system log; the engine passes it through untouched. *)
Record LogEvent := {
  published : string;
  eventType : string
}.

(** [error.response.data]: the body of a rejected HTTP request as axios
    delivers it. *)
Inductive ResponseData :=
| DataNull                                  (* [null] *)
| DataUndefined                             (* [undefined] *)
| DataBody (errorSummary : option string).  (* an object or a string, and its
                                               [errorSummary] if it has one *)

(** [error.response] of a rejected HTTP request. *)
Record ErrorResponse := {
  status : nat;
  error_data : ResponseData;      (* response.data *)
  statusText : string
}.

(** A thrown value, with the properties the catch blocks look at. *)
Record JsError := {
  response : option ErrorResponse;
  request : bool;                 (* is [error.request] set? *)
  message : string
}.

(** [new Error(msg)] *)
Definition new_Error (msg : string) : JsError :=
  {| response := None; request := false; message := msg |}.

(** The query parameters of the first request. *)
Record Params := {
  p_filter : string;
  p_limit : Z;
  p_sortOrder : string;
  p_since : option string
}.

(** A successful response of the log end point. *)
Record Response := {
  data : list LogEvent;
  headers_link : option string    (* response.headers.link *)
}.

Record Threat := {
  Tactic : list string;
  Technique : list string
}.

(** A rule as the loader hands it out: the parsed document with the fields
    the loader adds ([filename], [sourceType], [queryType], [query]). *)
Record Detection := {
  title : string;
  description : option string;
  threat : option Threat;
  false_positives : list string;
  filename : string;
  sourceType : string;
  queryType : string;
  query : string
}.

(** The object [runDetectionWithEvents] returns and the one the catch block
    of [runAllDetections] builds. *)
Record DetectionResult := {
  r_title : string;
  r_description : option string;
  r_threat : option Threat;
  r_false_positives : list string;
  events : list LogEvent;
  error : option string
}.

(** The [results] object of [runAllDetections]. *)
Record Results := {
  total : nat;
  success : nat;
  failed : nat;
  withFindings : nat;
  totalFindings : nat;
  detectionResults : list DetectionResult
}.

(** [config.json]; [query] and its fields are optional. *)
Record QueryConfig := {
  cfg_since : option string;
  cfg_limit : option Z
}.

Record Config := {
  cfg_domain : string;
  cfg_query : option QueryConfig
}.

(** What a GET on GitHub resolves to: the listing of a directory or the raw
    text of a file. *)
Record FileEntry := { fe_name : string }.

Inductive AxiosData :=
| DataArray (files : list FileEntry)
| DataText (text : string).

(** The value under [detection.okta_systemlog.OIE] of a parsed rule file. *)
Inductive OieField :=
| OieAbsent                      (* a path component is missing or falsy *)
| OieString (s : string)
| OieOther.                      (* truthy, but not a string *)

Record RuleDoc := {
  doc_title : string;
  doc_description : option string;
  doc_threat : option Threat;
  doc_false_positives : list string;
  doc_OIE : OieField
}.

(** ** Effects *)

Inductive Effect :=
| EHttpGet (url : string) (params : option Params)  (* this.client.get *)
| EAxiosGet (url : string)                          (* axios.get *)
| ESleep (ms : nat)
| EMkdir (path : string)
| EReadFile (path : string)
| EWriteFile (path content : string)
| EGenerateReport (findings : Results).

(** The outside world.  Each operation answers from the current world and
    yields the next one; [inl] is a rejected promise or a thrown error.
    [yaml_load] stands for [yaml.load(yamlResponse.data)] together with the
    first property assignment on its result, which throws in the strict code
    of a class unless the result is an object. *)
Class Platform := {
  World : Type;
  client_get : string -> option Params -> World -> (JsError + Response) * World;
  axios_get : string -> World -> (JsError + AxiosData) * World;
  fs_mkdir : string -> World -> (JsError + unit) * World;
  fs_readFile : string -> World -> (JsError + string) * World;
  fs_writeFile : string -> string -> World -> (JsError + unit) * World;
  pdf_generateReport : Results -> Config -> World -> (JsError + string) * World;
  yaml_load : AxiosData -> JsError + RuleDoc;
  JSON_parse : string -> JsError + list Detection;
  JSON_stringify : list Detection -> string
}.

(** ** The monad of asynchronous methods *)

Inductive Outcome (A : Type) :=
| Returned (a : A)
| Thrown (e : JsError)
| OutOfFuel.
Arguments Returned {A} a.
Arguments Thrown {A} e.
Arguments OutOfFuel {A}.

Section Monad.
Context {P : Platform}.

Record State := {
  world : World;
  trace : list Effect
}.

Definition M (A : Type) : Type := State -> Outcome A * State.

Definition ret {A} (a : A) : M A := fun st => (Returned a, st).

Definition throw {A} (e : JsError) : M A := fun st => (Thrown e, st).

Definition out_of_fuel {A} : M A := fun st => (OutOfFuel, st).

Definition bind {A B} (m : M A) (f : A -> M B) : M B :=
  fun st =>
    match m st with
    | (Returned a, st') => f a st'
    | (Thrown e, st') => (Thrown e, st')
    | (OutOfFuel, st') => (OutOfFuel, st')
    end.

(** [try { m } catch (error) { handler error }] *)
Definition try_catch {A} (m : M A) (handler : JsError -> M A) : M A :=
  fun st =>
    match m st with
    | (Thrown e, st') => handler e st'
    | r => r
    end.

(** Ask the world, log the effect, and turn a rejection into a throw. *)
Definition perform {A} (eff : Effect) (op : World -> (JsError + A) * World) : M A :=
  fun st =>
    let (r, w) := op (world st) in
    let st' := {| world := w; trace := trace st ++ [eff] |} in
    match r with
    | inl e => (Thrown e, st')
    | inr a => (Returned a, st')
    end.

(** [await this.sleep(ms)] *)
Definition sleep (ms : nat) : M unit :=
  fun st => (Returned tt, {| world := world st; trace := trace st ++ [ESleep ms] |}).

(** Lift a synchronous call that may throw. *)
Definition lift {A} (r : JsError + A) : M A :=
  match r with
  | inl e => throw e
  | inr a => ret a
  end.

End Monad.

Notation "x <- m ;; k" := (bind m (fun x => k))
  (at level 61, m at next level, right associativity).
Notation "m ;;; k" := (bind m (fun _ => k))
  (at level 61, right associativity).

(** ** src/oktaClient.js *)

Module OktaClient.
Section Client.
Context {P : Platform}.

(** [constructor(domain, apiToken)]; the token only goes into a header. *)
Variable domain : string.

Definition baseUrl : string := "https://" ++ domain ++ "/api/v1".

(** A JavaScript string in a condition: the empty string is falsy. *)
Definition truthy (s : string) : bool := negb (String.eqb s "").

(** [const params = {...}; if (since) params.since = since] *)
Definition build_params (filter : string) (since : option string) (limit : Z) : Params :=
  {| p_filter := filter;
     p_limit := limit;
     p_sortOrder := "DESCENDING";
     p_since := match since with
                | Some s => if truthy s then Some s else None
                | None => None
                end |}.

(** The pagination check at the end of the loop body: the next [url] and
    the next [hasMore]. *)
Definition follow_link (url : string) (linkHeader : option string) : string * bool :=
  match linkHeader with
  | Some h =>
      if truthy h && Js.includes h Js.rel_next then
        match Js.match_next h with
        | Some next => (Js.replace_first baseUrl next, true)
        | None => (url, false)
        end
      else (url, false)
  | None => (url, false)
  end.

(** [this.client.get(url, { params: url === '/logs' ? params : undefined })] *)
Definition get (url : string) (params : Params) : M Response :=
  let sent := if String.eqb url "/logs" then Some params else None in
  perform (EHttpGet url sent) (client_get url sent).

(** [while (hasMore && results.length < limit) { ... }]; one unit of fuel
    per iteration. *)
Fixpoint pagination (fuel : nat) (params : Params) (limit : Z)
    (results : list LogEvent) (url : string) (hasMore : bool) : M (list LogEvent) :=
  if hasMore && (Z.of_nat (List.length results) <? limit)%Z then
    match fuel with
    | O => out_of_fuel
    | S fuel' =>
        response <- get url params ;;
        let results := (results ++ data response)%list in
        let (url, hasMore) := follow_link url (headers_link response) in
        sleep 100 ;;;
        pagination fuel' params limit results url hasMore
    end
  else ret results.

(** The catch block of [querySystemLog]: the error it throws.  Reading
    [errorSummary] off a [data] that is [null] or [undefined] throws a
    TypeError from inside the block. *)
Definition normalize (e : JsError) : JsError :=
  match response e with
  | Some r =>
      match error_data r with
      | DataNull =>
          new_Error "Cannot read properties of null (reading 'errorSummary')"
      | DataUndefined =>
          new_Error "Cannot read properties of undefined (reading 'errorSummary')"
      | DataBody errorSummary =>
          let summary := match errorSummary with
                         | Some s => if truthy s then s else statusText r
                         | None => statusText r
                         end in
          new_Error ("Okta API Error: " ++ Js.decimal (status r) ++ " - " ++ summary)
      end
  | None =>
      if request e then new_Error "Network error: Unable to reach Okta API"
      else e
  end.

(** [async querySystemLog(filter, since = null, limit = 100)]; [None] is an
    argument left out. *)
Definition querySystemLog (fuel : nat) (filter : string) (since : option string)
    (limit : option Z) : M (list LogEvent) :=
  let limit := match limit with Some l => l | None => 100%Z end in
  try_catch
    (let params := build_params filter since limit in
     results <- pagination fuel params limit [] "/logs" true ;;
     ret (Js.slice0 results limit))
    (fun error => throw (normalize error)).

End Client.
End OktaClient.

(** ** The DetectionLoader class, with its [sources] *)

Module DetectionLoader.

(** An entry of [this.sources]. *)
Record Source := {
  name : string;
  githubBaseUrl : string;
  rawBaseUrl : string;
  type : string
}.

(** [this.sources] as the constructor sets it. *)
Definition sources : list Source :=
  [ {| name := "detections";
       githubBaseUrl := "https://api.github.com/repos/okta/customer-detections/contents/detections";
       rawBaseUrl := "https://raw.githubusercontent.com/okta/customer-detections/master/detections";
       type := "detection" |};
    {| name := "hunts";
       githubBaseUrl := "https://api.github.com/repos/okta/customer-detections/contents/hunts";
       rawBaseUrl := "https://raw.githubusercontent.com/okta/customer-detections/master/hunts";
       type := "hunt" |} ].

(** [filterExecutableDetections]: the callback yields [d.query] when the tag
    matches, and a non-empty string is what counts as true. *)
Definition filterExecutableDetections (detections : list Detection) : list Detection :=
  filter (fun d => String.eqb (queryType d) "OIE" && negb (String.eqb (query d) ""))
         detections.

Section Loader.
Context {P : Platform}.

(** [process.cwd()] *)
Variable cwd : string.

Definition cacheDir : string := cwd ++ "/detections".
Definition cacheFile : string := cacheDir ++ "/detections.json".

(** [JSON.parse(await fs.readFile(cacheFile, 'utf-8'))] *)
Definition read_cache : M (list Detection) :=
  cached <- perform (EReadFile cacheFile) (fs_readFile cacheFile) ;;
  lift (JSON_parse cached).

(** The parsed document with [filename], [sourceType], [queryType] and
    [query] set. *)
Definition tag (source : Source) (file : FileEntry) (doc : RuleDoc) (oie : string)
    : Detection :=
  {| title := doc_title doc;
     description := doc_description doc;
     threat := doc_threat doc;
     false_positives := doc_false_positives doc;
     filename := fe_name file;
     sourceType := type source;
     queryType := "OIE";
     query := Js.trim oie |}.

(** The body of [for (const file of files)], with its own try/catch.  The
    delay is the last statement of the try block. *)
Definition load_file (source : Source) (file : FileEntry)
    (allDetections : list Detection) : M (list Detection) :=
  let url := rawBaseUrl source ++ "/" ++ fe_name file in
  try_catch
    (yamlResponse <- perform (EAxiosGet url) (axios_get url) ;;
     detection <- lift (yaml_load yamlResponse) ;;
     allDetections' <-
       match doc_OIE detection with
       | OieString s =>
           if negb (String.eqb s "")
           then ret (allDetections ++ [tag source file detection s])%list
           else ret allDetections
       | OieAbsent => ret allDetections
       | OieOther =>
           throw (new_Error "detection.detection.okta_systemlog.OIE.trim is not a function")
       end ;;
     sleep 100 ;;;
     ret allDetections')
    (fun error => ret allDetections).

Fixpoint load_files (source : Source) (files : list FileEntry)
    (allDetections : list Detection) : M (list Detection) :=
  match files with
  | [] => ret allDetections
  | file :: files' =>
      allDetections' <- load_file source file allDetections ;;
      load_files source files' allDetections'
  end.

(** [axios.get(source.githubBaseUrl)] and the [.yml] filter on its data. *)
Definition list_files (source : Source) : M (list FileEntry) :=
  response <- perform (EAxiosGet (githubBaseUrl source)) (axios_get (githubBaseUrl source)) ;;
  match response with
  | DataArray entries => ret (filter (fun file => Js.endsWith (fe_name file) ".yml") entries)
  | DataText _ => throw (new_Error "response.data.filter is not a function")
  end.

(** The body of [for (const source of this.sources)], with its try/catch.
    Nothing is pushed before the listing, the only statement of the block
    that can throw. *)
Definition load_source (source : Source) (allDetections : list Detection)
    : M (list Detection) :=
  try_catch
    (files <- list_files source ;;
     load_files source files allDetections)
    (fun error => ret allDetections).

Fixpoint load_sources (srcs : list Source) (allDetections : list Detection)
    : M (list Detection) :=
  match srcs with
  | [] => ret allDetections
  | source :: srcs' =>
      allDetections' <- load_source source allDetections ;;
      load_sources srcs' allDetections'
  end.

(** The remote phase: every source, then the cache file. *)
Definition fetch_and_cache (srcs : list Source) : M (list Detection) :=
  allDetections <- load_sources srcs [] ;;
  perform (EWriteFile cacheFile (JSON_stringify allDetections))
          (fs_writeFile cacheFile (JSON_stringify allDetections)) ;;;
  ret allDetections.

(** The outer catch block: the cache as a last resort. *)
Definition fallback (error : JsError) : M (list Detection) :=
  try_catch read_cache
    (fun cacheError =>
       throw (new_Error
         ("Failed to load detections and hunts from GitHub and no cache available: "
          ++ message error))).

(** [async loadDetections(forceRefresh = true)] over a list of sources. *)
Definition loadDetections_from (srcs : list Source) (forceRefresh : bool)
    : M (list Detection) :=
  try_catch
    (perform (EMkdir cacheDir) (fs_mkdir cacheDir) ;;;
     cached <- (if negb forceRefresh
                then try_catch (detections <- read_cache ;; ret (Some detections))
                               (fun err => ret None)
                else ret None) ;;
     match cached with
     | Some detections => ret detections
     | None => fetch_and_cache srcs
     end)
    fallback.

Definition loadDetections (forceRefresh : bool) : M (list Detection) :=
  loadDetections_from sources forceRefresh.

End Loader.
End DetectionLoader.

(** ** src/detectionRunner.js *)

Module DetectionRunner.

(** What [runDetection] hands back is a number, what
    [runDetectionWithEvents] hands back is an object. *)
Inductive JsValue :=
| VNumber (n : nat)
| VResult (r : DetectionResult).

(** The object literal of the success path; it has no [error] property. *)
Definition result_of (detection : Detection) (evs : list LogEvent) : DetectionResult :=
  {| r_title := title detection;
     r_description := description detection;
     r_threat := threat detection;
     r_false_positives := false_positives detection;
     events := evs;
     error := None |}.

(** The object literal of the catch block. *)
Definition failure_of (detection : Detection) (e : JsError) : DetectionResult :=
  {| r_title := title detection;
     r_description := description detection;
     r_threat := threat detection;
     r_false_positives := false_positives detection;
     events := [];
     error := Some (message e) |}.

(** The statements of the try block after the await. *)
Definition record_success (results : Results) (detectionResult : DetectionResult) : Results :=
  let found := List.length (events detectionResult) in
  {| total := total results;
     success := S (success results);
     failed := failed results;
     withFindings :=
       if (0 <? found)%nat then S (withFindings results) else withFindings results;
     totalFindings :=
       if (0 <? found)%nat then totalFindings results + found else totalFindings results;
     detectionResults := detectionResults results ++ [detectionResult] |}.

(** The statements of the catch block. *)
Definition record_failure (results : Results) (detection : Detection) (e : JsError) : Results :=
  {| total := total results;
     success := success results;
     failed := S (failed results);
     withFindings := withFindings results;
     totalFindings := totalFindings results;
     detectionResults := detectionResults results ++ [failure_of detection e] |}.

Section Runner.
Context {P : Platform}.

(** [constructor(oktaClient, config)]; the client is given by its domain. *)
Variable domain : string.
Variable config : Config.

(** Fuel handed to each query. *)
Variable fuel : nat.

(** [this.config.query?.since] *)
Definition config_since : option string :=
  match cfg_query config with
  | Some q => cfg_since q
  | None => None
  end.

(** [this.config.query?.limit || 100] *)
Definition config_limit : Z :=
  match cfg_query config with
  | Some q => match cfg_limit q with
              | Some l => if (l =? 0)%Z then 100%Z else l
              | None => 100%Z
              end
  | None => 100%Z
  end.

Definition runDetectionWithEvents (detection : Detection) (index total : nat)
    : M DetectionResult :=
  evs <- OktaClient.querySystemLog domain fuel (query detection) config_since
           (Some config_limit) ;;
  ret (result_of detection evs).

Definition runDetection (detection : Detection) (index total : nat) : M JsValue :=
  result <- runDetectionWithEvents detection index total ;;
  ret (VNumber (List.length (events result))).

(** [for (let i = 0; i < executable.length; i++)], from index [i] on;
    [rest] is what is left of [executable]. *)
Fixpoint detection_loop (rest : list Detection) (i len : nat) (results : Results)
    : M Results :=
  match rest with
  | [] => ret results
  | detection :: rest' =>
      results' <-
        try_catch
          (detectionResult <- runDetectionWithEvents detection (i + 1) len ;;
           ret (record_success results detectionResult))
          (fun error => ret (record_failure results detection error)) ;;
      sleep 200 ;;;
      detection_loop rest' (S i) len results'
  end.

(** The filter on the first line of [runAllDetections]. *)
Definition executable_of (detections : list Detection) : list Detection :=
  filter (fun d => String.eqb (queryType d) "OIE") detections.

Definition initial_results (executable : list Detection) : Results :=
  {| total := List.length executable;
     success := 0;
     failed := 0;
     withFindings := 0;
     totalFindings := 0;
     detectionResults := [] |}.

(** The PDF report; its failure is only logged. *)
Definition generate_pdf (results : Results) : M unit :=
  try_catch
    (perform (EGenerateReport results) (pdf_generateReport results config) ;;; ret tt)
    (fun error => ret tt).

Definition runAllDetections (detections : list Detection) : M Results :=
  let executable := executable_of detections in
  results <- detection_loop executable 0 (List.length executable)
               (initial_results executable) ;;
  generate_pdf results ;;;
  ret results.

End Runner.
End DetectionRunner.

(** ** src/pdfGenerator.js: the figures of the executive summary *)

Module PDFGenerator.

(** [findings.detectionResults.length] *)
Definition totalDetections (findings : Results) : nat :=
  List.length (detectionResults findings).

(** [findings.detectionResults.filter(d => d.events.length > 0).length] *)
Definition detectionsWithFindings (findings : Results) : nat :=
  List.length (filter (fun d => (0 <? List.length (events d))%nat)
                      (detectionResults findings)).

(** [findings.detectionResults.reduce((sum, d) => sum + d.events.length, 0)] *)
Definition totalEvents (findings : Results) : nat :=
  fold_left (fun sum d => (sum + List.length (events d))%nat)
            (detectionResults findings) 0%nat.

(** The risk level printed under the figures. *)
Definition riskLevel (findings : Results) : string :=
  if (detectionsWithFindings findings =? 0)%nat then "LOW"
  else if (detectionsWithFindings findings <=? 3)%nat then "MODERATE"
  else "HIGH".

End PDFGenerator.

(** ** src/index.js *)

Module SecurityHealthCheck.

(** The [options] object of [parseArguments]; [None] is [null] or
    [undefined]. *)
Record Options := {
  opt_list : bool;
  opt_detection : option string;
  opt_since : option string;
  opt_offline : bool;
  opt_help : bool
}.

Definition default_options : Options :=
  {| opt_list := false; opt_detection := None; opt_since := None;
     opt_offline := false; opt_help := false |}.

Definition is_one_of (arg long short : string) : bool :=
  String.eqb arg long || String.eqb arg short.

(** The loop of [parseArguments] from the argument at hand on; an option
    with a value takes the next argument, whatever it is ([args[++i]]). *)
Fixpoint parse_from (args : list string) (options : Options) : Options :=
  match args with
  | [] => options
  | arg :: rest =>
      if is_one_of arg "--list" "-l" then
        parse_from rest {| opt_list := true; opt_detection := opt_detection options;
                           opt_since := opt_since options;
                           opt_offline := opt_offline options;
                           opt_help := opt_help options |}
      else if is_one_of arg "--detection" "-d" then
        match rest with
        | [] => {| opt_list := opt_list options; opt_detection := None;
                   opt_since := opt_since options; opt_offline := opt_offline options;
                   opt_help := opt_help options |}
        | value :: rest' =>
            parse_from rest' {| opt_list := opt_list options;
                                opt_detection := Some value;
                                opt_since := opt_since options;
                                opt_offline := opt_offline options;
                                opt_help := opt_help options |}
        end
      else if is_one_of arg "--since" "-s" then
        match rest with
        | [] => {| opt_list := opt_list options; opt_detection := opt_detection options;
                   opt_since := None; opt_offline := opt_offline options;
                   opt_help := opt_help options |}
        | value :: rest' =>
            parse_from rest' {| opt_list := opt_list options;
                                opt_detection := opt_detection options;
                                opt_since := Some value;
                                opt_offline := opt_offline options;
                                opt_help := opt_help options |}
        end
      else if is_one_of arg "--offline" "-o" then
        parse_from rest {| opt_list := opt_list options;
                           opt_detection := opt_detection options;
                           opt_since := opt_since options; opt_offline := true;
                           opt_help := opt_help options |}
      else
        (* [--help], [-h] and the default case *)
        parse_from rest {| opt_list := opt_list options;
                           opt_detection := opt_detection options;
                           opt_since := opt_since options;
                           opt_offline := opt_offline options; opt_help := true |}
  end.

(** [parseArguments()] on [process.argv.slice(2)] *)
Definition parseArguments (args : list string) : Options :=
  parse_from args default_options.

(** How [runSpecificDetection] ends: by returning, or in [process.exit]. *)
Inductive Ending :=
| Finished
| Exited (code : nat).

(** The callback of [detections.find] in [runSpecificDetection]. *)
Definition matches (detectionName : string) (d : Detection) : bool :=
  Js.includes (Js.toLowerCase (title d)) (Js.toLowerCase detectionName)
  || Js.includes (Js.toLowerCase (filename d)) (Js.toLowerCase detectionName).

Section App.
Context {P : Platform}.

(** [process.cwd()], and the client and the runner that [initialize] set up
    from the configuration. *)
Variable cwd : string.
Variable config : Config.
Variable fuel : nat.

(** [async runSpecificDetection(detectionName, useCache = false)] *)
Definition runSpecificDetection (detectionName : string) (useCache : bool) : M Ending :=
  detections <- DetectionLoader.loadDetections cwd (negb useCache) ;;
  match find (matches detectionName) detections with
  | None => ret (Exited 1)
  | Some detection =>
      DetectionRunner.runDetection (cfg_domain config) config fuel detection 1 1 ;;;
      ret Finished
  end.

(** [async runAllDetections(useCache = false)]; the summary of the run is
    not kept. *)
Definition runAllDetections (useCache : bool) : M unit :=
  detections <- DetectionLoader.loadDetections cwd (negb useCache) ;;
  DetectionRunner.runAllDetections (cfg_domain config) config fuel detections ;;;
  ret tt.

End App.
End SecurityHealthCheck.

(** ** A scripted platform for concrete runs *)

Module Mock.

(** The log end point answers from a script, one entry per request; GitHub
    answers by URL; files are kept by path. *)
Record MockWorld := {
  replies : list (JsError + Response);
  github : string -> JsError + AxiosData;
  files : list (string * string)
}.

Definition unreachable : JsError :=
  {| response := None; request := true; message := "connect ECONNREFUSED" |}.

Definition mock_client_get (url : string) (params : option Params) (w : MockWorld)
    : (JsError + Response) * MockWorld :=
  match replies w with
  | [] => (inl unreachable, w)
  | r :: rest => (r, {| replies := rest; github := github w; files := files w |})
  end.

Fixpoint lookup (path : string) (fs : list (string * string)) : option string :=
  match fs with
  | [] => None
  | (p, c) :: fs' => if String.eqb p path then Some c else lookup path fs'
  end.

Definition mock_readFile (path : string) (w : MockWorld) : (JsError + string) * MockWorld :=
  match lookup path (files w) with
  | Some c => (inr c, w)
  | None => (inl (new_Error "ENOENT: no such file or directory"), w)
  end.

Definition mock_writeFile (path content : string) (w : MockWorld)
    : (JsError + unit) * MockWorld :=
  (inr tt, {| replies := replies w; github := github w;
              files := (path, content) :: files w |}).

(** A rule document whose query is the text of the file. *)
Definition mock_yaml_load (d : AxiosData) : JsError + RuleDoc :=
  match d with
  | DataText t =>
      inr {| doc_title := "rule"; doc_description := None; doc_threat := None;
             doc_false_positives := [];
             doc_OIE := if String.eqb t "" then OieAbsent else OieString t |}
  | DataArray _ => inl (new_Error "Cannot create property 'filename'")
  end.

Definition cached_rule : Detection :=
  {| title := "cached rule"; description := None; threat := None;
     false_positives := []; filename := "cached.yml"; sourceType := "detection";
     queryType := "OIE"; query := "eventType sw user" |}.

(** A stub of the JSON codec: two cache texts are understood. *)
Definition mock_JSON_parse (text : string) : JsError + list Detection :=
  if String.eqb text "[]" then inr []
  else if String.eqb text "[cached rule]" then inr [cached_rule]
  else inl (new_Error "Unexpected token in JSON").

Definition mock_JSON_stringify (ds : list Detection) : string :=
  match ds with
  | [] => "[]"
  | _ => "[" ++ String.concat "," (map title ds) ++ "]"
  end.

Definition platform : Platform :=
  {| World := MockWorld;
     client_get := mock_client_get;
     axios_get := fun url w => (github w url, w);
     fs_mkdir := fun _ w => (inr tt, w);
     fs_readFile := mock_readFile;
     fs_writeFile := mock_writeFile;
     pdf_generateReport := fun _ _ w => (inr "okta-security-scan.pdf", w);
     yaml_load := mock_yaml_load;
     JSON_parse := mock_JSON_parse;
     JSON_stringify := mock_JSON_stringify |}.

(** A world whose log end point follows the script [rs]. *)
Definition scripted (rs : list (JsError + Response)) : MockWorld :=
  {| replies := rs;
     github := fun _ => inl unreachable;
     files := [] |}.

Definition state (w : MockWorld) (tr : list Effect) : State (P := platform) :=
  @Build_State platform w tr.

Definition start (w : MockWorld) : State (P := platform) := state w [].

Definition ev (n : string) : LogEvent :=
  {| published := "2024-01-01T00:00:00Z"; eventType := n |}.

(** A page with a link to the next one, and a last page. *)
Definition page_with_next (evs : list LogEvent) : Response :=
  {| data := evs;
     headers_link :=
       Some ("<https://acme.okta.com/api/v1/logs?after=1>; " ++ Js.rel_next) |}.

Definition last_page (evs : list LogEvent) : Response :=
  {| data := evs; headers_link := None |}.

Definition three_pages : list Response :=
  [ page_with_next [ev "a"; ev "b"];
    page_with_next [ev "c"; ev "d"];
    last_page [ev "e"] ].

Definition one_page : list Response := [ last_page [ev "e"] ].

(** A rejected request: 401 with an error summary. *)
Definition unauthorized : JsError :=
  {| response := Some {| status := 401;
                         error_data := DataBody (Some "Invalid token provided");
                         statusText := "Unauthorized" |};
     request := true;
     message := "Request failed with status code 401" |}.

(** A rejected request whose body is the JSON value null: axios parses it and
    hands over [data: null]. *)
Definition null_reply : ErrorResponse :=
  {| status := 500; error_data := DataNull; statusText := "Internal Server Error" |}.

Definition null_body : JsError :=
  {| response := Some null_reply;
     request := true;
     message := "Request failed with status code 500" |}.

(** A rule tagged OIE whose query is empty, and two ordinary rules. *)
Definition blank_rule : Detection :=
  {| title := "blank rule"; description := None; threat := None;
     false_positives := []; filename := "blank.yml"; sourceType := "detection";
     queryType := "OIE"; query := "" |}.

Definition rule (n : string) : Detection :=
  {| title := n; description := None; threat := None;
     false_positives := []; filename := n ++ ".yml"; sourceType := "detection";
     queryType := "OIE"; query := "eventType sw " ++ n |}.

Definition no_config : Config := {| cfg_domain := "acme.okta.com"; cfg_query := None |}.

(** A rejected request with an ordinary API error. *)
Definition bad_request : JsError :=
  {| response := Some {| status := 400;
                         error_data := DataBody (Some "Invalid filter");
                         statusText := "Bad Request" |};
     request := true;
     message := "Request failed with status code 400" |}.

Definition three_rules : list Detection := [rule "a"; rule "b"; rule "c"].

(** The second of three queries is rejected. *)
Definition second_fails : MockWorld :=
  scripted [ inr (last_page [ev "x"]); inl bad_request; inr (last_page [ev "y"; ev "z"]) ].

(** No event, six events, a rejected request. *)
Definition none_six_error : MockWorld :=
  scripted [ inr (last_page []);
             inr (last_page [ev "1"; ev "2"; ev "3"; ev "4"; ev "5"; ev "6"]);
             inl bad_request ].

(** GitHub with the listing of [detections] down and two rule files under
    [hunts], the second with a blank query. *)
Definition hunts_only (url : string) : JsError + AxiosData :=
  if String.eqb url "https://api.github.com/repos/okta/customer-detections/contents/hunts"
  then inr (DataArray [ {| fe_name := "h1.yml" |};
                        {| fe_name := "README.md" |};
                        {| fe_name := "h2.yml" |} ])
  else if String.eqb url
    "https://raw.githubusercontent.com/okta/customer-detections/master/hunts/h1.yml"
  then inr (DataText "eventType sw user ")
  else if String.eqb url
    "https://raw.githubusercontent.com/okta/customer-detections/master/hunts/h2.yml"
  then inr (DataText "   ")
  else inl unreachable.

Definition cache_path : string := "/app/detections/detections.json".

(** Worlds for the loader: GitHub as above or down, with a cache text. *)
Definition with_cache (gh : string -> JsError + AxiosData) (text : string) : MockWorld :=
  {| replies := []; github := gh; files := [(cache_path, text)] |}.

Definition github_down (url : string) : JsError + AxiosData := inl unreachable.

(** A configuration with a limit below zero, and a rule in another dialect. *)
Definition negative_config : Config :=
  {| cfg_domain := "acme.okta.com";
     cfg_query := Some {| cfg_since := None; cfg_limit := Some (-1)%Z |} |}.

Definition splunk_rule : Detection :=
  {| title := "splunk rule"; description := None; threat := None;
     false_positives := []; filename := "splunk.yml"; sourceType := "detection";
     queryType := "Splunk"; query := "index=okta" |}.

(** The scripted platform with a file system that fails: a cache directory
    that cannot be made, or a cache file that cannot be written. *)
Definition faulty (mkdir_ok write_ok : bool) : Platform :=
  {| World := MockWorld;
     client_get := mock_client_get;
     axios_get := fun url w => (github w url, w);
     fs_mkdir := fun _ w =>
       (if mkdir_ok then inr tt
        else inl (new_Error "EACCES: permission denied, mkdir"), w);
     fs_readFile := mock_readFile;
     fs_writeFile := fun path content w =>
       if write_ok then mock_writeFile path content w
       else (inl (new_Error "ENOSPC: no space left on device"), w);
     pdf_generateReport := fun _ _ w => (inr "okta-security-scan.pdf", w);
     yaml_load := mock_yaml_load;
     JSON_parse := mock_JSON_parse;
     JSON_stringify := mock_JSON_stringify |}.

Definition faulty_state (mkdir_ok write_ok : bool) (w : MockWorld) (tr : list Effect)
    : State (P := faulty mkdir_ok write_ok) :=
  @Build_State (faulty mkdir_ok write_ok) w tr.

(** A world for a run from the cache: GitHub down, a cache text, and a
    script for the log end point. *)
Definition offline (text : string) (rs : list (JsError + Response)) : MockWorld :=
  {| replies := rs; github := github_down; files := [(cache_path, text)] |}.

End Mock.

(** ** Vocabulary of the statements *)

(** Requests and delays in a trace. *)
Definition is_request (e : Effect) : bool :=
  match e with EHttpGet _ _ => true | _ => false end.

Definition is_delay (e : Effect) : bool :=
  match e with ESleep _ => true | _ => false end.

Definition is_remote (e : Effect) : bool :=
  match e with EHttpGet _ _ | EAxiosGet _ => true | _ => false end.

Definition requests (tr : list Effect) : nat := List.length (filter is_request tr).
Definition delays (tr : list Effect) : nat := List.length (filter is_delay tr).

(** A request followed by its pacing delay, for each request of [reqs]. *)
Definition paced (reqs : list (string * option Params)) : list Effect :=
  flat_map (fun r => [EHttpGet (fst r) (snd r); ESleep 100]) reqs.

(** All events of a sequence of pages, in order. *)
Definition events_of (pages : list Response) : list LogEvent :=
  List.concat (map data pages).

(** The link header of a page holds a well-formed link marked [rel="next"]:
    [<u>;], optional white space, [rel="next"]. *)
Definition carries_next (page : Response) : Prop :=
  exists pre u ws post,
    headers_link page = Some (pre ++ "<" ++ u ++ ">;" ++ ws ++ Js.rel_next ++ post)
    /\ u <> "" /\ Js.includes u ">" = false /\ Js.trimStart ws = "".

(** The page has no link header, or one without [rel="next"]. *)
Definition carries_no_next (page : Response) : Prop :=
  match headers_link page with
  | None => True
  | Some h => Js.includes h Js.rel_next = false
  end.

(** Page [k] (from 1) of [N] carries a next link for [k < N], page [N] none. *)
Definition linked (pages : list Response) : Prop :=
  pages <> [] /\
  forall k page, nth_error pages k = Some page ->
    if (S k <? List.length pages)%nat then carries_next page else carries_no_next page.

(** The same, page by page. *)
Fixpoint chain (pages : list Response) : Prop :=
  match pages with
  | [] => False
  | [page] => carries_no_next page
  | page :: (_ :: _) as pages' => carries_next page /\ chain pages'
  end.

Section Vocabulary.
Context {P : Platform}.

(** The log end point answers the coming requests, whatever they ask, with
    the pages of the list in turn. *)
Fixpoint Serves (w : World) (pages : list Response) : Prop :=
  match pages with
  | [] => True
  | page :: pages' =>
      forall url params, exists w',
        client_get url params w = (inr page, w') /\ Serves w' pages'
  end.

End Vocabulary.

(** The result recorded for a descriptor whose query threw [inl e] or
    returned [inr evs]. *)
Definition outcome_result (d : Detection) (o : JsError + list LogEvent) : DetectionResult :=
  match o with
  | inl e => DetectionRunner.failure_of d e
  | inr evs => DetectionRunner.result_of d evs
  end.

Definition results_for (ds : list Detection) (outs : list (JsError + list LogEvent))
    : list DetectionResult :=
  map (fun p => outcome_result (fst p) (snd p)) (combine ds outs).

Definition is_thrown (o : JsError + list LogEvent) : bool :=
  match o with inl _ => true | inr _ => false end.

Definition has_findings (r : DetectionResult) : bool :=
  (0 <? List.length (events r))%nat.

Definition has_error (r : DetectionResult) : bool :=
  match error r with Some _ => true | None => false end.

(** What one descriptor adds to the summary, by the outcome of its query. *)
Definition record_outcome (results : Results) (d : Detection)
    (o : JsError + list LogEvent) : Results :=
  match o with
  | inl e => DetectionRunner.record_failure results d e
  | inr evs => DetectionRunner.record_success results (DetectionRunner.result_of d evs)
  end.

Fixpoint tally (results : Results) (ds : list Detection)
    (outs : list (JsError + list LogEvent)) : Results :=
  match ds, outs with
  | d :: ds', o :: outs' => tally (record_outcome results d o) ds' outs'
  | _, _ => results
  end.

(** The result [r] carries the fields of the descriptor [d]. *)
Definition describes (d : Detection) (r : DetectionResult) : Prop :=
  r_title r = title d /\ r_description r = description d
  /\ r_threat r = threat d /\ r_false_positives r = false_positives d.

(** The number of matched events over a list of results. *)
Definition event_count (rs : list DetectionResult) : nat :=
  list_sum (map (fun r => List.length (events r)) rs).

Section RunnerVocabulary.
Context {P : Platform}.
Variable domain : string.
Variable config : Config.
Variable fuel : nat.

(** The state once the delay between two detections is over. *)
Definition after_delay (st : State) : State :=
  {| world := world st; trace := trace st ++ [ESleep 200] |}.

(** The outcomes of the queries of the descriptors [ds], asked in turn from
    state [st] with the delay of the runner after each: [inl e] for a query
    that throws [e], [inr evs] for one that returns [evs]. *)
Inductive QueryRun : State -> list Detection -> list (JsError + list LogEvent)
                     -> State -> Prop :=
| QueryRun_nil st : QueryRun st [] [] st
| QueryRun_returns st d ds evs st1 outs st2 :
    OktaClient.querySystemLog domain fuel (query d)
      (DetectionRunner.config_since config) (Some (DetectionRunner.config_limit config)) st
      = (Returned evs, st1) ->
    QueryRun (after_delay st1) ds outs st2 ->
    QueryRun st (d :: ds) (inr evs :: outs) st2
| QueryRun_throws st d ds e st1 outs st2 :
    OktaClient.querySystemLog domain fuel (query d)
      (DetectionRunner.config_since config) (Some (DetectionRunner.config_limit config)) st
      = (Thrown e, st1) ->
    QueryRun (after_delay st1) ds outs st2 ->
    QueryRun st (d :: ds) (inl e :: outs) st2.

End RunnerVocabulary.

(** What the collections add to the loaded set: nothing for a listing that
    failed. *)
Definition contributed (outs : list (JsError + list Detection)) : list Detection :=
  flat_map (fun o => match o with inl _ => [] | inr found => found end) outs.

Definition listing_failed (o : JsError + list Detection) : bool :=
  match o with inl _ => true | inr _ => false end.

Section LoaderVocabulary.
Context {P : Platform}.

(** The outcome of reading the cache file cannot be used: the read failed,
    or the text does not parse. *)
Definition cache_unusable (r : JsError + string) : Prop :=
  match r with
  | inl _ => True
  | inr text => exists e, JSON_parse text = inl e
  end.

(** The outcomes of the collections [srcs], fetched in turn from state [st]:
    [inl e] for a collection whose listing throws [e], [inr found] for one
    whose listing answers and whose files yield the descriptors [found]. *)
Inductive Collections : State -> list DetectionLoader.Source
                        -> list (JsError + list Detection) -> State -> Prop :=
| Collections_nil st : Collections st [] [] st
| Collections_fails st source srcs e st1 outs st2 :
    DetectionLoader.list_files source st = (Thrown e, st1) ->
    Collections st1 srcs outs st2 ->
    Collections st (source :: srcs) (inl e :: outs) st2
| Collections_yields st source srcs files st1 found st2 outs st3 :
    DetectionLoader.list_files source st = (Returned files, st1) ->
    DetectionLoader.load_files source files [] st1 = (Returned found, st2) ->
    Collections st2 srcs outs st3 ->
    Collections st (source :: srcs) (inr found :: outs) st3.

End LoaderVocabulary.

(** The text [rel="self"] of the link to the page itself. *)
Definition rel_self : string :=
  Eval cbv in "rel=" ++ String (ascii_of_nat 34) "self" ++ String (ascii_of_nat 34) "".

(** The effects of a query: requests to the log end point and delays of
    100 ms. *)
Definition query_effect (e : Effect) : bool :=
  match e with
  | EHttpGet _ _ => true
  | ESleep ms => (ms =? 100)%nat
  | _ => false
  end.

(** The effects of the remote phase of a load: requests to GitHub and delays
    of 100 ms. *)
Definition github_effect (e : Effect) : bool :=
  match e with
  | EAxiosGet _ => true
  | ESleep ms => (ms =? 100)%nat
  | _ => false
  end.

(** The delay that follows a detection. *)
Definition is_rule_delay (e : Effect) : bool :=
  match e with
  | ESleep ms => (ms =? 200)%nat
  | _ => false
  end.

Definition rule_delays (tr : list Effect) : nat :=
  List.length (filter is_rule_delay tr).

(** The requests to GitHub and to the log end point, in their order. *)
Definition remote_calls (tr : list Effect) : list Effect := filter is_remote tr.

(** A query that matched nothing or that threw. *)
Definition without_events (o : JsError + list LogEvent) : bool :=
  match o with
  | inl _ => true
  | inr [] => true
  | inr (_ :: _) => false
  end.

(** The descriptor has what a remote load gives every descriptor. *)
Definition loaded_from (srcs : list DetectionLoader.Source) (d : Detection) : Prop :=
  queryType d = "OIE"
  /\ Js.endsWith (filename d) ".yml" = true
  /\ In (sourceType d) (map DetectionLoader.type srcs)
  /\ Js.trim (query d) = query d.

(** What the loader gives a descriptor it builds from a file of [source]
    whose name is among [names]. *)
Definition built_from (source : DetectionLoader.Source) (names : list string)
    (d : Detection) : Prop :=
  queryType d = "OIE" /\ In (filename d) names
  /\ sourceType d = DetectionLoader.type source /\ Js.trim (query d) = query d.

(** An argument that switches something on and takes no value. *)
Definition is_list_switch (arg : string) : bool :=
  SecurityHealthCheck.is_one_of arg "--list" "-l".

Definition is_offline_switch (arg : string) : bool :=
  SecurityHealthCheck.is_one_of arg "--offline" "-o".

Definition takes_value (arg : string) : bool :=
  SecurityHealthCheck.is_one_of arg "--detection" "-d"
  || SecurityHealthCheck.is_one_of arg "--since" "-s".

Section FailureVocabulary.
Context {P : Platform}.

(** The log end point answers with the pages of the list in turn and rejects
    the request after them with [e]. *)
Fixpoint ServesThenRejects (w : World) (pages : list Response) (e : JsError) : Prop :=
  match pages with
  | [] => forall url params, exists w', client_get url params w = (inl e, w')
  | page :: pages' =>
      forall url params, exists w',
        client_get url params w = (inr page, w') /\ ServesThenRejects w' pages' e
  end.

End FailureVocabulary.

(** Reading a text from left to right, is a [<] still waiting for its [>]
    at the end?  [open] tells whether one is waiting at the start. *)
Fixpoint scan_links (s : string) (open : bool) : bool :=
  match s with
  | EmptyString => negb open
  | String c s' =>
      if Ascii.eqb c "<" then scan_links s' true
      else if Ascii.eqb c ">" then scan_links s' false
      else scan_links s' open
  end.

(** The text is made of whole links: no [<] is left without a [>] after
    it. *)
Definition links_closed (s : string) : bool := scan_links s false.

(** The link header of [page] holds, after whole links of which none is
    marked [rel="next"], a link marked [rel="next"]: the first next link of
    the page.  [next] is its target with the base URL of the client taken
    off, which is the path for a target under the base URL. *)
Definition next_link_to (domain : string) (page : Response) (next : string) : Prop :=
  exists pre target ws post,
    headers_link page
    = Some (pre ++ "<" ++ target ++ ">;" ++ ws ++ Js.rel_next ++ post)
    /\ links_closed pre = true
    /\ Js.includes pre Js.rel_next = false
    /\ target <> ""
    /\ Js.includes target ">" = false
    /\ Js.trimStart ws = ""
    /\ next = Js.replace_first (OktaClient.baseUrl domain) target.

Section RoutingVocabulary.
Context {P : Platform}.
Variable domain : string.

(** A log end point that answers by the URL asked.  [route] lists the
    pages with the URL each is served at: a request to the URL of a page,
    whatever its parameters, is answered with that page; every page but the
    last carries a next link, and the page after it is served at the target
    of that link without the base URL; the last page carries no next link.
    What the end point answers at other URLs is left open. *)
Fixpoint Routed (w : World) (route : list (string * Response)) : Prop :=
  match route with
  | [] => True
  | (url, page) :: rest =>
      match rest with
      | [] => carries_no_next page
      | (next, _) :: _ => next_link_to domain page next
      end
      /\ forall sent, exists w',
           client_get url sent w = (inr page, w') /\ Routed w' rest
  end.

End RoutingVocabulary.

(** *** A log end point routed by URL, for concrete runs *)

Module MockRouted.

Definition not_found : JsError :=
  {| response := Some {| status := 404;
                         error_data := DataBody (Some "Not found");
                         statusText := "Not Found" |};
     request := true;
     message := "Request failed with status code 404" |}.

(** Three pages: the first at [/logs], each of the first two linking to the
    next, the second with a link to itself before the next link. *)
Definition first_page : Response :=
  {| data := [Mock.ev "a"; Mock.ev "b"];
     headers_link :=
       Some ("<https://acme.okta.com/api/v1/logs?after=1>; " ++ Js.rel_next) |}.

Definition second_page : Response :=
  {| data := [Mock.ev "c"; Mock.ev "d"];
     headers_link :=
       Some ("<https://acme.okta.com/api/v1/logs?after=1>; " ++ rel_self ++ ", "
             ++ "<https://acme.okta.com/api/v1/logs?after=2>; " ++ Js.rel_next) |}.

Definition third_page : Response := Mock.last_page [Mock.ev "e"].

Definition answer (url : string) : JsError + Response :=
  if String.eqb url "/logs" then inr first_page
  else if String.eqb url "/logs?after=1" then inr second_page
  else if String.eqb url "/logs?after=2" then inr third_page
  else inl not_found.

Definition route : list (string * Response) :=
  [ ("/logs", first_page); ("/logs?after=1", second_page); ("/logs?after=2", third_page) ].

(** The platform: the log end point answers by URL and keeps no state. *)
Definition platform : Platform :=
  {| World := unit;
     client_get := fun url _ w => (answer url, w);
     axios_get := fun _ w => (inl Mock.unreachable, w);
     fs_mkdir := fun _ w => (inr tt, w);
     fs_readFile := fun _ w => (inl (new_Error "ENOENT: no such file or directory"), w);
     fs_writeFile := fun _ _ w => (inr tt, w);
     pdf_generateReport := fun _ _ w => (inr "okta-security-scan.pdf", w);
     yaml_load := Mock.mock_yaml_load;
     JSON_parse := Mock.mock_JSON_parse;
     JSON_stringify := Mock.mock_JSON_stringify |}.

Definition start : State (P := platform) := @Build_State platform tt [].

End MockRouted.

(** ** Facts about the string primitives *)

Module JsFacts.

Lemma starts_with_app (a b : string) : Js.starts_with a (a ++ b) = true.
Proof.
  induction a as [|c a IH]; cbn [Js.starts_with append].
  - reflexivity.
  - now rewrite Ascii.eqb_refl, IH.
Qed.

Lemma includes_prefix (s sub : string) :
  Js.starts_with sub s = true -> Js.includes s sub = true.
Proof. intros H. destruct s; cbn [Js.includes]; now rewrite H. Qed.

Lemma includes_app (pre a post : string) : Js.includes (pre ++ a ++ post) a = true.
Proof.
  induction pre as [|c pre IH].
  - change ("" ++ a ++ post) with (a ++ post).
    apply includes_prefix, starts_with_app.
  - change (String c pre ++ a ++ post) with (String c (pre ++ a ++ post)).
    cbn [Js.includes].
    destruct (Js.starts_with a (String c (pre ++ a ++ post))); [reflexivity|].
    exact IH.
Qed.

Lemma app_assoc (a b c : string) : (a ++ b) ++ c = a ++ b ++ c.
Proof. induction a as [|x a IH]; simpl; [reflexivity | now rewrite IH]. Qed.

Lemma app_nil_r (a : string) : a ++ "" = a.
Proof. induction a as [|x a IH]; cbn [append]; [reflexivity | now rewrite IH]. Qed.

(** A string includes what it ends with, at any depth of concatenation. *)
Lemma includes_end (a b c d : string) : Js.includes (a ++ b ++ c ++ d) d = true.
Proof.
  replace (a ++ b ++ c ++ d) with ((a ++ b ++ c) ++ d ++ "")
    by (now rewrite app_nil_r, !app_assoc).
  apply includes_app.
Qed.

Lemma trimStart_app (ws s : string) :
  Js.trimStart ws = "" -> Js.trimStart (ws ++ s) = Js.trimStart s.
Proof.
  induction ws as [|c ws IH]; simpl; [reflexivity|].
  destruct (Js.is_space c); [exact IH | discriminate].
Qed.

Lemma span_not_gt_app (u r : string) :
  Js.includes u ">" = false ->
  Js.span_not_gt (u ++ String ">" r) = (u, String ">" r).
Proof.
  induction u as [|c u IH]; intros H.
  - reflexivity.
  - cbn [Js.includes Js.starts_with] in H.
    cbn [append Js.span_not_gt].
    rewrite (Ascii.eqb_sym c ">").
    destruct (Ascii.eqb ">" c); cbn [andb] in H; [discriminate H|].
    now rewrite IH.
Qed.

Lemma match_next_here_link (u ws post : string) :
  u <> "" -> Js.includes u ">" = false -> Js.trimStart ws = "" ->
  Js.match_next_here ("<" ++ u ++ ">;" ++ ws ++ Js.rel_next ++ post) = Some u.
Proof.
  intros Hu Hgt Hws.
  change ("<" ++ u ++ ">;" ++ ws ++ Js.rel_next ++ post)
    with (String "<" (u ++ String ">" (String ";" (ws ++ Js.rel_next ++ post)))).
  unfold Js.match_next_here.
  rewrite span_not_gt_app by assumption.
  destruct u as [|c u]; [now elim Hu|].
  rewrite trimStart_app by assumption.
  change (Js.trimStart (Js.rel_next ++ post)) with (Js.rel_next ++ post).
  now rewrite starts_with_app.
Qed.

Lemma match_next_app (pre s g : string) :
  Js.match_next_here s = Some g -> exists g', Js.match_next (pre ++ s) = Some g'.
Proof.
  intros H. induction pre as [|c pre IH].
  - exists g. change ("" ++ s) with s.
    destruct s; cbn [Js.match_next]; now rewrite H.
  - change (String c pre ++ s) with (String c (pre ++ s)).
    cbn [Js.match_next].
    destruct (Js.match_next_here (String c (pre ++ s))) as [g0|]; [now exists g0|].
    exact IH.
Qed.

(** [slice(0, limit)] of a list that already has [limit] elements or of a
    shorter one. *)
Lemma slice0_firstn {A} (l : list A) (e : Z) :
  (0 <= e)%Z -> Js.slice0 l e = firstn (Z.to_nat e) l.
Proof.
  intros He. unfold Js.slice0.
  destruct (e <? 0)%Z eqn:E; [apply Z.ltb_lt in E; lia|].
  destruct (Z.le_gt_cases e (Z.of_nat (List.length l))) as [Hle|Hgt].
  - now rewrite Z.min_l.
  - rewrite Z.min_r by lia. rewrite Nat2Z.id.
    rewrite !firstn_all2; [reflexivity | lia | lia].
Qed.

End JsFacts.

(** ** The query client *)

Module OktaClientFacts.
Import OktaClient.

Lemma linked_chain (pages : list Response) : linked pages -> chain pages.
Proof.
  intros [Hne H].
  induction pages as [|p ps IH]; [now elim Hne|].
  destruct ps as [|p' ps'].
  - exact (H 0%nat p eq_refl).
  - split.
    + exact (H 0%nat p eq_refl).
    + apply IH; [discriminate|].
      intros k page Hk. exact (H (S k) page Hk).
Qed.

Section Client.
Context {P : Platform}.
Variable domain : string.

Lemma follow_link_next (url : string) (page : Response) :
  carries_next page -> snd (follow_link domain url (headers_link page)) = true.
Proof.
  intros (pre & u & ws & post & Hh & Hu & Hgt & Hws).
  unfold follow_link. rewrite Hh.
  assert (Ht : truthy (pre ++ "<" ++ u ++ ">;" ++ ws ++ Js.rel_next ++ post) = true).
  { unfold truthy. destruct pre; reflexivity. }
  rewrite Ht. cbn [andb].
  assert (Hi : Js.includes (pre ++ "<" ++ u ++ ">;" ++ ws ++ Js.rel_next ++ post)
                 Js.rel_next = true).
  { replace (pre ++ "<" ++ u ++ ">;" ++ ws ++ Js.rel_next ++ post)
      with ((pre ++ "<" ++ u ++ ">;" ++ ws) ++ Js.rel_next ++ post)
      by (now rewrite !JsFacts.app_assoc).
    apply JsFacts.includes_app. }
  rewrite Hi.
  destruct (JsFacts.match_next_app pre _ u
              (JsFacts.match_next_here_link u ws post Hu Hgt Hws)) as [g Hg].
  now rewrite Hg.
Qed.

Lemma follow_link_last (url : string) (page : Response) :
  carries_no_next page -> follow_link domain url (headers_link page) = (url, false).
Proof.
  unfold carries_no_next, follow_link.
  destruct (headers_link page) as [h|]; [|reflexivity].
  intros ->. now rewrite andb_false_r.
Qed.

Lemma pagination_done (fuel : nat) params limit results url st :
  pagination domain fuel params limit results url false st = (Returned results, st).
Proof. destruct fuel; reflexivity. Qed.

Lemma pagination_full (fuel : nat) params limit results url hasMore st :
  (limit <= Z.of_nat (List.length results))%Z ->
  pagination domain fuel params limit results url hasMore st = (Returned results, st).
Proof.
  intros H. apply Z.ltb_ge in H.
  destruct fuel; cbn [pagination]; rewrite H, andb_false_r; reflexivity.
Qed.

(** One iteration whose request is answered. *)
Lemma pagination_step (fuel : nat) params limit results url w tr page w' :
  (Z.of_nat (List.length results) < limit)%Z ->
  let sent := if String.eqb url "/logs" then Some params else None in
  client_get url sent w = (inr page, w') ->
  pagination domain (S fuel) params limit results url true {| world := w; trace := tr |}
  = pagination domain fuel params limit (results ++ data page)
      (fst (follow_link domain url (headers_link page)))
      (snd (follow_link domain url (headers_link page)))
      {| world := w'; trace := tr ++ [EHttpGet url sent; ESleep 100] |}.
Proof.
  intros Hlt sent Hget. apply Z.ltb_lt in Hlt.
  cbn [pagination]. rewrite Hlt. cbn [andb].
  unfold bind, get, perform, sleep. cbn [world trace]. fold sent. rewrite Hget.
  destruct (follow_link domain url (headers_link page)) as [url' more].
  cbn [world trace fst snd]. rewrite <- List.app_assoc. reflexivity.
Qed.

Lemma events_of_cons (page : Response) (pages : list Response) :
  events_of (page :: pages) = (data page ++ events_of pages)%list.
Proof. reflexivity. Qed.

Lemma events_of_split (k : nat) (pages : list Response) :
  events_of pages = (events_of (firstn k pages) ++ events_of (skipn k pages))%list.
Proof.
  unfold events_of. rewrite <- concat_app, <- map_app, firstn_skipn. reflexivity.
Qed.

(** The loop over a chain of pages: it consumes [k] of them, asks one
    request per page and sleeps after each, and goes on exactly as long as
    fewer than [limit] events are accumulated. *)
Lemma pagination_chain params limit :
  forall pages, chain pages ->
  forall fuel results url w tr,
    Serves w pages -> (List.length pages <= fuel)%nat ->
    exists k reqs w',
      pagination domain fuel params limit results url true {| world := w; trace := tr |}
      = (Returned (results ++ events_of (firstn k pages))%list,
         {| world := w'; trace := tr ++ paced reqs |})
      /\ List.length reqs = k
      /\ (k <= List.length pages)%nat
      /\ ((k < List.length pages)%nat ->
          (limit <= Z.of_nat (List.length (results ++ events_of (firstn k pages))))%Z)
      /\ (forall j, (j < k)%nat ->
          (Z.of_nat (List.length (results ++ events_of (firstn j pages))) < limit)%Z)
      /\ (forall r, hd_error reqs = Some r ->
          r = (url, if String.eqb url "/logs" then Some params else None)).
Proof.
  induction pages as [|page pages IH]; [intros []|].
  intros Hchain fuel results url w tr Hserves Hfuel.
  destruct (Z.le_gt_cases limit (Z.of_nat (List.length results))) as [Hfull|Hroom].
  - (* the limit is reached before any request *)
    exists 0%nat, [], w. cbn [firstn paced flat_map].
    change (events_of []) with (@nil LogEvent).
    rewrite !List.app_nil_r, pagination_full by assumption.
    repeat split; cbn [List.length hd_error]; try lia; try discriminate.
  - destruct fuel as [|fuel]; [cbn [List.length] in Hfuel; lia|].
    cbn [Serves] in Hserves.
    destruct (Hserves url (if String.eqb url "/logs" then Some params else None))
      as (w1 & Hget & Hrest).
    rewrite (pagination_step fuel params limit results url w tr page w1)
      by (assumption || lia).
    destruct pages as [|page' pages'].
    + (* the last page *)
      cbn [chain] in Hchain. rewrite (follow_link_last _ _ Hchain).
      cbn [fst snd]. rewrite pagination_done.
      exists 1%nat, [(url, if String.eqb url "/logs" then Some params else None)], w1.
      cbn [firstn paced flat_map fst snd List.app].
      rewrite events_of_cons. change (events_of []) with (@nil LogEvent).
      rewrite !List.app_nil_r.
      repeat split; cbn [List.length hd_error]; try lia.
      * intros j Hj. assert (j = 0%nat) as -> by lia.
        cbn [firstn]. change (events_of []) with (@nil LogEvent).
        rewrite List.app_nil_r. lia.
      * intros r [= <-]. reflexivity.
    + (* a page with a link to the next one *)
      destruct Hchain as [Hnext Hchain].
      pose proof (follow_link_next url page Hnext) as Hmore.
      destruct (follow_link domain url (headers_link page)) as [url' more].
      cbn [fst snd] in *. subst more.
      destruct (IH Hchain fuel (results ++ data page)%list url' w1
                  (tr ++ [EHttpGet url (if String.eqb url "/logs" then Some params else None);
                          ESleep 100])%list Hrest)
        as (k & reqs & w' & Hrun & Hlen & Hk & Hstop & Hgo & _).
      { cbn [List.length] in *. lia. }
      exists (S k), ((url, if String.eqb url "/logs" then Some params else None) :: reqs), w'.
      rewrite Hrun. cbn [firstn paced flat_map fst snd].
      rewrite events_of_cons.
      rewrite <- !List.app_assoc. cbn [List.app].
      cbn [List.length] in Hk.
      repeat split; cbn [List.length hd_error]; try lia.
      * intros Hlt. rewrite List.app_assoc. apply Hstop.
        cbn [List.length]. lia.
      * intros [|j] Hj.
        -- cbn [firstn]. change (events_of []) with (@nil LogEvent).
           rewrite List.app_nil_r. lia.
        -- cbn [firstn]. rewrite events_of_cons, List.app_assoc.
           apply Hgo. lia.
      * intros r [= <-]. reflexivity.
Qed.

Lemma firstn_events_of (k : nat) (n : nat) (pages : list Response) :
  (n <= List.length (events_of (firstn k pages)))%nat ->
  firstn n (events_of (firstn k pages)) = firstn n (events_of pages).
Proof.
  intros H. rewrite (events_of_split k pages) at 1.
  rewrite firstn_app.
  replace (n - List.length (events_of (firstn k pages)))%nat with 0%nat by lia.
  cbn [firstn]. now rewrite List.app_nil_r.
Qed.

Lemma paced_counts (reqs : list (string * option Params)) :
  requests (paced reqs) = List.length reqs /\ delays (paced reqs) = List.length reqs.
Proof.
  induction reqs as [|r reqs [IHr IHd]]; [split; reflexivity|].
  change (paced (r :: reqs)) with (EHttpGet (fst r) (snd r) :: ESleep 100 :: paced reqs).
  unfold requests, delays in *.
  cbn [filter is_request is_delay List.length].
  now rewrite IHr, IHd.
Qed.

(** C5, as the code has it: with fewer than [limit] events in all, the query
    makes one request per page, the first one on [/logs] with the parameters,
    and awaits one delay of 100 ms after each request, the last one
    included: as many delays as requests. *)
Theorem querySystemLog_requests_and_delays
    (pages : list Response) (filter : string) (since : option string) (limit : Z)
    (fuel : nat) (w : World) (tr : list Effect) :
  linked pages -> Serves w pages -> (List.length pages <= fuel)%nat ->
  (Z.of_nat (List.length (events_of pages)) < limit)%Z ->
  exists reqs w',
    querySystemLog domain fuel filter since (Some limit) {| world := w; trace := tr |}
    = (Returned (events_of pages), {| world := w'; trace := tr ++ paced reqs |})
    /\ requests (paced reqs) = List.length pages
    /\ delays (paced reqs) = List.length pages
    /\ hd_error reqs = Some ("/logs", Some (build_params filter since limit)).
Proof.
  intros Hlinked Hserves Hfuel Hfew.
  destruct (pagination_chain (build_params filter since limit) limit pages
              (linked_chain pages Hlinked) fuel [] "/logs" w tr Hserves Hfuel)
    as (k & reqs & w' & Hrun & Hlen & Hk & Hstop & Hgo & Hfirst).
  cbn [List.app] in Hrun, Hstop, Hgo.
  assert (Hall : k = List.length pages).
  { destruct (Nat.eq_dec k (List.length pages)) as [E|NE]; [exact E|].
    assert (Hk' : (k < List.length pages)%nat) by lia.
    specialize (Hstop Hk').
    pose proof (f_equal (@List.length LogEvent) (events_of_split k pages)) as Hsplit.
    rewrite length_app in Hsplit. lia. }
  subst k. rewrite Hall, firstn_all in Hrun.
  exists reqs, w'.
  destruct (paced_counts reqs) as [Hr Hd].
  split; [|split; [|split]].
  - unfold querySystemLog, try_catch, bind, ret. rewrite Hrun. f_equal. f_equal.
    rewrite JsFacts.slice0_firstn by lia. apply firstn_all2. lia.
  - now rewrite Hr.
  - now rewrite Hd.
  - destruct reqs as [|r reqs].
    + destruct Hlinked as [Hne _]. destruct pages; [now elim Hne | discriminate Hall].
    + cbn [hd_error]. f_equal. exact (Hfirst r eq_refl).
Qed.

(** C10: with a limit of zero or less the guard of the loop fails at once:
    nothing is requested, the state is left as it was and the result is
    empty. *)
Theorem querySystemLog_nonpositive_limit
    (fuel : nat) (filter : string) (since : option string) (limit : Z) (st : State) :
  (limit <= 0)%Z ->
  querySystemLog domain fuel filter since (Some limit) st = (Returned [], st).
Proof.
  intros Hle.
  unfold querySystemLog, try_catch, bind, ret.
  rewrite pagination_full by (cbn [List.length]; lia).
  unfold Js.slice0. now rewrite firstn_nil.
Qed.

(** X21: whatever the try block throws goes through the catch block.  An
    error with a response whose data is a body becomes an error whose message
    holds the status code and the error summary of the body, or the reason
    phrase when the body has no summary or an empty one; with data that is
    null or undefined the catch block throws its own TypeError; an error with
    a request but no response becomes the network error, whose message no
    error with a response shares; any other error is thrown again as it
    is. *)
Theorem querySystemLog_error_normalization
    (fuel : nat) (filter : string) (since : option string) (limit : Z)
    (st st' : State) (e : JsError) :
  pagination domain fuel (build_params filter since limit) limit [] "/logs" true st
    = (Thrown e, st') ->
  querySystemLog domain fuel filter since (Some limit) st = (Thrown (normalize e), st')
  /\ (forall r summary, response e = Some r -> error_data r = DataBody summary ->
        Js.includes (message (normalize e)) (Js.decimal (status r)) = true
        /\ (forall s, summary = Some s -> s <> "" ->
              Js.includes (message (normalize e)) s = true)
        /\ (summary = None \/ summary = Some "" ->
              Js.includes (message (normalize e)) (statusText r) = true))
  /\ (forall r, response e = Some r ->
        (error_data r = DataNull ->
         normalize e
         = new_Error "Cannot read properties of null (reading 'errorSummary')")
        /\ (error_data r = DataUndefined ->
            normalize e
            = new_Error "Cannot read properties of undefined (reading 'errorSummary')"))
  /\ (response e = None -> request e = true ->
        normalize e = new_Error "Network error: Unable to reach Okta API"
        /\ forall e2 r2, response e2 = Some r2 ->
             message (normalize e2) <> message (normalize e))
  /\ (response e = None -> request e = false -> normalize e = e).
Proof.
  intros Hthrow. split; [|split; [|split; [|split]]].
  - unfold querySystemLog, try_catch, bind. rewrite Hthrow. reflexivity.
  - intros r summary Hr Hd. unfold normalize. rewrite Hr, Hd. cbn [message new_Error].
    split; [|split].
    + apply JsFacts.includes_app.
    + intros s -> Hne.
      assert (Ht : truthy s = true).
      { unfold truthy. destruct (String.eqb_spec s ""); [contradiction | reflexivity]. }
      rewrite Ht. apply JsFacts.includes_end.
    + intros [-> | ->]; apply JsFacts.includes_end.
  - intros r Hr. unfold normalize. rewrite Hr. split; intros ->; reflexivity.
  - intros Hr Hq. unfold normalize at 1 3. rewrite Hr, Hq. split; [reflexivity|].
    intros e2 r2 Hr2. unfold normalize. rewrite Hr2.
    destruct (error_data r2); cbn; discriminate.
  - intros Hr Hq. unfold normalize. now rewrite Hr, Hq.
Qed.

End Client.

(** *** Concrete runs on the scripted platform *)

Lemma page_with_next_carries (evs : list LogEvent) :
  carries_next (Mock.page_with_next evs).
Proof.
  exists "", "https://acme.okta.com/api/v1/logs?after=1", " ", "".
  repeat split; discriminate.
Qed.

Lemma three_pages_linked : linked Mock.three_pages.
Proof.
  split; [discriminate|].
  intros [|[|[|k]]] page Hk; cbn in Hk.
  - injection Hk as <-. apply page_with_next_carries.
  - injection Hk as <-. apply page_with_next_carries.
  - injection Hk as <-. exact I.
  - destruct k; discriminate Hk.
Qed.

Lemma one_page_linked : linked Mock.one_page.
Proof.
  split; [discriminate|].
  intros [|k] page Hk; cbn in Hk.
  - injection Hk as <-. exact I.
  - destruct k; discriminate Hk.
Qed.

Lemma scripted_serves (pages : list Response) :
  Serves (P := Mock.platform) (Mock.scripted (map inr pages)) pages.
Proof.
  induction pages as [|page pages IH]; [exact I|].
  intros url params. exists (Mock.scripted (map inr pages)).
  split; [reflexivity | exact IH].
Qed.

Lemma querySystemLog_requests_and_delays_witness :
  exists reqs w',
    querySystemLog (P := Mock.platform) "acme.okta.com" 3 "f" None (Some 100%Z)
      (Mock.start (Mock.scripted (map inr Mock.three_pages)))
    = (Returned (events_of Mock.three_pages), {| world := w'; trace := paced reqs |})
    /\ requests (paced reqs) = 3%nat /\ delays (paced reqs) = 3%nat.
Proof.
  destruct (querySystemLog_requests_and_delays (P := Mock.platform) "acme.okta.com"
              Mock.three_pages "f" None 100%Z 3
              (Mock.scripted (map inr Mock.three_pages)) []
              three_pages_linked (scripted_serves Mock.three_pages) (le_n 3)
              ltac:(cbn; lia))
    as (reqs & w' & Hrun & Hreq & Hdel & _).
  exists reqs, w'. repeat split; assumption.
Defined.

(** C5, as the spec has it, fails on a single page: one request, and one
    delay after it, where the spec has none. *)
Lemma querySystemLog_delay_after_last_page :
  let st' := snd (querySystemLog (P := Mock.platform) "acme.okta.com" 1 "f" None
                    (Some 100%Z) (Mock.start (Mock.scripted (map inr Mock.one_page)))) in
  linked Mock.one_page
  /\ (Z.of_nat (List.length (events_of Mock.one_page)) < 100)%Z
  /\ requests (trace st') = List.length Mock.one_page
  /\ delays (trace st') <> (List.length Mock.one_page - 1)%nat
  /\ last (trace st') (EMkdir "") = ESleep 100.
Proof.
  cbn zeta. split; [exact one_page_linked|].
  split; [cbn; lia|].
  split; [reflexivity|].
  split; [cbn; discriminate | reflexivity].
Qed.

Lemma querySystemLog_nonpositive_limit_witness :
  querySystemLog (P := Mock.platform) "acme.okta.com" 0 "f" None (Some 0%Z)
    (Mock.start (Mock.scripted (map inr Mock.one_page)))
  = (Returned [], Mock.start (Mock.scripted (map inr Mock.one_page))).
Proof.
  apply (querySystemLog_nonpositive_limit (P := Mock.platform)). lia.
Defined.

Lemma querySystemLog_error_normalization_witness :
  fst (querySystemLog (P := Mock.platform) "acme.okta.com" 1 "f" None (Some 100%Z)
         (Mock.start (Mock.scripted [inl Mock.unauthorized])))
  = Thrown (new_Error "Okta API Error: 401 - Invalid token provided").
Proof.
  destruct (querySystemLog_error_normalization (P := Mock.platform) "acme.okta.com"
              1 "f" None 100%Z
              (Mock.start (Mock.scripted [inl Mock.unauthorized]))
              (snd (pagination (P := Mock.platform) "acme.okta.com" 1
                      (build_params "f" None 100%Z) 100%Z [] "/logs" true
                      (Mock.start (Mock.scripted [inl Mock.unauthorized]))))
              Mock.unauthorized eq_refl)
    as (Hrun & _).
  rewrite Hrun. reflexivity.
Defined.

(** C8, the response without a body object: a 500 whose body is the JSON value
    null reaches the catch block with [error.response.data] null, and reading
    [errorSummary] from it throws a TypeError from inside the catch block.
    The error that reaches the caller holds neither the status code nor the
    reason phrase. *)
Theorem querySystemLog_null_body :
  let run := querySystemLog (P := Mock.platform) "acme.okta.com" 1 "f" None (Some 100%Z)
               (Mock.start (Mock.scripted [inl Mock.null_body])) in
  fst (pagination (P := Mock.platform) "acme.okta.com" 1
         (build_params "f" None 100%Z) 100%Z [] "/logs" true
         (Mock.start (Mock.scripted [inl Mock.null_body])))
  = Thrown Mock.null_body
  /\ exists e, fst run = Thrown e
       /\ e = new_Error "Cannot read properties of null (reading 'errorSummary')"
       /\ Js.includes (message e) (Js.decimal (status Mock.null_reply)) = false
       /\ Js.includes (message e) (statusText Mock.null_reply) = false
       /\ Js.starts_with "Okta API Error" (message e) = false.
Proof.
  cbn zeta. split; [reflexivity|].
  eexists. split; [reflexivity|]. repeat split.
Qed.

End OktaClientFacts.

(** ** The execution coordinator *)

Module DetectionRunnerFacts.
Import DetectionRunner.

Lemma tally_total results ds outs : total (tally results ds outs) = total results.
Proof.
  revert results outs. induction ds as [|d ds IH]; intros results [|o outs];
    cbn [tally]; try reflexivity.
  rewrite IH. now destruct o.
Qed.

Lemma tally_results results ds outs :
  detectionResults (tally results ds outs)
  = (detectionResults results ++ results_for ds outs)%list.
Proof.
  revert results outs. induction ds as [|d ds IH]; intros results [|o outs];
    cbn [tally results_for combine map]; try (now rewrite List.app_nil_r).
  rewrite IH. fold (results_for ds outs).
  destruct o; cbn [record_outcome record_failure record_success detectionResults
                   outcome_result fst snd];
    now rewrite <- List.app_assoc.
Qed.

Lemma tally_failed results ds outs :
  List.length ds = List.length outs ->
  failed (tally results ds outs)
  = (failed results + List.length (filter is_thrown outs))%nat.
Proof.
  revert results outs. induction ds as [|d ds IH]; intros results [|o outs] Hlen;
    cbn [tally filter List.length]; try discriminate; try lia.
  rewrite IH by (cbn [List.length] in Hlen; lia).
  destruct o; cbn [record_outcome record_failure record_success failed is_thrown
                   List.length]; lia.
Qed.

Lemma tally_success results ds outs :
  List.length ds = List.length outs ->
  (success (tally results ds outs) + List.length (filter is_thrown outs)
   = success results + List.length outs)%nat.
Proof.
  revert results outs. induction ds as [|d ds IH]; intros results [|o outs] Hlen;
    cbn [tally filter List.length]; try discriminate; try lia.
  specialize (IH (record_outcome results d o) outs).
  destruct o; cbn [record_outcome record_failure record_success success is_thrown
                   List.length] in *; lia.
Qed.

Lemma tally_findings results ds outs :
  withFindings (tally results ds outs)
  = (withFindings results + List.length (filter has_findings (results_for ds outs)))%nat
  /\ totalFindings (tally results ds outs)
     = (totalFindings results + event_count (filter has_findings (results_for ds outs)))%nat.
Proof.
  revert results outs. induction ds as [|d ds IH]; intros results [|o outs];
    try (cbn; split; lia).
  cbn [tally results_for combine map].
  fold (results_for ds outs).
  destruct (IH (record_outcome results d o) outs) as [IHw IHt].
  rewrite IHw, IHt. clear IH IHw IHt.
  destruct o as [e|evs]; cbn [record_outcome outcome_result fst snd].
  - split; reflexivity.
  - cbn [filter].
    change (has_findings (result_of d evs)) with (0 <? List.length evs)%nat.
    cbn [result_of events record_success withFindings totalFindings].
    destruct (0 <? List.length evs)%nat.
    + unfold event_count. cbn [List.length map list_sum events result_of].
      unfold list_sum. cbn [fold_right]. split; lia.
    + split; reflexivity.
Qed.

Lemma results_for_describes ds outs :
  List.length ds = List.length outs ->
  Forall2 describes ds (results_for ds outs).
Proof.
  revert outs. induction ds as [|d ds IH]; intros [|o outs] Hlen;
    try discriminate; cbn [results_for combine map]; constructor.
  - destruct o; repeat split.
  - apply IH. cbn [List.length] in Hlen. lia.
Qed.

Lemma results_for_errors ds outs r :
  In r (results_for ds outs) -> error r <> None ->
  events r = [] /\ has_findings r = false.
Proof.
  unfold results_for. rewrite in_map_iff.
  intros ([d o] & <- & _) Herr. cbn [fst snd] in *.
  destruct o as [e|evs]; [split; reflexivity|].
  now elim Herr.
Qed.

Lemma results_for_has_error ds outs :
  List.length ds = List.length outs ->
  List.length (filter has_error (results_for ds outs))
  = List.length (filter is_thrown outs).
Proof.
  revert outs. induction ds as [|d ds IH]; intros [|o outs] Hlen;
    try discriminate; [reflexivity|].
  cbn [results_for combine map filter]. fold (results_for ds outs).
  cbn [fst snd]. specialize (IH outs).
  destruct o; cbn [outcome_result has_error failure_of result_of error is_thrown
                   List.length]; rewrite IH; cbn [List.length] in *; lia.
Qed.

Lemma results_for_length ds outs :
  List.length ds = List.length outs ->
  List.length (results_for ds outs) = List.length ds.
Proof.
  intros H. unfold results_for. rewrite length_map, length_combine. lia.
Qed.

Lemma results_for_nth ds outs i d o :
  nth_error ds i = Some d -> nth_error outs i = Some o ->
  nth_error (results_for ds outs) i = Some (outcome_result d o).
Proof.
  revert outs i. induction ds as [|d0 ds IH]; intros [|o0 outs] [|i] Hd Ho;
    cbn [nth_error] in *; try discriminate.
  - now injection Hd as ->; injection Ho as ->.
  - exact (IH outs i Hd Ho).
Qed.

Section Runner.
Context {P : Platform}.
Variable domain : string.
Variable config : Config.
Variable fuel : nat.

Lemma QueryRun_length st ds outs st1 :
  QueryRun domain config fuel st ds outs st1 -> List.length ds = List.length outs.
Proof. induction 1; cbn [List.length]; congruence. Qed.

(** When no query runs out of fuel, every list of descriptors has its
    outcomes. *)
Lemma QueryRun_total :
  (forall q st,
     fst (OktaClient.querySystemLog domain fuel q (config_since config)
            (Some (config_limit config)) st) <> OutOfFuel) ->
  forall ds st, exists outs st1, QueryRun domain config fuel st ds outs st1.
Proof.
  intros Hfuel. induction ds as [|d ds IH]; intros st.
  - exists [], st. constructor.
  - destruct (OktaClient.querySystemLog domain fuel (query d) (config_since config)
                (Some (config_limit config)) st) as [[evs|e|] st1] eqn:Hq.
    + destruct (IH (after_delay st1)) as (outs & st2 & Hrest).
      exists (inr evs :: outs), st2. eapply QueryRun_returns; eassumption.
    + destruct (IH (after_delay st1)) as (outs & st2 & Hrest).
      exists (inl e :: outs), st2. eapply QueryRun_throws; eassumption.
    + specialize (Hfuel (query d) st). rewrite Hq in Hfuel. now elim Hfuel.
Qed.

(** The loop follows the outcomes of the queries. *)
Lemma detection_loop_run st ds outs st1 :
  QueryRun domain config fuel st ds outs st1 ->
  forall i len results,
    detection_loop domain config fuel ds i len results st
    = (Returned (tally results ds outs), st1).
Proof.
  induction 1 as [st | st d ds evs st1 outs st2 Hq _ IH | st d ds e st1 outs st2 Hq _ IH];
    intros i len results.
  - reflexivity.
  - cbn [detection_loop tally].
    unfold bind at 1. unfold try_catch, bind at 1, runDetectionWithEvents, bind at 1.
    rewrite Hq. cbn [ret]. unfold bind, sleep.
    fold (after_delay st1). apply IH.
  - cbn [detection_loop tally].
    unfold bind at 1. unfold try_catch, bind at 1, runDetectionWithEvents, bind at 1.
    rewrite Hq. cbn [ret]. unfold bind, sleep.
    fold (after_delay st1). apply IH.
Qed.

(** The report is generated or not; the caller gets [results] either way. *)
Lemma generate_pdf_returns results st :
  exists st', generate_pdf config results st = (Returned tt, st').
Proof.
  unfold generate_pdf, try_catch, bind, perform, ret.
  destruct (pdf_generateReport results config (world st)) as [[e|path] w];
    eexists; reflexivity.
Qed.

Lemma runAllDetections_run detections st outs st1 :
  QueryRun domain config fuel st (executable_of detections) outs st1 ->
  exists st2,
    runAllDetections domain config fuel detections st
    = (Returned (tally (initial_results (executable_of detections))
                       (executable_of detections) outs), st2).
Proof.
  intros Hrun. unfold runAllDetections, bind.
  rewrite (detection_loop_run _ _ _ _ Hrun).
  destruct (generate_pdf_returns
              (tally (initial_results (executable_of detections))
                     (executable_of detections) outs) st1) as [st2 Hpdf].
  rewrite Hpdf. now exists st2.
Qed.

(** C1: whatever the queries answer, the run returns a summary.  A query
    that throws is recorded at the place of its descriptor with the fields of
    the descriptor, the message of the error and no events, and is counted
    in [failed]; the descriptors after it are queried all the same and their
    results recorded. *)
Theorem runAllDetections_isolates_failures detections outs st st1 :
  QueryRun domain config fuel st (executable_of detections) outs st1 ->
  exists summary st2,
    runAllDetections domain config fuel detections st = (Returned summary, st2)
    /\ List.length (detectionResults summary) = List.length (executable_of detections)
    /\ failed summary = List.length (filter is_thrown outs)
    /\ (forall i d e,
          nth_error (executable_of detections) i = Some d ->
          nth_error outs i = Some (inl e) ->
          exists r, nth_error (detectionResults summary) i = Some r
                    /\ describes d r /\ events r = [] /\ error r = Some (message e))
    /\ (forall i d evs,
          nth_error (executable_of detections) i = Some d ->
          nth_error outs i = Some (inr evs) ->
          exists r, nth_error (detectionResults summary) i = Some r
                    /\ describes d r /\ events r = evs /\ error r = None).
Proof.
  intros Hrun.
  destruct (runAllDetections_run detections st outs st1 Hrun) as [st2 Hall].
  pose proof (QueryRun_length _ _ _ _ Hrun) as Hlen.
  eexists. exists st2. split; [exact Hall|].
  rewrite tally_results, tally_failed by assumption.
  cbn [initial_results detectionResults failed List.app Nat.add].
  split; [now apply results_for_length|].
  split; [reflexivity|].
  split.
  - intros i d e Hd Ho. exists (failure_of d e).
    split; [exact (results_for_nth _ _ _ _ _ Hd Ho)|].
    repeat split.
  - intros i d evs Hd Ho. exists (result_of d evs).
    split; [exact (results_for_nth _ _ _ _ _ Hd Ho)|].
    repeat split.
Qed.

(** The filter of the run and the filter of the loader keep the same
    descriptors exactly when no descriptor tagged OIE has an empty query. *)
Lemma executable_of_filter (detections : list Detection) :
  executable_of detections = DetectionLoader.filterExecutableDetections detections
  <-> Forall (fun d => query d <> "") (executable_of detections).
Proof.
  unfold executable_of, DetectionLoader.filterExecutableDetections.
  induction detections as [|d ds IH]; [split; [constructor | reflexivity]|].
  cbn [filter].
  destruct (String.eqb (queryType d) "OIE"); cbn [andb]; [|exact IH].
  destruct (String.eqb_spec (query d) "") as [Hq|Hq]; cbn [negb].
  - split.
    + intros Heq. exfalso.
      assert (Hlen : (List.length
                (filter (fun d => String.eqb (queryType d) "OIE"
                                  && negb (String.eqb (query d) "")) ds)
              <= List.length (filter (fun d => String.eqb (queryType d) "OIE") ds))%nat).
      { clear. induction ds as [|x xs IHxs]; [constructor|].
        cbn [filter]. destruct (String.eqb (queryType x) "OIE"); cbn [andb]; [|exact IHxs].
        destruct (negb (String.eqb (query x) "")); cbn [List.length]; lia. }
      rewrite <- Heq in Hlen. cbn [List.length] in Hlen. lia.
    + intros Hall. inversion Hall as [|? ? Hd _]. contradiction.
  - split.
    + intros Heq. injection Heq as Heq. constructor; [exact Hq | now apply IH].
    + intros Hall. inversion Hall as [|? ? _ Hrest]. f_equal. now apply IH.
Qed.

(** X20: the summary of a run over the descriptors tagged OIE, whatever their
    query.  [total] is their number and [success + failed = total];
    [withFindings] counts the results with events and [totalFindings] adds up
    their events; [failed] counts the results with an error, which have no
    events and so add to neither; the results describe the descriptors tagged
    OIE one by one, in their order; and these are the descriptors the filter
    of the loader keeps exactly when none of them has an empty query. *)
Theorem runAllDetections_summary_invariants detections outs st st1 :
  let selected := filter (fun d => String.eqb (queryType d) "OIE") detections in
  QueryRun domain config fuel st selected outs st1 ->
  exists summary st2,
    runAllDetections domain config fuel detections st = (Returned summary, st2)
    /\ total summary = List.length selected
    /\ (success summary + failed summary = total summary)%nat
    /\ withFindings summary
       = List.length (filter has_findings (detectionResults summary))
    /\ totalFindings summary
       = event_count (filter has_findings (detectionResults summary))
    /\ failed summary = List.length (filter has_error (detectionResults summary))
    /\ (forall r, In r (detectionResults summary) -> error r <> None ->
          events r = [] /\ has_findings r = false)
    /\ Forall2 describes selected (detectionResults summary)
    /\ (selected = DetectionLoader.filterExecutableDetections detections
        <-> Forall (fun d => query d <> "") selected).
Proof.
  intros selected Hrun. subst selected.
  change (filter (fun d => String.eqb (queryType d) "OIE") detections)
    with (executable_of detections) in *.
  destruct (runAllDetections_run detections st outs st1 Hrun) as [st2 Hall].
  pose proof (QueryRun_length _ _ _ _ Hrun) as Hlen.
  eexists. exists st2. split; [exact Hall|].
  pose proof (tally_success (initial_results (executable_of detections))
                (executable_of detections) outs Hlen) as Hs.
  destruct (tally_findings (initial_results (executable_of detections))
              (executable_of detections) outs) as [Hw Ht].
  rewrite tally_total, tally_results, tally_failed, Hw, Ht by assumption.
  cbn [initial_results total success failed withFindings totalFindings
       detectionResults List.app Nat.add] in *.
  split; [reflexivity|].
  split; [lia|].
  split; [reflexivity|].
  split; [reflexivity|].
  split; [now rewrite results_for_has_error|].
  split; [intros r; apply results_for_errors|].
  split; [now apply results_for_describes|].
  apply executable_of_filter.
Qed.

(** C7, as the code has it: the single-rule path runs the one query and
    nothing else.  [runDetectionWithEvents] returns the result of the
    descriptor with the matched events, [runDetection] returns the number of
    those events, and what the query throws is thrown on. *)
Theorem runDetection_returns_event_count detection index total st :
  runDetectionWithEvents domain config fuel detection index total st
  = match OktaClient.querySystemLog domain fuel (query detection)
            (config_since config) (Some (config_limit config)) st with
    | (Returned evs, st1) => (Returned (result_of detection evs), st1)
    | (Thrown e, st1) => (Thrown e, st1)
    | (OutOfFuel, st1) => (OutOfFuel, st1)
    end
  /\ runDetection domain config fuel detection index total st
     = match OktaClient.querySystemLog domain fuel (query detection)
               (config_since config) (Some (config_limit config)) st with
       | (Returned evs, st1) => (Returned (VNumber (List.length evs)), st1)
       | (Thrown e, st1) => (Thrown e, st1)
       | (OutOfFuel, st1) => (OutOfFuel, st1)
       end.
Proof.
  unfold runDetection, runDetectionWithEvents, bind, ret.
  destruct (OktaClient.querySystemLog domain fuel (query detection)
              (config_since config) (Some (config_limit config)) st)
    as [[evs|e|] st1]; split; reflexivity.
Qed.

End Runner.

(** *** Concrete runs on the scripted platform *)

Lemma second_fails_run :
  exists outs st1,
    QueryRun (P := Mock.platform) "acme.okta.com" Mock.no_config 5
      (Mock.start Mock.second_fails) Mock.three_rules outs st1
    /\ outs = [ inr [Mock.ev "x"];
                inl (new_Error "Okta API Error: 400 - Invalid filter");
                inr [Mock.ev "y"; Mock.ev "z"] ].
Proof.
  eexists. eexists. split.
  - eapply QueryRun_returns; [reflexivity|].
    eapply QueryRun_throws; [reflexivity|].
    eapply QueryRun_returns; [reflexivity|].
    apply QueryRun_nil.
  - reflexivity.
Qed.

Lemma none_six_error_run :
  exists outs st1,
    QueryRun (P := Mock.platform) "acme.okta.com" Mock.no_config 5
      (Mock.start Mock.none_six_error) Mock.three_rules outs st1
    /\ outs = [ inr [];
                inr [Mock.ev "1"; Mock.ev "2"; Mock.ev "3";
                     Mock.ev "4"; Mock.ev "5"; Mock.ev "6"];
                inl (new_Error "Okta API Error: 400 - Invalid filter") ].
Proof.
  eexists. eexists. split.
  - eapply QueryRun_returns; [reflexivity|].
    eapply QueryRun_returns; [reflexivity|].
    eapply QueryRun_throws; [reflexivity|].
    apply QueryRun_nil.
  - reflexivity.
Qed.

Lemma runAllDetections_isolates_failures_witness :
  exists summary st2,
    runAllDetections (P := Mock.platform) "acme.okta.com" Mock.no_config 5
      Mock.three_rules (Mock.start Mock.second_fails) = (Returned summary, st2)
    /\ List.length (detectionResults summary) = 3%nat
    /\ failed summary = 1%nat
    /\ exists r, nth_error (detectionResults summary) 1 = Some r
                 /\ events r = []
                 /\ error r = Some "Okta API Error: 400 - Invalid filter".
Proof.
  destruct second_fails_run as (outs & st1 & Hrun & Houts).
  destruct (runAllDetections_isolates_failures (P := Mock.platform)
              "acme.okta.com" Mock.no_config 5 Mock.three_rules outs
              (Mock.start Mock.second_fails) st1 Hrun)
    as (summary & st2 & Hall & Hlen & Hfailed & Hthrown & _).
  exists summary, st2. subst outs.
  split; [exact Hall|]. split; [exact Hlen|]. split; [exact Hfailed|].
  destruct (Hthrown 1%nat (Mock.rule "b")
              (new_Error "Okta API Error: 400 - Invalid filter") eq_refl eq_refl)
    as (r & Hr & _ & Hev & Herr).
  exists r. repeat split; assumption.
Defined.

Lemma runAllDetections_summary_invariants_witness :
  exists summary st2,
    runAllDetections (P := Mock.platform) "acme.okta.com" Mock.no_config 5
      Mock.three_rules (Mock.start Mock.none_six_error) = (Returned summary, st2)
    /\ total summary = 3%nat
    /\ (success summary + failed summary = total summary)%nat
    /\ withFindings summary
       = List.length (filter has_findings (detectionResults summary))
    /\ totalFindings summary
       = event_count (filter has_findings (detectionResults summary)).
Proof.
  destruct none_six_error_run as (outs & st1 & Hrun & _).
  destruct (runAllDetections_summary_invariants (P := Mock.platform)
              "acme.okta.com" Mock.no_config 5 Mock.three_rules outs
              (Mock.start Mock.none_six_error) st1 Hrun)
    as (summary & st2 & Hall & Htotal & Hsum & Hwith & Hfound & _).
  exists summary, st2. repeat split; assumption.
Defined.

(** The synthetic run of the spec: no event, six events, an error. *)
Example runAllDetections_none_six_error :
  let summary := fst (runAllDetections (P := Mock.platform) "acme.okta.com"
                        Mock.no_config 5 Mock.three_rules
                        (Mock.start Mock.none_six_error)) in
  exists s, summary = Returned s
    /\ total s = 3%nat /\ success s = 2%nat /\ failed s = 1%nat
    /\ withFindings s = 1%nat /\ totalFindings s = 6%nat.
Proof. cbn zeta. eexists. split; [reflexivity|]. repeat split. Qed.

(** C7, as the spec has it, fails: for a rule whose query matches one event
    [runDetection] returns the number 1, not the result object that
    [runDetectionWithEvents] builds. *)
Lemma runDetection_is_not_the_result :
  let st := Mock.start (Mock.scripted (map inr Mock.one_page)) in
  let r := result_of (Mock.rule "a") [Mock.ev "e"] in
  fst (runDetectionWithEvents (P := Mock.platform) "acme.okta.com" Mock.no_config 5
         (Mock.rule "a") 1 1 st) = Returned r
  /\ fst (runDetection (P := Mock.platform) "acme.okta.com" Mock.no_config 5
            (Mock.rule "a") 1 1 st) = Returned (VNumber 1)
  /\ fst (runDetection (P := Mock.platform) "acme.okta.com" Mock.no_config 5
            (Mock.rule "a") 1 1 st) <> Returned (VResult r).
Proof.
  cbn zeta. split; [reflexivity|]. split; [reflexivity|].
  intros H. discriminate H.
Qed.

(** C6, the rule tagged OIE with an empty query: the filter of the loader
    drops it, the run selects it, sends the empty filter to the log end point
    and counts what comes back as a finding. *)
Theorem runAllDetections_runs_blank_query :
  let run := runAllDetections (P := Mock.platform) "acme.okta.com" Mock.no_config 5
               [Mock.blank_rule] (Mock.start (Mock.scripted (map inr Mock.one_page))) in
  DetectionLoader.filterExecutableDetections [Mock.blank_rule] = []
  /\ executable_of [Mock.blank_rule] = [Mock.blank_rule]
  /\ (exists s, fst run = Returned s
        /\ total s = 1%nat /\ success s = 1%nat /\ withFindings s = 1%nat)
  /\ hd_error (trace (snd run))
     = Some (EHttpGet "/logs" (Some (OktaClient.build_params "" None 100%Z))).
Proof.
  cbn zeta. split; [reflexivity|]. split; [reflexivity|].
  split; [eexists; split; [reflexivity|]; repeat split | reflexivity].
Qed.

(** C2, on a rule for another dialect followed by a rule tagged OIE with an
    empty query: no descriptor passes the filter of the loader, yet the run
    has [total = 1], [success + failed = 1] and one result, that of the rule
    with the empty query. *)
Theorem runAllDetections_counts_blank_query :
  let detections := [Mock.splunk_rule; Mock.blank_rule] in
  let run := runAllDetections (P := Mock.platform) "acme.okta.com" Mock.no_config 5
               detections (Mock.start (Mock.scripted (map inr Mock.one_page))) in
  List.length (DetectionLoader.filterExecutableDetections detections) = 0%nat
  /\ exists s, fst run = Returned s
       /\ total s = 1%nat
       /\ (success s + failed s)%nat = 1%nat
       /\ map r_title (detectionResults s) = ["blank rule"]
       /\ total s <> List.length (DetectionLoader.filterExecutableDetections detections)
       /\ List.length (detectionResults s)
          <> List.length (DetectionLoader.filterExecutableDetections detections).
Proof.
  cbn zeta. split; [reflexivity|].
  eexists. split; [reflexivity|].
  repeat split; cbn; discriminate.
Qed.

End DetectionRunnerFacts.

(** ** The rule loader *)

Module DetectionLoaderFacts.
Import DetectionLoader.

Section Loader.
Context {P : Platform}.
Variable cwd : string.

(** A file adds its descriptors, if any, behind what is loaded already; the
    try/catch around it lets nothing escape. *)
Lemma load_file_acc source file st :
  exists added st', forall allDetections,
    load_file source file allDetections st
    = (Returned (allDetections ++ added)%list, st').
Proof.
  unfold load_file, try_catch, bind, perform, lift, sleep, ret, throw.
  destruct (axios_get (rawBaseUrl source ++ "/" ++ fe_name file) (world st))
    as [[e|yamlResponse] w]; cbn [world trace].
  - exists [], {| world := w;
                  trace := trace st ++ [EAxiosGet (rawBaseUrl source ++ "/" ++ fe_name file)] |}.
    intros all. now rewrite List.app_nil_r.
  - destruct (yaml_load yamlResponse) as [e|doc].
    + eexists [], _. intros all. now rewrite List.app_nil_r.
    + destruct (doc_OIE doc) as [|s|].
      * eexists [], _. intros all. now rewrite List.app_nil_r.
      * destruct (negb (String.eqb s "")).
        -- eexists [tag source file doc s], _. intros all. reflexivity.
        -- eexists [], _. intros all. now rewrite List.app_nil_r.
      * eexists [], _. intros all. now rewrite List.app_nil_r.
Qed.

Lemma load_files_acc source files :
  forall st, exists found st', forall allDetections,
    load_files source files allDetections st
    = (Returned (allDetections ++ found)%list, st').
Proof.
  induction files as [|file files IH]; intros st.
  - exists [], st. intros all. cbn [load_files]. unfold ret. now rewrite List.app_nil_r.
  - destruct (load_file_acc source file st) as (added & st1 & Hfile).
    destruct (IH st1) as (found & st2 & Hfiles).
    exists (added ++ found)%list, st2. intros all.
    cbn [load_files]. unfold bind. rewrite Hfile, Hfiles.
    now rewrite List.app_assoc.
Qed.

(** Every list of collections has its outcomes. *)
Lemma Collections_total srcs :
  forall st, exists outs st1, Collections st srcs outs st1.
Proof.
  induction srcs as [|source srcs IH]; intros st.
  - exists [], st. constructor.
  - destruct (list_files source st) as [[files|e|] st1] eqn:Hlist.
    + destruct (load_files_acc source files st1) as (found & st2 & Hfiles).
      destruct (IH st2) as (outs & st3 & Hrest).
      exists (inr found :: outs), st3.
      eapply Collections_yields; [exact Hlist | exact (Hfiles []) | exact Hrest].
    + destruct (IH st1) as (outs & st2 & Hrest).
      exists (inl e :: outs), st2.
      eapply Collections_fails; [exact Hlist | exact Hrest].
    + exfalso. revert Hlist.
      unfold list_files, bind, perform, ret, throw.
      destruct (axios_get (githubBaseUrl source) (world st)) as [[e|[entries|text]] w];
        discriminate.
Qed.

(** The loop over the collections follows their outcomes. *)
Lemma load_sources_run st srcs outs st1 :
  Collections st srcs outs st1 ->
  forall allDetections,
    load_sources srcs allDetections st
    = (Returned (allDetections ++ contributed outs)%list, st1).
Proof.
  induction 1 as [st
                 | st source srcs e st1 outs st2 Hlist _ IH
                 | st source srcs files st1 found st2 outs st3 Hlist Hfiles _ IH];
    intros all.
  - cbn [load_sources contributed flat_map]. unfold ret. now rewrite List.app_nil_r.
  - cbn [load_sources contributed flat_map List.app].
    unfold bind at 1. unfold load_source, try_catch, bind at 1.
    rewrite Hlist. unfold ret at 1. apply IH.
  - cbn [load_sources contributed flat_map].
    unfold bind at 1. unfold load_source, try_catch, bind at 1.
    rewrite Hlist.
    destruct (load_files_acc source files st1) as (found' & st2' & Hacc).
    pose proof (Hacc []) as Hnil. rewrite Hfiles in Hnil.
    cbn [List.app] in Hnil. injection Hnil as -> ->.
    rewrite Hacc. rewrite IH. now rewrite List.app_assoc.
Qed.

(** C9: a remote load over the collections [srcs], whatever their listings
    answer.  A collection whose listing throws adds nothing and the others
    are fetched all the same; with the cache directory made and the cache file
    written, the call returns the descriptors of the collections that
    answered, the empty list when none did, and its last effect is the write
    of exactly that list to the cache file, whatever the file held. *)
Theorem loadDetections_collection_isolation srcs st w0 outs st1 w2 :
  fs_mkdir (cacheDir cwd) (world st) = (inr tt, w0) ->
  Collections {| world := w0; trace := trace st ++ [EMkdir (cacheDir cwd)] |}
    srcs outs st1 ->
  fs_writeFile (cacheFile cwd) (JSON_stringify (contributed outs)) (world st1)
    = (inr tt, w2) ->
  loadDetections_from cwd srcs true st
  = (Returned (contributed outs),
     {| world := w2;
        trace := trace st1
                 ++ [EWriteFile (cacheFile cwd) (JSON_stringify (contributed outs))] |})
  /\ (forall found, In (inr found) outs -> incl found (contributed outs))
  /\ (forallb listing_failed outs = true -> contributed outs = []).
Proof.
  intros Hmkdir Hrun Hwrite. split; [|split].
  - unfold loadDetections_from, try_catch, bind at 1, perform at 1.
    rewrite Hmkdir. cbn [negb]. unfold bind at 1, ret at 1.
    unfold fetch_and_cache, bind at 1.
    rewrite (load_sources_run _ _ _ _ Hrun). cbn [List.app].
    unfold bind, perform, ret. rewrite Hwrite. reflexivity.
  - intros found Hin d Hd. unfold contributed. apply in_flat_map.
    exists (inr found). split; assumption.
  - clear. induction outs as [|[e|found] outs IH]; cbn [forallb listing_failed andb];
      [reflexivity | exact IH | discriminate].
Qed.


End Loader.

(** *** Concrete runs on the scripted platform *)

Lemma hunts_only_run :
  exists outs st1,
    Collections (P := Mock.platform)
      (Mock.state (Mock.with_cache Mock.hunts_only "[cached rule]")
                  [EMkdir (cacheDir "/app")])
      sources outs st1
    /\ world st1 = Mock.with_cache Mock.hunts_only "[cached rule]"
    /\ exists h1 h2, outs = [inl Mock.unreachable; inr [h1; h2]] /\ query h2 = "".
Proof.
  eexists. eexists. split; [|split].
  - eapply Collections_fails; [reflexivity|].
    eapply Collections_yields; [reflexivity | reflexivity |].
    apply Collections_nil.
  - reflexivity.
  - eexists. eexists. split; reflexivity.
Qed.

Lemma loadDetections_collection_isolation_witness :
  exists outs st',
    loadDetections (P := Mock.platform) "/app" true
      (Mock.start (Mock.with_cache Mock.hunts_only "[cached rule]"))
    = (Returned (contributed outs), st')
    /\ nth_error outs 0 = Some (inl Mock.unreachable)
    /\ List.length (contributed outs) = 2%nat
    /\ last (trace st') (ESleep 0)
       = EWriteFile Mock.cache_path (Mock.mock_JSON_stringify (contributed outs)).
Proof.
  destruct hunts_only_run as (outs & st1 & Hrun & Hworld & h1 & h2 & Houts & _).
  destruct (loadDetections_collection_isolation (P := Mock.platform) "/app" sources
              (Mock.start (Mock.with_cache Mock.hunts_only "[cached rule]"))
              (Mock.with_cache Mock.hunts_only "[cached rule]") outs st1
              (snd (Mock.mock_writeFile (cacheFile "/app")
                      (Mock.mock_JSON_stringify (contributed outs)) (world st1)))
              eq_refl Hrun eq_refl)
    as (Hload & _).
  eexists outs, _. split; [exact Hload|].
  subst outs. split; [reflexivity|]. split; [reflexivity|].
  cbn [trace]. now rewrite last_last.
Defined.


(** The cache is read first and the network left alone; a broken cache text
    sends the load to GitHub. *)
Example loadDetections_offline :
  let run := loadDetections (P := Mock.platform) "/app" false
               (Mock.start (Mock.with_cache Mock.github_down "[cached rule]")) in
  fst run = Returned [Mock.cached_rule]
  /\ filter is_remote (trace (snd run)) = [].
Proof. split; reflexivity. Qed.

Example loadDetections_broken_cache :
  let run := loadDetections (P := Mock.platform) "/app" false
               (Mock.start (Mock.with_cache Mock.hunts_only "garbage")) in
  (exists h1 h2, fst run = Returned [h1; h2])
  /\ List.length (filter is_remote (trace (snd run))) = 4%nat.
Proof. split; [eexists; eexists; reflexivity | reflexivity]. Qed.

End DetectionLoaderFacts.

(** ** More on the string primitives *)

Module JsMore.

Lemma drop_app (a b : string) : Js.drop (String.length a) (a ++ b) = b.
Proof. induction a as [|c a IH]; [reflexivity | exact IH]. Qed.

Lemma replace_first_prefix (pat s : string) :
  Js.replace_first pat (pat ++ s) = s.
Proof.
  assert (H : forall t, Js.starts_with pat t = true ->
                        Js.replace_first pat t = Js.drop (String.length pat) t).
  { intros t Ht. destruct t; cbn [Js.replace_first]; now rewrite Ht. }
  rewrite H by apply JsFacts.starts_with_app. apply drop_app.
Qed.

Lemma match_next_here_other (c : ascii) (s : string) :
  Ascii.eqb c "<" = false -> Js.match_next_here (String c s) = None.
Proof.
  destruct c as [[] [] [] [] [] [] [] []]; intros H;
    try reflexivity; discriminate H.
Qed.

(** The characters of [a ++ b] are those of [a] and those of [b]. *)
Lemma includes_char_app (a b : string) (c : ascii) :
  Js.includes a (String c "") = false -> Js.includes b (String c "") = false ->
  Js.includes (a ++ b) (String c "") = false.
Proof.
  intros Ha Hb. induction a as [|x a IH]; [exact Hb|].
  cbn [append Js.includes Js.starts_with] in *.
  destruct (Ascii.eqb c x); cbn [andb] in *; [discriminate Ha | now apply IH].
Qed.

(** No match begins before the first [<]. *)
Lemma match_next_skip (pre s : string) :
  Js.includes pre "<" = false -> Js.match_next (pre ++ s) = Js.match_next s.
Proof.
  induction pre as [|c pre IH]; intros H; [reflexivity|].
  cbn [Js.includes Js.starts_with] in H.
  destruct (Ascii.eqb "<" c) eqn:E; cbn [andb] in H; [discriminate H|].
  cbn [append Js.match_next].
  rewrite match_next_here_other by (now rewrite Ascii.eqb_sym).
  now apply IH.
Qed.

Lemma match_next_found (s g : string) :
  Js.match_next_here s = Some g -> Js.match_next s = Some g.
Proof. intros H. destruct s; cbn [Js.match_next]; now rewrite H. Qed.

Lemma rev_string_rev (s acc acc' : string) :
  Js.rev_string (Js.rev_string s acc) acc' = Js.rev_string acc (s ++ acc').
Proof.
  revert acc. induction s as [|c s IH]; intros acc; [reflexivity|].
  cbn [Js.rev_string append]. now rewrite IH.
Qed.

Lemma rev_string_app (a b acc : string) :
  Js.rev_string (a ++ b) acc = Js.rev_string b (Js.rev_string a acc).
Proof.
  revert acc. induction a as [|c a IH]; intros acc; [reflexivity|].
  cbn [Js.rev_string append]. apply IH.
Qed.

Lemma rev_string_acc (s acc tl : string) :
  Js.rev_string s (acc ++ tl) = Js.rev_string s acc ++ tl.
Proof.
  revert acc. induction s as [|c s IH]; intros acc; [reflexivity|].
  cbn [Js.rev_string]. exact (IH (String c acc)).
Qed.

Lemma trimStart_idem (s : string) : Js.trimStart (Js.trimStart s) = Js.trimStart s.
Proof.
  induction s as [|c s IH]; [reflexivity|].
  cbn [Js.trimStart]. destruct (Js.is_space c) eqn:E; [exact IH|].
  cbn [Js.trimStart]. now rewrite E.
Qed.

(** White space is stripped at the front only up to a character that is
    none. *)
Lemma trimStart_keeps_last (x : string) (c : ascii) :
  Js.is_space c = false ->
  exists t, Js.trimStart (x ++ String c "") = t ++ String c "".
Proof.
  intros Hc. induction x as [|d x IH].
  - exists "". cbn [append Js.trimStart]. now rewrite Hc.
  - cbn [append Js.trimStart]. destruct (Js.is_space d).
    + exact IH.
    + exists (String d x). reflexivity.
Qed.

(** What [trim] returns has no white space at its ends. *)
Lemma trim_idem (s : string) : Js.trim (Js.trim s) = Js.trim s.
Proof.
  unfold Js.trim.
  set (a := Js.trimStart s).
  assert (Ha : Js.trimStart a = a) by apply trimStart_idem.
  assert (Hfront : Js.trimStart (Js.rev_string (Js.trimStart (Js.rev_string a "")) "")
                   = Js.rev_string (Js.trimStart (Js.rev_string a "")) "").
  { destruct a as [|c a'] eqn:Ea; [reflexivity|].
    assert (Hc : Js.is_space c = false).
    { cbn [Js.trimStart] in Ha. destruct (Js.is_space c) eqn:E; [|reflexivity].
      exfalso. clear -Ha.
      assert (Hlen : forall t, String.length (Js.trimStart t) <= String.length t).
      { induction t as [|d t IHt]; [apply le_n|].
        cbn [Js.trimStart]. destruct (Js.is_space d); cbn [String.length]; lia. }
      pose proof (Hlen a') as H. rewrite Ha in H. cbn [String.length] in H. lia. }
    change (Js.rev_string (String c a') "") with (Js.rev_string a' (String c "")).
    replace (Js.rev_string a' (String c "")) with (Js.rev_string a' "" ++ String c "")
      by (symmetry; apply (rev_string_acc a' "" (String c ""))).
    destruct (trimStart_keeps_last (Js.rev_string a' "") c Hc) as [t Ht].
    rewrite Ht, rev_string_app. cbn [Js.rev_string Js.trimStart]. now rewrite Hc. }
  rewrite Hfront, rev_string_rev. cbn [Js.rev_string].
  rewrite JsFacts.app_nil_r, trimStart_idem. reflexivity.
Qed.

End JsMore.

(** ** More on the query client *)

Module OktaClientMore.
Import OktaClient.

Section Client.
Context {P : Platform}.
Variable domain : string.

(** What a run of the loop adds to the trace. *)
Lemma pagination_trace (fuel : nat) params limit :
  forall results url hasMore st,
  exists added,
    trace (snd (pagination domain fuel params limit results url hasMore st))
    = (trace st ++ added)%list
    /\ forallb query_effect added = true.
Proof.
  induction fuel as [|fuel IH]; intros results url hasMore st.
  - exists []. cbn [pagination].
    destruct (hasMore && (Z.of_nat (List.length results) <? limit)%Z);
      cbn; now rewrite List.app_nil_r.
  - cbn [pagination].
    destruct (hasMore && (Z.of_nat (List.length results) <? limit)%Z).
    + unfold bind at 1, get, perform.
      destruct (client_get url (if String.eqb url "/logs" then Some params else None)
                  (world st)) as [[e|page] w].
      * eexists [_]. cbn. split; reflexivity.
      * destruct (follow_link domain url (headers_link page)) as [url' more].
        unfold bind, sleep. cbn [world trace].
        destruct (IH (results ++ data page)%list url' more
                    {| world := w;
                       trace := ((trace st
                                  ++ [EHttpGet url (if String.eqb url "/logs"
                                                    then Some params else None)])
                                 ++ [ESleep 100])%list |})
          as (added & Htr & Hall).
        eexists (_ :: _ :: added). rewrite Htr. cbn [trace].
        split; [now rewrite <- !List.app_assoc | exact Hall].
    + exists []. cbn. now rewrite List.app_nil_r.
Qed.

Lemma querySystemLog_trace (fuel : nat) filter since limit st :
  exists added,
    trace (snd (querySystemLog domain fuel filter since limit st))
    = (trace st ++ added)%list
    /\ forallb query_effect added = true.
Proof.
  unfold querySystemLog, try_catch, bind.
  set (l := match limit with Some l => l | None => 100%Z end).
  destruct (pagination_trace fuel (build_params filter since l) l [] "/logs" true st)
    as (added & Htr & Hall).
  exists added. split; [|exact Hall].
  destruct (pagination domain fuel (build_params filter since l) l [] "/logs" true st)
    as [[results|e|] st1]; exact Htr.
Qed.

(** X1: the query never returns more events than the limit, whatever the log
    end point sends and however many pages it links; the limit left out
    counts as 100. *)
Theorem querySystemLog_at_most_limit
    (fuel : nat) (filter : string) (since : option string) (limit : option Z)
    (st st' : State) (evs : list LogEvent) :
  querySystemLog domain fuel filter since limit st = (Returned evs, st') ->
  (Z.of_nat (List.length evs)
   <= Z.max (match limit with Some l => l | None => 100 end) 0)%Z.
Proof.
  unfold querySystemLog, try_catch, bind, ret, throw.
  set (l := match limit with Some l => l | None => 100%Z end).
  destruct (Z.le_gt_cases l 0) as [Hneg|Hpos].
  - rewrite (OktaClientFacts.pagination_full domain fuel) by (cbn [List.length]; lia).
    intros [= <- _]. unfold Js.slice0. rewrite firstn_nil. cbn [List.length]. lia.
  - destruct (pagination domain fuel (build_params filter since l) l [] "/logs" true st)
      as [[results|e|] st1]; intros H; try discriminate H.
    injection H as <- _.
    rewrite JsFacts.slice0_firstn by lia. rewrite length_firstn. lia.
Qed.

(** X2: an error thrown by the query has neither [response] nor [request]: the
    status of a rejected request is left in the text of the message only. *)
Theorem querySystemLog_throws_plain_errors
    (fuel : nat) (filter : string) (since : option string) (limit : option Z)
    (st st' : State) (e : JsError) :
  querySystemLog domain fuel filter since limit st = (Thrown e, st') ->
  response e = None /\ request e = false.
Proof.
  unfold querySystemLog, try_catch, bind, ret, throw.
  destruct (pagination domain fuel _ _ [] "/logs" true st) as [[results|e0|] st1];
    intros H; try discriminate H.
  injection H as <- _. unfold normalize.
  destruct (response e0) as [r|] eqn:Hr; [destruct (error_data r); split; reflexivity|].
  destruct (request e0) eqn:Hq; [split; reflexivity|].
  split; assumption.
Qed.

(** X3: the link header of the log end point, [<self>; rel="self", <next>;
    rel="next"], or the next link alone: the next request goes to the path of
    the next link under the base URL of the client. *)
Theorem follow_link_relative_path (url self path : string) :
  Js.includes self "<" = false -> Js.includes self ">" = false ->
  Js.includes (baseUrl domain ++ path) ">" = false ->
  follow_link domain url
    (Some ("<" ++ self ++ ">; " ++ rel_self ++ ", "
           ++ "<" ++ baseUrl domain ++ path ++ ">; " ++ Js.rel_next))
  = (path, true)
  /\ follow_link domain url (Some ("<" ++ baseUrl domain ++ path ++ ">; " ++ Js.rel_next))
     = (path, true).
Proof.
  intros Hlt Hgt Hpath.
  set (next := "<" ++ baseUrl domain ++ path ++ ">; " ++ Js.rel_next).
  assert (Hnext : Js.match_next_here next = Some (baseUrl domain ++ path)).
  { pose proof (JsFacts.match_next_here_link (baseUrl domain ++ path) " " ""
                  ltac:(discriminate) Hpath eq_refl) as H.
    rewrite JsFacts.app_nil_r in H.
    rewrite <- H. unfold next. f_equal. now rewrite !JsFacts.app_assoc. }
  assert (Hinc : forall pre, Js.includes (pre ++ next) Js.rel_next = true).
  { intros pre. unfold next.
    replace (pre ++ "<" ++ baseUrl domain ++ path ++ ">; " ++ Js.rel_next)
      with ((pre ++ "<" ++ baseUrl domain ++ path ++ ">; ") ++ Js.rel_next ++ "")
      by (rewrite JsFacts.app_nil_r, !JsFacts.app_assoc; reflexivity).
    apply JsFacts.includes_app. }
  split.
  - set (h := "<" ++ self ++ ">; " ++ rel_self ++ ", " ++ next).
    assert (Hi : Js.includes h Js.rel_next = true).
    { unfold h.
      replace ("<" ++ self ++ ">; " ++ rel_self ++ ", " ++ next)
        with (("<" ++ self ++ ">; " ++ rel_self ++ ", ") ++ next)
        by (rewrite !JsFacts.app_assoc; reflexivity).
      apply Hinc. }
    assert (Hm : Js.match_next h = Some (baseUrl domain ++ path)).
    { unfold h.
      change ("<" ++ self ++ ">; " ++ rel_self ++ ", " ++ next)
        with (String "<" (self ++ String ">" (String ";" (" " ++ rel_self ++ ", " ++ next)))).
      cbn [Js.match_next].
      assert (Hself : Js.match_next_here
                (String "<" (self ++ String ">"
                               (String ";" (" " ++ rel_self ++ ", " ++ next))))
              = None).
      { unfold Js.match_next_here.
        rewrite JsFacts.span_not_gt_app by assumption.
        destruct self; reflexivity. }
      rewrite Hself.
      replace (self ++ String ">" (String ";" (" " ++ rel_self ++ ", " ++ next)))
        with ((self ++ ">; " ++ rel_self ++ ", ") ++ next)
        by (rewrite !JsFacts.app_assoc; reflexivity).
      rewrite JsMore.match_next_skip
        by (apply JsMore.includes_char_app; [assumption | reflexivity]).
      exact (JsMore.match_next_found _ _ Hnext). }
    unfold follow_link. rewrite Hi, Hm.
    change (truthy h) with true. cbn [andb].
    now rewrite JsMore.replace_first_prefix.
  - assert (Hi : Js.includes next Js.rel_next = true) by exact (Hinc "").
    unfold follow_link. rewrite Hi, (JsMore.match_next_found _ _ Hnext).
    change (truthy next) with true. cbn [andb].
    now rewrite JsMore.replace_first_prefix.
Qed.

(** The loop over pages that all link on, when the request after them is
    rejected. *)
Lemma pagination_rejected params limit e :
  forall pages, Forall carries_next pages ->
  forall fuel results url w tr,
    ServesThenRejects w pages e -> (List.length pages < fuel)%nat ->
    (Z.of_nat (List.length (results ++ events_of pages)) < limit)%Z ->
    exists reqs last w',
      pagination domain fuel params limit results url true {| world := w; trace := tr |}
      = (Thrown e,
         {| world := w';
            trace := tr ++ paced reqs ++ [EHttpGet (fst last) (snd last)] |})
      /\ List.length reqs = List.length pages.
Proof.
  induction pages as [|page pages IH];
    intros Hnext fuel results url w tr Hserves Hfuel Hroom.
  - destruct fuel as [|fuel]; [cbn [List.length] in Hfuel; lia|].
    change (events_of []) with (@nil LogEvent) in Hroom.
    rewrite List.app_nil_r in Hroom. apply Z.ltb_lt in Hroom.
    cbn [ServesThenRejects] in Hserves.
    destruct (Hserves url (if String.eqb url "/logs" then Some params else None))
      as (w' & Hget).
    exists [], (url, if String.eqb url "/logs" then Some params else None), w'.
    cbn [pagination]. rewrite Hroom. cbn [andb].
    unfold bind, get, perform. cbn [world trace]. rewrite Hget.
    split; reflexivity.
  - destruct fuel as [|fuel]; [cbn [List.length] in Hfuel; lia|].
    cbn [ServesThenRejects] in Hserves.
    destruct (Hserves url (if String.eqb url "/logs" then Some params else None))
      as (w1 & Hget & Hrest).
    rewrite OktaClientFacts.events_of_cons in Hroom.
    rewrite (OktaClientFacts.pagination_step domain fuel params limit results url
               w tr page w1).
    2:{ rewrite !length_app in Hroom. lia. }
    2:{ exact Hget. }
    inversion Hnext as [|? ? Hpage Hpages]; subst.
    pose proof (OktaClientFacts.follow_link_next domain url page Hpage) as Hmore.
    destruct (follow_link domain url (headers_link page)) as [url' more].
    cbn [fst snd] in *. subst more.
    destruct (IH Hpages fuel (results ++ data page)%list url' w1
                (tr ++ [EHttpGet url (if String.eqb url "/logs" then Some params else None);
                        ESleep 100])%list Hrest)
      as (reqs & last & w' & Hrun & Hlen).
    { cbn [List.length] in Hfuel. lia. }
    { now rewrite <- List.app_assoc. }
    exists ((url, if String.eqb url "/logs" then Some params else None) :: reqs), last, w'.
    rewrite Hrun. cbn [paced flat_map fst snd List.length].
    rewrite <- !List.app_assoc. cbn [List.app].
    split; [reflexivity | now rewrite Hlen].
Qed.

(** X4: a request rejected in the middle of the pagination fails the whole
    query: the events of the pages fetched before it are not returned, and
    the error thrown is the normalised one.  The delay after the rejected
    request is not awaited. *)
Theorem querySystemLog_rejected_midway
    (pages : list Response) (e : JsError) (filter : string) (since : option string)
    (limit : Z) (fuel : nat) (w : World) (tr : list Effect) :
  Forall carries_next pages -> ServesThenRejects w pages e ->
  (List.length pages < fuel)%nat ->
  (Z.of_nat (List.length (events_of pages)) < limit)%Z ->
  exists reqs last w',
    querySystemLog domain fuel filter since (Some limit) {| world := w; trace := tr |}
    = (Thrown (normalize e),
       {| world := w';
          trace := tr ++ paced reqs ++ [EHttpGet (fst last) (snd last)] |})
    /\ List.length reqs = List.length pages.
Proof.
  intros Hnext Hserves Hfuel Hroom.
  destruct (pagination_rejected (build_params filter since limit) limit e pages Hnext
              fuel [] "/logs" w tr Hserves Hfuel Hroom)
    as (reqs & last & w' & Hrun & Hlen).
  exists reqs, last, w'. split; [|exact Hlen].
  unfold querySystemLog, try_catch, bind. rewrite Hrun. reflexivity.
Qed.

End Client.

(** *** Concrete runs on the scripted platform *)

Lemma querySystemLog_at_most_limit_witness :
  (Z.of_nat (List.length [Mock.ev "a"; Mock.ev "b"; Mock.ev "c"]) <= Z.max 3 0)%Z.
Proof.
  apply (querySystemLog_at_most_limit (P := Mock.platform) "acme.okta.com" 3 "f" None
           (Some 3%Z) (Mock.start (Mock.scripted (map inr Mock.three_pages)))
           (snd (querySystemLog (P := Mock.platform) "acme.okta.com" 3 "f" None
                   (Some 3%Z) (Mock.start (Mock.scripted (map inr Mock.three_pages)))))).
  reflexivity.
Defined.

Lemma querySystemLog_throws_plain_errors_witness :
  response (new_Error "Okta API Error: 401 - Invalid token provided") = None
  /\ request (new_Error "Okta API Error: 401 - Invalid token provided") = false.
Proof.
  apply (querySystemLog_throws_plain_errors (P := Mock.platform) "acme.okta.com" 1 "f"
           None (Some 100%Z) (Mock.start (Mock.scripted [inl Mock.unauthorized]))
           (snd (querySystemLog (P := Mock.platform) "acme.okta.com" 1 "f" None
                   (Some 100%Z) (Mock.start (Mock.scripted [inl Mock.unauthorized]))))).
  reflexivity.
Defined.

Lemma follow_link_relative_path_witness :
  follow_link "acme.okta.com" "/logs"
    (Some ("<https://acme.okta.com/api/v1/logs?limit=100>; " ++ rel_self ++ ", "
           ++ "<https://acme.okta.com/api/v1/logs?after=1>; " ++ Js.rel_next))
  = ("/logs?after=1", true).
Proof.
  destruct (follow_link_relative_path "acme.okta.com" "/logs"
              "https://acme.okta.com/api/v1/logs?limit=100" "/logs?after=1"
              eq_refl eq_refl eq_refl) as [H _].
  exact H.
Defined.

Lemma two_pages_then_rejected :
  ServesThenRejects (P := Mock.platform)
    (Mock.scripted [ inr (Mock.page_with_next [Mock.ev "a"]);
                     inr (Mock.page_with_next [Mock.ev "b"]);
                     inl Mock.unauthorized ])
    [Mock.page_with_next [Mock.ev "a"]; Mock.page_with_next [Mock.ev "b"]]
    Mock.unauthorized.
Proof.
  intros url params. eexists. split; [reflexivity|].
  intros url' params'. eexists. split; [reflexivity|].
  intros url'' params''. eexists. reflexivity.
Qed.

Lemma querySystemLog_rejected_midway_witness :
  exists reqs last w',
    querySystemLog (P := Mock.platform) "acme.okta.com" 3 "f" None (Some 100%Z)
      (Mock.start (Mock.scripted [ inr (Mock.page_with_next [Mock.ev "a"]);
                                   inr (Mock.page_with_next [Mock.ev "b"]);
                                   inl Mock.unauthorized ]))
    = (Thrown (new_Error "Okta API Error: 401 - Invalid token provided"),
       {| world := w';
          trace := paced reqs ++ [EHttpGet (fst last) (snd last)] |})
    /\ List.length reqs = 2%nat.
Proof.
  exact (querySystemLog_rejected_midway (P := Mock.platform) "acme.okta.com"
           [Mock.page_with_next [Mock.ev "a"]; Mock.page_with_next [Mock.ev "b"]]
           Mock.unauthorized "f" None 100%Z 3 _ []
           (Forall_cons _ (OktaClientFacts.page_with_next_carries _)
              (Forall_cons _ (OktaClientFacts.page_with_next_carries _) (Forall_nil _)))
           two_pages_then_rejected (le_n 3) ltac:(cbn; lia)).
Defined.

End OktaClientMore.

(** ** More on the execution coordinator *)

Module DetectionRunnerMore.
Import DetectionRunner.

Lemma query_effects_no_rule_delay (added : list Effect) :
  forallb query_effect added = true -> filter is_rule_delay added = [].
Proof.
  induction added as [|e added IH]; [reflexivity|].
  cbn [forallb filter]. intros H. apply andb_prop in H. destruct H as [He Hrest].
  rewrite (IH Hrest).
  destruct e as [u p|u|ms|p|p|p c|f]; try reflexivity; try discriminate He.
  cbn [query_effect is_rule_delay] in *.
  apply Nat.eqb_eq in He. subst ms. reflexivity.
Qed.

Lemma fold_left_events (rs : list DetectionResult) (n : nat) :
  fold_left (fun sum d => (sum + List.length (events d))%nat) rs n
  = (n + event_count rs)%nat.
Proof.
  revert n. induction rs as [|r rs IH]; intros n.
  - cbn. lia.
  - cbn [fold_left]. rewrite IH. unfold event_count. cbn [map list_sum].
    unfold list_sum. cbn [fold_right]. lia.
Qed.

Lemma event_count_with_findings (rs : list DetectionResult) :
  event_count (filter has_findings rs) = event_count rs.
Proof.
  induction rs as [|r rs IH]; [reflexivity|].
  cbn [filter]. unfold has_findings at 1.
  destruct (0 <? List.length (events r))%nat eqn:E.
  - unfold event_count in *. cbn [map]. unfold list_sum in *. cbn [fold_right].
    now rewrite IH.
  - apply Nat.ltb_ge in E. rewrite IH.
    unfold event_count. cbn [map]. unfold list_sum. cbn [fold_right]. lia.
Qed.

Lemma findings_of_outcomes ds outs :
  List.length ds = List.length outs ->
  (filter has_findings (results_for ds outs) = []
   <-> forallb without_events outs = true).
Proof.
  revert outs. induction ds as [|d ds IH]; intros [|o outs] Hlen;
    try discriminate Hlen; [split; reflexivity|].
  cbn [List.length] in Hlen.
  cbn [results_for combine map filter forallb fst snd].
  fold (results_for ds outs).
  specialize (IH outs ltac:(lia)).
  destruct o as [e|[|ev evs]]; cbn [outcome_result has_findings failure_of result_of
                                     events List.length Nat.ltb Nat.leb without_events andb].
  - exact IH.
  - exact IH.
  - split; discriminate.
Qed.

Section Runner.
Context {P : Platform}.
Variable domain : string.
Variable config : Config.
Variable fuel : nat.

(** The run and its trace: the report is asked for last, with the summary
    that is returned. *)
Lemma runAllDetections_report detections st outs st1 :
  QueryRun domain config fuel st (executable_of detections) outs st1 ->
  exists w2,
    runAllDetections domain config fuel detections st
    = (Returned (tally (initial_results (executable_of detections))
                       (executable_of detections) outs),
       {| world := w2;
          trace := trace st1
                   ++ [EGenerateReport
                         (tally (initial_results (executable_of detections))
                                (executable_of detections) outs)] |}).
Proof.
  intros Hrun. unfold runAllDetections, bind.
  rewrite (DetectionRunnerFacts.detection_loop_run _ _ _ _ _ _ _ Hrun).
  unfold generate_pdf, try_catch, bind, perform, ret.
  destruct (pdf_generateReport _ config (world st1)) as [[e|path] w2];
    exists w2; reflexivity.
Qed.

(** What the queries and the delays between them add to the trace. *)
Lemma QueryRun_trace st ds outs st1 :
  QueryRun domain config fuel st ds outs st1 ->
  exists added,
    trace st1 = (trace st ++ added)%list
    /\ forallb (fun e => query_effect e || is_rule_delay e) added = true
    /\ rule_delays added = List.length ds.
Proof.
  assert (Hstep : forall st d o st1,
             OktaClient.querySystemLog domain fuel (query d) (config_since config)
               (Some (config_limit config)) st = (o, st1) ->
             exists added,
               trace (after_delay st1) = (trace st ++ added)%list
               /\ forallb (fun e => query_effect e || is_rule_delay e) added = true
               /\ rule_delays added = 1%nat).
  { intros st0 d o st0' Hq.
    destruct (OktaClientMore.querySystemLog_trace domain fuel (query d)
                (config_since config) (Some (config_limit config)) st0)
      as (added & Htr & Hall).
    rewrite Hq in Htr. cbn [snd] in Htr.
    exists (added ++ [ESleep 200])%list. unfold after_delay. cbn [trace].
    rewrite Htr, List.app_assoc. split; [reflexivity|]. split.
    - rewrite forallb_app. cbn. rewrite andb_true_r.
      clear -Hall. induction added as [|e added IH]; [reflexivity|].
      cbn [forallb] in *. apply andb_prop in Hall. destruct Hall as [He Hrest].
      now rewrite He, (IH Hrest).
    - unfold rule_delays. rewrite filter_app, (query_effects_no_rule_delay _ Hall).
      reflexivity. }
  induction 1 as [st | st d ds evs st1 outs st2 Hq _ IH | st d ds e st1 outs st2 Hq _ IH].
  - exists []. now rewrite List.app_nil_r.
  - destruct (Hstep _ _ _ _ Hq) as (a1 & H1 & Hall1 & Hn1).
    destruct IH as (a2 & H2 & Hall2 & Hn2).
    exists (a1 ++ a2)%list. rewrite H2, H1, List.app_assoc.
    split; [reflexivity|]. split.
    + now rewrite forallb_app, Hall1, Hall2.
    + unfold rule_delays in *. rewrite filter_app, length_app, Hn1, Hn2. reflexivity.
  - destruct (Hstep _ _ _ _ Hq) as (a1 & H1 & Hall1 & Hn1).
    destruct IH as (a2 & H2 & Hall2 & Hn2).
    exists (a1 ++ a2)%list. rewrite H2, H1, List.app_assoc.
    split; [reflexivity|]. split.
    + now rewrite forallb_app, Hall1, Hall2.
    + unfold rule_delays in *. rewrite filter_app, length_app, Hn1, Hn2. reflexivity.
Qed.

(** With a limit below zero no query asks anything. *)
Lemma idle_run :
  (config_limit config < 0)%Z ->
  forall ds st, exists st1,
    QueryRun domain config fuel st ds (map (fun _ => inr []) ds) st1
    /\ requests (trace st1) = requests (trace st).
Proof.
  intros Hneg. induction ds as [|d ds IH]; intros st.
  - exists st. split; [constructor | reflexivity].
  - destruct (IH (after_delay st)) as (st1 & Hrun & Hreq).
    exists st1. split.
    + cbn [map]. eapply QueryRun_returns; [|exact Hrun].
      unfold OktaClient.querySystemLog, try_catch, bind, ret.
      rewrite (OktaClientFacts.pagination_full domain fuel)
        by (cbn [List.length]; lia).
      unfold Js.slice0. now rewrite firstn_nil.
    + rewrite Hreq. unfold after_delay, requests. cbn [trace].
      rewrite filter_app. cbn. now rewrite List.app_nil_r.
Qed.

(** X5: a configured limit below zero is passed on as it is, and then the run
    asks the log end point nothing: every selected rule counts as a success
    without findings. *)
Theorem runAllDetections_negative_limit q l detections st :
  cfg_query config = Some q -> cfg_limit q = Some l -> (l < 0)%Z ->
  exists summary st2,
    runAllDetections domain config fuel detections st = (Returned summary, st2)
    /\ success summary = total summary
    /\ failed summary = 0%nat
    /\ withFindings summary = 0%nat
    /\ totalFindings summary = 0%nat
    /\ requests (trace st2) = requests (trace st).
Proof.
  intros Hq Hl Hneg.
  assert (Hlimit : (config_limit config < 0)%Z).
  { unfold config_limit. rewrite Hq, Hl.
    destruct (l =? 0)%Z eqn:E; [apply Z.eqb_eq in E; lia | exact Hneg]. }
  destruct (idle_run Hlimit (executable_of detections) st) as (st1 & Hrun & Hreq).
  destruct (runAllDetections_report detections st _ st1 Hrun) as [w2 Hall].
  eexists. eexists. split; [exact Hall|].
  set (ds := executable_of detections) in *.
  assert (Hlen : List.length ds = List.length (map (fun _ : Detection => @inr JsError _ (@nil LogEvent)) ds))
    by now rewrite length_map.
  assert (Hnone : filter is_thrown (map (fun _ : Detection => @inr JsError _ (@nil LogEvent)) ds) = []).
  { clear. induction ds as [|d ds IH]; [reflexivity | exact IH]. }
  assert (Hfind : filter has_findings
                    (results_for ds (map (fun _ : Detection => @inr JsError _ (@nil LogEvent)) ds))
                  = []).
  { apply findings_of_outcomes; [exact Hlen|].
    clear. induction ds as [|d ds IH]; [reflexivity | exact IH]. }
  pose proof (DetectionRunnerFacts.tally_success (initial_results ds) ds _ Hlen) as Hs.
  destruct (DetectionRunnerFacts.tally_findings (initial_results ds) ds
              (map (fun _ : Detection => @inr JsError _ (@nil LogEvent)) ds)) as [Hw Ht].
  rewrite DetectionRunnerFacts.tally_total,
          (DetectionRunnerFacts.tally_failed _ _ _ Hlen), Hw, Ht, Hfind, Hnone.
  rewrite Hnone in Hs. rewrite <- Hlen in Hs.
  cbn [initial_results total success failed withFindings totalFindings List.length
       event_count map list_sum fold_right Nat.add trace] in *.
  repeat split; try lia.
  rewrite <- Hreq. unfold requests. rewrite filter_app. cbn. now rewrite List.app_nil_r.
Qed.

(** X6: with no descriptor tagged OIE the run asks the log end point nothing and
    still has the report generated, from a summary of zeros. *)
Theorem runAllDetections_nothing_selected detections st :
  executable_of detections = [] ->
  exists w',
    runAllDetections domain config fuel detections st
    = (Returned (initial_results []),
       {| world := w'; trace := trace st ++ [EGenerateReport (initial_results [])] |})
    /\ total (initial_results []) = 0%nat.
Proof.
  intros Hnone.
  destruct (runAllDetections_report detections st [] st) as [w' Hall].
  { rewrite Hnone. constructor. }
  rewrite Hnone in Hall. exists w'. split; [exact Hall | reflexivity].
Qed.

(** X7: the pacing of a run: what it adds to the trace are the requests and
    100 ms delays of its queries and one delay of 200 ms for each selected
    rule, failed or not, and then, last, the request for the report on the
    summary it returns. *)
Theorem runAllDetections_pacing detections outs st st1 :
  QueryRun domain config fuel st (executable_of detections) outs st1 ->
  exists summary w2 added,
    runAllDetections domain config fuel detections st
    = (Returned summary,
       {| world := w2; trace := trace st ++ added ++ [EGenerateReport summary] |})
    /\ forallb (fun e => query_effect e || is_rule_delay e) added = true
    /\ rule_delays added = List.length (executable_of detections).
Proof.
  intros Hrun.
  destruct (runAllDetections_report detections st outs st1 Hrun) as [w2 Hall].
  destruct (QueryRun_trace _ _ _ _ Hrun) as (added & Htr & Hall' & Hn).
  eexists. exists w2, added. rewrite Hall, Htr, List.app_assoc.
  repeat split; assumption.
Qed.

(** X8: the figures the PDF report computes anew from the results are those of
    the summary: detections executed, detections triggered and total
    events. *)
Theorem report_figures_agree detections outs st st1 :
  QueryRun domain config fuel st (executable_of detections) outs st1 ->
  exists summary st2,
    runAllDetections domain config fuel detections st = (Returned summary, st2)
    /\ PDFGenerator.totalDetections summary = total summary
    /\ PDFGenerator.detectionsWithFindings summary = withFindings summary
    /\ PDFGenerator.totalEvents summary = totalFindings summary.
Proof.
  intros Hrun.
  destruct (runAllDetections_report detections st outs st1 Hrun) as [w2 Hall].
  pose proof (DetectionRunnerFacts.QueryRun_length _ _ _ _ _ _ _ Hrun) as Hlen.
  eexists. eexists. split; [exact Hall|].
  unfold PDFGenerator.totalDetections, PDFGenerator.detectionsWithFindings,
         PDFGenerator.totalEvents.
  destruct (DetectionRunnerFacts.tally_findings
              (initial_results (executable_of detections))
              (executable_of detections) outs) as [Hw Ht].
  rewrite DetectionRunnerFacts.tally_total, DetectionRunnerFacts.tally_results, Hw, Ht.
  cbn [initial_results total withFindings totalFindings detectionResults List.app Nat.add].
  split; [now apply DetectionRunnerFacts.results_for_length|].
  split; [reflexivity|].
  now rewrite fold_left_events, event_count_with_findings.
Qed.

(** X9: the risk level of the report is LOW exactly when no query returned an
    event; so it is for a run whose every query threw. *)
Theorem report_risk_low detections outs st st1 :
  QueryRun domain config fuel st (executable_of detections) outs st1 ->
  exists summary st2,
    runAllDetections domain config fuel detections st = (Returned summary, st2)
    /\ (PDFGenerator.riskLevel summary = "LOW" <-> forallb without_events outs = true)
    /\ (forallb is_thrown outs = true -> PDFGenerator.riskLevel summary = "LOW").
Proof.
  intros Hrun.
  destruct (runAllDetections_report detections st outs st1 Hrun) as [w2 Hall].
  pose proof (DetectionRunnerFacts.QueryRun_length _ _ _ _ _ _ _ Hrun) as Hlen.
  eexists. eexists. split; [exact Hall|].
  assert (Hiff : PDFGenerator.riskLevel
                   (tally (initial_results (executable_of detections))
                          (executable_of detections) outs) = "LOW"
                 <-> forallb without_events outs = true).
  { rewrite <- (findings_of_outcomes _ _ Hlen).
    unfold PDFGenerator.riskLevel, PDFGenerator.detectionsWithFindings.
    rewrite DetectionRunnerFacts.tally_results. cbn [initial_results detectionResults List.app].
    change (fun d : DetectionResult => (0 <? List.length (events d))%nat) with has_findings.
    destruct (filter has_findings (results_for (executable_of detections) outs))
      as [|r rs]; [split; reflexivity|].
    cbn [List.length Nat.eqb].
    destruct (S (List.length rs) <=? 3)%nat; split; discriminate. }
  split; [exact Hiff|].
  intros Hthrown. apply Hiff.
  clear -Hthrown. induction outs as [|[e|evs] outs IH]; [reflexivity | | discriminate].
  cbn [forallb is_thrown without_events andb] in *. exact (IH Hthrown).
Qed.

End Runner.

(** *** Concrete runs on the scripted platform *)

Lemma runAllDetections_negative_limit_witness :
  exists summary st2,
    runAllDetections (P := Mock.platform) "acme.okta.com" Mock.negative_config 0
      Mock.three_rules (Mock.start Mock.second_fails) = (Returned summary, st2)
    /\ success summary = total summary
    /\ failed summary = 0%nat
    /\ requests (trace st2) = 0%nat.
Proof.
  destruct (runAllDetections_negative_limit (P := Mock.platform) "acme.okta.com"
              Mock.negative_config 0 {| cfg_since := None; cfg_limit := Some (-1)%Z |}
              (-1)%Z Mock.three_rules (Mock.start Mock.second_fails)
              eq_refl eq_refl ltac:(lia))
    as (summary & st2 & Hall & Hs & Hf & _ & _ & Hreq).
  exists summary, st2. repeat split; assumption.
Defined.

Lemma runAllDetections_nothing_selected_witness :
  exists w',
    runAllDetections (P := Mock.platform) "acme.okta.com" Mock.no_config 5
      [Mock.splunk_rule] (Mock.start Mock.second_fails)
    = (Returned (initial_results []),
       Mock.state w' [EGenerateReport (initial_results [])]).
Proof.
  destruct (runAllDetections_nothing_selected (P := Mock.platform) "acme.okta.com"
              Mock.no_config 5 [Mock.splunk_rule] (Mock.start Mock.second_fails)
              eq_refl) as (w' & Hall & _).
  exists w'. exact Hall.
Defined.

Lemma runAllDetections_pacing_witness :
  exists summary w2 added,
    runAllDetections (P := Mock.platform) "acme.okta.com" Mock.no_config 5
      Mock.three_rules (Mock.start Mock.second_fails)
    = (Returned summary, Mock.state w2 (added ++ [EGenerateReport summary]))
    /\ rule_delays added = 3%nat.
Proof.
  destruct DetectionRunnerFacts.second_fails_run as (outs & st1 & Hrun & _).
  destruct (runAllDetections_pacing (P := Mock.platform) "acme.okta.com"
              Mock.no_config 5 Mock.three_rules outs
              (Mock.start Mock.second_fails) st1 Hrun)
    as (summary & w2 & added & Hall & _ & Hn).
  exists summary, w2, added. split; [exact Hall | exact Hn].
Defined.

Lemma report_figures_agree_witness :
  exists summary st2,
    runAllDetections (P := Mock.platform) "acme.okta.com" Mock.no_config 5
      Mock.three_rules (Mock.start Mock.none_six_error) = (Returned summary, st2)
    /\ PDFGenerator.detectionsWithFindings summary = withFindings summary
    /\ PDFGenerator.totalEvents summary = totalFindings summary.
Proof.
  destruct DetectionRunnerFacts.none_six_error_run as (outs & st1 & Hrun & _).
  destruct (report_figures_agree (P := Mock.platform) "acme.okta.com"
              Mock.no_config 5 Mock.three_rules outs
              (Mock.start Mock.none_six_error) st1 Hrun)
    as (summary & st2 & Hall & _ & Hw & Ht).
  exists summary, st2. repeat split; assumption.
Defined.

Lemma all_rejected_run :
  exists outs st1,
    QueryRun (P := Mock.platform) "acme.okta.com" Mock.no_config 5
      (Mock.start (Mock.scripted [])) Mock.three_rules outs st1
    /\ forallb is_thrown outs = true.
Proof.
  eexists. eexists. split.
  - eapply QueryRun_throws; [reflexivity|].
    eapply QueryRun_throws; [reflexivity|].
    eapply QueryRun_throws; [reflexivity|].
    apply QueryRun_nil.
  - reflexivity.
Qed.

Lemma report_risk_low_witness :
  exists summary st2,
    runAllDetections (P := Mock.platform) "acme.okta.com" Mock.no_config 5
      Mock.three_rules (Mock.start (Mock.scripted [])) = (Returned summary, st2)
    /\ PDFGenerator.riskLevel summary = "LOW".
Proof.
  destruct all_rejected_run as (outs & st1 & Hrun & Hthrown).
  destruct (report_risk_low (P := Mock.platform) "acme.okta.com"
              Mock.no_config 5 Mock.three_rules outs
              (Mock.start (Mock.scripted [])) st1 Hrun)
    as (summary & st2 & Hall & _ & Hlow).
  exists summary, st2. split; [exact Hall | exact (Hlow Hthrown)].
Defined.

End DetectionRunnerMore.

(** ** More on the rule loader *)

Module DetectionLoaderMore.
Import DetectionLoader.

Section Loader.
Context {P : Platform}.
Variable cwd : string.

Lemma load_file_props source file st :
  exists added st' delay,
    (forall allDetections,
        load_file source file allDetections st
        = (Returned (allDetections ++ added)%list, st'))
    /\ trace st'
       = (trace st ++ EAxiosGet (rawBaseUrl source ++ "/" ++ fe_name file) :: delay)%list
    /\ (delay = [] \/ delay = [ESleep 100])
    /\ (List.length added <= 1)%nat
    /\ Forall (built_from source [fe_name file]) added.
Proof.
  unfold load_file, try_catch, bind, perform, lift, sleep, ret, throw.
  destruct (axios_get (rawBaseUrl source ++ "/" ++ fe_name file) (world st))
    as [[e|yamlResponse] w]; cbn [world trace].
  - eexists [], _, []. split; [intros all; now rewrite List.app_nil_r|].
    cbn [trace List.length]. repeat split; auto.
  - destruct (yaml_load yamlResponse) as [e|doc].
    + eexists [], _, []. split; [intros all; now rewrite List.app_nil_r|].
      cbn [trace List.length]. repeat split; auto.
    + destruct (doc_OIE doc) as [|s|].
      * eexists [], _, [ESleep 100]. split; [intros all; now rewrite List.app_nil_r|].
        cbn [trace List.length]. rewrite <- List.app_assoc. repeat split; auto.
      * destruct (negb (String.eqb s "")).
        -- eexists [tag source file doc s], _, [ESleep 100].
           split; [intros all; reflexivity|].
           cbn [trace List.length]. rewrite <- List.app_assoc.
           repeat split; auto.
           constructor; [|constructor].
           unfold built_from, tag. cbn [queryType filename sourceType query].
           repeat split; [now left | apply JsMore.trim_idem].
        -- eexists [], _, [ESleep 100]. split; [intros all; now rewrite List.app_nil_r|].
           cbn [trace List.length]. rewrite <- List.app_assoc. repeat split; auto.
      * eexists [], _, []. split; [intros all; now rewrite List.app_nil_r|].
        cbn [trace List.length]. repeat split; auto.
Qed.

Lemma built_from_more source names names' d :
  incl names names' -> built_from source names d -> built_from source names' d.
Proof. intros Hincl (H1 & H2 & H3 & H4). repeat split; auto. Qed.

Lemma load_files_props source files :
  forall st, exists found st' added,
    (forall allDetections,
        load_files source files allDetections st
        = (Returned (allDetections ++ found)%list, st'))
    /\ trace st' = (trace st ++ added)%list
    /\ forallb github_effect added = true
    /\ remote_calls added
       = map (fun f => EAxiosGet (rawBaseUrl source ++ "/" ++ fe_name f)) files
    /\ (List.length found <= List.length files)%nat
    /\ Forall (built_from source (map fe_name files)) found.
Proof.
  induction files as [|file files IH]; intros st.
  - exists [], st, []. split; [intros all; cbn; unfold ret; now rewrite List.app_nil_r|].
    rewrite List.app_nil_r. repeat split; auto.
  - destruct (load_file_props source file st)
      as (a1 & st1 & delay & Hfile & Htr1 & Hdelay & Hlen1 & Hall1).
    destruct (IH st1) as (a2 & st2 & added & Hfiles & Htr2 & Heff & Hcalls & Hlen2 & Hall2).
    exists (a1 ++ a2)%list, st2,
           (EAxiosGet (rawBaseUrl source ++ "/" ++ fe_name file) :: delay ++ added)%list.
    split; [|split; [|split; [|split; [|split]]]].
    + intros all. cbn [load_files]. unfold bind. rewrite Hfile, Hfiles.
      now rewrite List.app_assoc.
    + rewrite Htr2, Htr1, <- List.app_assoc. reflexivity.
    + cbn [forallb github_effect andb]. rewrite forallb_app, Heff.
      destruct Hdelay as [-> | ->]; reflexivity.
    + unfold remote_calls in *. cbn [filter is_remote map].
      rewrite filter_app, Hcalls.
      destruct Hdelay as [-> | ->]; reflexivity.
    + rewrite length_app. cbn [List.length]. lia.
    + apply Forall_app. split.
      * eapply Forall_impl; [|exact Hall1].
        intros d. apply built_from_more. intros n [<- | []]. now left.
      * eapply Forall_impl; [|exact Hall2].
        intros d. apply built_from_more. intros n Hn. now right.
Qed.

Lemma list_files_props source st files st1 :
  list_files source st = (Returned files, st1) ->
  trace st1 = (trace st ++ [EAxiosGet (githubBaseUrl source)])%list
  /\ Forall (fun f => Js.endsWith (fe_name f) ".yml" = true) files.
Proof.
  unfold list_files, bind, perform, ret, throw.
  destruct (axios_get (githubBaseUrl source) (world st)) as [[e|[entries|text]] w];
    intros H; try discriminate H.
  injection H as <- <-. split; [reflexivity|].
  apply Forall_forall. intros f Hf. apply filter_In in Hf. tauto.
Qed.

Lemma list_files_throws source st e st1 :
  list_files source st = (Thrown e, st1) ->
  trace st1 = (trace st ++ [EAxiosGet (githubBaseUrl source)])%list.
Proof.
  unfold list_files, bind, perform, ret, throw.
  destruct (axios_get (githubBaseUrl source) (world st)) as [[e0|[entries|text]] w];
    intros H; try discriminate H; now injection H as _ <-.
Qed.

(** What a remote load yields and what it asks of the world. *)
Lemma Collections_props st srcs outs st1 :
  Collections st srcs outs st1 ->
  Forall (loaded_from srcs) (contributed outs)
  /\ exists added,
       trace st1 = (trace st ++ added)%list
       /\ forallb github_effect added = true
       /\ forall source, In source srcs -> In (EAxiosGet (githubBaseUrl source)) added.
Proof.
  induction 1 as [st
                 | st source srcs e st1 outs st2 Hlist _ IH
                 | st source srcs files st1 found st2 outs st3 Hlist Hfiles _ IH].
  - split; [constructor|]. exists []. rewrite List.app_nil_r.
    split; [reflexivity|]. split; [reflexivity|]. intros source [].
  - destruct IH as (Hall & added & Htr & Heff & Hin).
    split.
    + cbn [contributed flat_map List.app]. eapply Forall_impl; [|exact Hall].
      intros d (H1 & H2 & H3 & H4). repeat split; auto. cbn [map]. now right.
    + exists (EAxiosGet (githubBaseUrl source) :: added).
      rewrite Htr, (list_files_throws _ _ _ _ Hlist), <- List.app_assoc.
      split; [reflexivity|]. split; [exact Heff|].
      intros s [<- | Hs]; [now left | right; now apply Hin].
  - destruct IH as (Hall & added & Htr & Heff & Hin).
    destruct (list_files_props _ _ _ _ Hlist) as [Htr1 Hyml].
    destruct (load_files_props source files st1)
      as (found' & st2' & added' & Hacc & Htr2 & Heff2 & _ & _ & Hbuilt).
    pose proof (Hacc []) as Hnil. rewrite Hfiles in Hnil.
    cbn [List.app] in Hnil. injection Hnil as -> ->.
    split.
    + cbn [contributed flat_map]. apply Forall_app. split.
      * eapply Forall_impl; [|exact Hbuilt].
        intros d (H1 & H2 & H3 & H4). repeat split; auto.
        -- apply in_map_iff in H2. destruct H2 as (f & <- & Hf).
           rewrite Forall_forall in Hyml. now apply Hyml.
        -- cbn [map]. left. now symmetry.
      * eapply Forall_impl; [|exact Hall].
        intros d (H1 & H2 & H3 & H4). repeat split; auto. cbn [map]. now right.
    + exists (EAxiosGet (githubBaseUrl source) :: added' ++ added)%list.
      rewrite Htr, Htr2, Htr1, <- !List.app_assoc.
      split; [reflexivity|]. split.
      * cbn [forallb github_effect andb]. now rewrite forallb_app, Heff2, Heff.
      * intros s [<- | Hs]; [now left|].
        right. apply in_or_app. right. now apply Hin.
Qed.

(** A forced load whose collections answer as [outs] and whose cache
    directory is there, up to the write of the cache file. *)
Lemma remote_phase_run srcs st w0 outs st1 :
  fs_mkdir (cacheDir cwd) (world st) = (inr tt, w0) ->
  Collections {| world := w0; trace := trace st ++ [EMkdir (cacheDir cwd)] |}
    srcs outs st1 ->
  loadDetections_from cwd srcs true st
  = try_catch
      (perform (EWriteFile (cacheFile cwd) (JSON_stringify (contributed outs)))
               (fs_writeFile (cacheFile cwd) (JSON_stringify (contributed outs))) ;;;
       ret (contributed outs))
      (fallback cwd) st1.
Proof.
  intros Hmkdir Hrun.
  unfold loadDetections_from, try_catch at 1, bind at 1, perform at 1.
  rewrite Hmkdir. cbn [negb]. unfold bind at 1, ret at 1.
  unfold fetch_and_cache, bind at 1.
  rewrite (DetectionLoaderFacts.load_sources_run _ _ _ _ Hrun). cbn [List.app].
  reflexivity.
Qed.

(** X10: the loop over the files of a collection never stops early: every file
    is asked of GitHub once, in the order of the listing, whatever became of
    the files before it, and the loop returns what is loaded already with, for
    each file, at most one descriptor tagged OIE with the name of a file, the
    type of the collection and a trimmed query. *)
Theorem load_files_every_file source files st :
  exists found st',
    (forall allDetections,
        load_files source files allDetections st
        = (Returned (allDetections ++ found)%list, st'))
    /\ remote_calls (trace st')
       = (remote_calls (trace st)
          ++ map (fun f => EAxiosGet (rawBaseUrl source ++ "/" ++ fe_name f)) files)%list
    /\ (List.length found <= List.length files)%nat
    /\ Forall (built_from source (map fe_name files)) found.
Proof.
  destruct (load_files_props source files st)
    as (found & st' & added & Hacc & Htr & _ & Hcalls & Hlen & Hbuilt).
  exists found, st'. split; [exact Hacc|]. split; [|split; assumption].
  rewrite Htr. unfold remote_calls in *. now rewrite filter_app, Hcalls.
Qed.

(** X11: every descriptor of a remote load is tagged OIE, comes from a [.yml]
    file, carries the type of one of the collections and has a trimmed query
    (an empty one is not excluded); so the filter of the runner keeps them
    all. *)
Theorem loadDetections_loaded_invariant srcs st w0 outs st1 w2 :
  fs_mkdir (cacheDir cwd) (world st) = (inr tt, w0) ->
  Collections {| world := w0; trace := trace st ++ [EMkdir (cacheDir cwd)] |}
    srcs outs st1 ->
  fs_writeFile (cacheFile cwd) (JSON_stringify (contributed outs)) (world st1)
    = (inr tt, w2) ->
  exists detections st',
    loadDetections_from cwd srcs true st = (Returned detections, st')
    /\ Forall (loaded_from srcs) detections
    /\ DetectionRunner.executable_of detections = detections.
Proof.
  intros Hmkdir Hrun Hwrite.
  rewrite (remote_phase_run srcs st w0 outs st1 Hmkdir Hrun).
  unfold try_catch, bind, perform, ret. rewrite Hwrite.
  eexists. eexists. split; [reflexivity|].
  destruct (Collections_props _ _ _ _ Hrun) as [Hall _].
  split; [exact Hall|].
  unfold DetectionRunner.executable_of.
  clear -Hall. induction Hall as [|d ds (Htag & _) _ IH]; [reflexivity|].
  cbn [filter]. rewrite Htag. cbn. now rewrite IH.
Qed.

(** X12: a forced load with a working file system asks for the listing of every
    collection, and apart from making the directory and writing the cache
    file at the end it does nothing but ask GitHub and wait 100 ms: it never
    reads the old cache and never queries the log. *)
Theorem loadDetections_forced_effects srcs st w0 outs st1 w2 :
  fs_mkdir (cacheDir cwd) (world st) = (inr tt, w0) ->
  Collections {| world := w0; trace := trace st ++ [EMkdir (cacheDir cwd)] |}
    srcs outs st1 ->
  fs_writeFile (cacheFile cwd) (JSON_stringify (contributed outs)) (world st1)
    = (inr tt, w2) ->
  exists detections added,
    loadDetections_from cwd srcs true st
    = (Returned detections,
       {| world := w2;
          trace := trace st ++ [EMkdir (cacheDir cwd)] ++ added
                   ++ [EWriteFile (cacheFile cwd) (JSON_stringify detections)] |})
    /\ forallb github_effect added = true
    /\ forall source, In source srcs -> In (EAxiosGet (githubBaseUrl source)) added.
Proof.
  intros Hmkdir Hrun Hwrite.
  rewrite (remote_phase_run srcs st w0 outs st1 Hmkdir Hrun).
  unfold try_catch, bind, perform, ret. rewrite Hwrite.
  destruct (Collections_props _ _ _ _ Hrun) as (_ & added & Htr & Heff & Hin).
  cbn [trace] in Htr.
  exists (contributed outs), added. rewrite Htr, <- !List.app_assoc.
  repeat split; assumption.
Qed.

(** X13: when the cache directory cannot be made nothing is fetched, forced or
    not: the call returns the cache if it reads and parses, and otherwise
    throws an error whose message names the failure of the mkdir. *)
Theorem loadDetections_mkdir_failure srcs forceRefresh st e w0 r w1 :
  fs_mkdir (cacheDir cwd) (world st) = (inl e, w0) ->
  fs_readFile (cacheFile cwd) w0 = (r, w1) ->
  let st1 := {| world := w1;
                trace := trace st ++ [EMkdir (cacheDir cwd); EReadFile (cacheFile cwd)] |} in
  (forall text detections,
      r = inr text -> JSON_parse text = inr detections ->
      loadDetections_from cwd srcs forceRefresh st = (Returned detections, st1))
  /\ (cache_unusable r ->
      loadDetections_from cwd srcs forceRefresh st
      = (Thrown (new_Error
           ("Failed to load detections and hunts from GitHub and no cache available: "
            ++ message e)), st1)).
Proof.
  intros Hmkdir Hread st1. subst st1.
  assert (Hfall : loadDetections_from cwd srcs forceRefresh st
                  = fallback cwd e {| world := w0;
                                      trace := trace st ++ [EMkdir (cacheDir cwd)] |}).
  { unfold loadDetections_from, try_catch at 1, bind at 1, perform at 1.
    now rewrite Hmkdir. }
  rewrite Hfall.
  unfold fallback, try_catch, read_cache, bind, perform, lift. cbn [world trace].
  rewrite Hread, <- List.app_assoc. cbn [List.app].
  split.
  - intros text detections -> Hparse. now rewrite Hparse.
  - intros Hbad. destruct r as [e'|text]; [reflexivity|].
    destruct Hbad as [e' He']. now rewrite He'.
Qed.

(** X14: when the write of the cache file fails after the collections were
    fetched, what was fetched is dropped: the call returns the old cache if it
    reads and parses, and otherwise throws an error whose message names the
    failure of the write. *)
Theorem loadDetections_write_failure srcs st w0 outs st1 e w2 r w3 :
  fs_mkdir (cacheDir cwd) (world st) = (inr tt, w0) ->
  Collections {| world := w0; trace := trace st ++ [EMkdir (cacheDir cwd)] |}
    srcs outs st1 ->
  fs_writeFile (cacheFile cwd) (JSON_stringify (contributed outs)) (world st1)
    = (inl e, w2) ->
  fs_readFile (cacheFile cwd) w2 = (r, w3) ->
  let st3 := {| world := w3;
                trace := trace st1
                         ++ [EWriteFile (cacheFile cwd) (JSON_stringify (contributed outs));
                             EReadFile (cacheFile cwd)] |} in
  (forall text detections,
      r = inr text -> JSON_parse text = inr detections ->
      loadDetections_from cwd srcs true st = (Returned detections, st3))
  /\ (cache_unusable r ->
      loadDetections_from cwd srcs true st
      = (Thrown (new_Error
           ("Failed to load detections and hunts from GitHub and no cache available: "
            ++ message e)), st3)).
Proof.
  intros Hmkdir Hrun Hwrite Hread st3. subst st3.
  rewrite (remote_phase_run srcs st w0 outs st1 Hmkdir Hrun).
  assert (Hfall :
    try_catch
      (perform (EWriteFile (cacheFile cwd) (JSON_stringify (contributed outs)))
               (fs_writeFile (cacheFile cwd) (JSON_stringify (contributed outs))) ;;;
       ret (contributed outs))
      (fallback cwd) st1
    = fallback cwd e
        {| world := w2;
           trace := trace st1
                    ++ [EWriteFile (cacheFile cwd) (JSON_stringify (contributed outs))] |}).
  { unfold try_catch, bind, perform. now rewrite Hwrite. }
  rewrite Hfall.
  unfold fallback, try_catch, read_cache, bind, perform, lift. cbn [world trace].
  rewrite Hread, <- List.app_assoc. cbn [List.app].
  split.
  - intros text detections -> Hparse. now rewrite Hparse.
  - intros Hbad. destruct r as [e'|text]; [reflexivity|].
    destruct Hbad as [e' He']. now rewrite He'.
Qed.

End Loader.


(** *** Concrete runs on the scripted platform *)

Lemma loadDetections_loaded_invariant_witness :
  exists detections st',
    loadDetections (P := Mock.platform) "/app" true
      (Mock.start (Mock.with_cache Mock.hunts_only "[cached rule]"))
    = (Returned detections, st')
    /\ Forall (loaded_from sources) detections
    /\ DetectionRunner.executable_of detections = detections.
Proof.
  destruct DetectionLoaderFacts.hunts_only_run as (outs & st1 & Hrun & _).
  exact (loadDetections_loaded_invariant (P := Mock.platform) "/app" sources
           (Mock.start (Mock.with_cache Mock.hunts_only "[cached rule]"))
           (Mock.with_cache Mock.hunts_only "[cached rule]") outs st1
           (snd (Mock.mock_writeFile (cacheFile "/app")
                   (Mock.mock_JSON_stringify (contributed outs)) (world st1)))
           eq_refl Hrun eq_refl).
Defined.

Lemma loadDetections_forced_effects_witness :
  exists detections w2 added,
    loadDetections (P := Mock.platform) "/app" true
      (Mock.start (Mock.with_cache Mock.hunts_only "[cached rule]"))
    = (Returned detections,
       Mock.state w2 ([EMkdir (cacheDir "/app")] ++ added
                      ++ [EWriteFile (cacheFile "/app")
                            (Mock.mock_JSON_stringify detections)]))
    /\ forallb github_effect added = true.
Proof.
  destruct DetectionLoaderFacts.hunts_only_run as (outs & st1 & Hrun & _).
  destruct (loadDetections_forced_effects (P := Mock.platform) "/app" sources
              (Mock.start (Mock.with_cache Mock.hunts_only "[cached rule]"))
              (Mock.with_cache Mock.hunts_only "[cached rule]") outs st1
              (snd (Mock.mock_writeFile (cacheFile "/app")
                      (Mock.mock_JSON_stringify (contributed outs)) (world st1)))
              eq_refl Hrun eq_refl)
    as (detections & added & Hload & Heff & _).
  eexists detections, _, added. split; [exact Hload | exact Heff].
Defined.

Lemma loadDetections_mkdir_failure_witness :
  loadDetections (P := Mock.faulty false true) "/app" true
    (Mock.faulty_state false true (Mock.with_cache Mock.hunts_only "[cached rule]") [])
  = (Returned [Mock.cached_rule],
     Mock.faulty_state false true (Mock.with_cache Mock.hunts_only "[cached rule]")
       [EMkdir (cacheDir "/app"); EReadFile (cacheFile "/app")])
  /\ fst (loadDetections (P := Mock.faulty false true) "/app" true
            (Mock.faulty_state false true (Mock.with_cache Mock.hunts_only "garbage") []))
     = Thrown (new_Error
         ("Failed to load detections and hunts from GitHub and no cache available: "
          ++ "EACCES: permission denied, mkdir")).
Proof.
  split.
  - destruct (loadDetections_mkdir_failure (P := Mock.faulty false true) "/app" sources
                true
                (Mock.faulty_state false true
                   (Mock.with_cache Mock.hunts_only "[cached rule]") [])
                (new_Error "EACCES: permission denied, mkdir")
                (Mock.with_cache Mock.hunts_only "[cached rule]")
                (inr "[cached rule]") (Mock.with_cache Mock.hunts_only "[cached rule]")
                eq_refl eq_refl) as (Hvalid & _).
    exact (Hvalid "[cached rule]" [Mock.cached_rule] eq_refl eq_refl).
  - destruct (loadDetections_mkdir_failure (P := Mock.faulty false true) "/app" sources
                true
                (Mock.faulty_state false true
                   (Mock.with_cache Mock.hunts_only "garbage") [])
                (new_Error "EACCES: permission denied, mkdir")
                (Mock.with_cache Mock.hunts_only "garbage")
                (inr "garbage") (Mock.with_cache Mock.hunts_only "garbage")
                eq_refl eq_refl) as (_ & Hbad).
    unfold loadDetections. rewrite Hbad; [reflexivity|].
    exists (new_Error "Unexpected token in JSON"). reflexivity.
Defined.

Lemma hunts_only_run_no_space :
  exists outs st1,
    Collections (P := Mock.faulty true false)
      (Mock.faulty_state true false (Mock.with_cache Mock.hunts_only "[cached rule]")
         [EMkdir (cacheDir "/app")])
      sources outs st1
    /\ world st1 = Mock.with_cache Mock.hunts_only "[cached rule]"
    /\ List.length (contributed outs) = 2%nat.
Proof.
  eexists. eexists. split; [|split].
  - eapply Collections_fails; [reflexivity|].
    eapply Collections_yields; [reflexivity | reflexivity |].
    apply Collections_nil.
  - reflexivity.
  - reflexivity.
Qed.

Lemma loadDetections_write_failure_witness :
  exists st3,
    loadDetections (P := Mock.faulty true false) "/app" true
      (Mock.faulty_state true false (Mock.with_cache Mock.hunts_only "[cached rule]") [])
    = (Returned [Mock.cached_rule], st3).
Proof.
  destruct hunts_only_run_no_space as (outs & st1 & Hrun & Hworld & _).
  destruct (loadDetections_write_failure (P := Mock.faulty true false) "/app" sources
              (Mock.faulty_state true false
                 (Mock.with_cache Mock.hunts_only "[cached rule]") [])
              (Mock.with_cache Mock.hunts_only "[cached rule]") outs st1
              (new_Error "ENOSPC: no space left on device") (world st1)
              (inr "[cached rule]") (world st1)
              eq_refl Hrun eq_refl
              ltac:(rewrite Hworld; reflexivity)) as (Hvalid & _).
  eexists. exact (Hvalid "[cached rule]" [Mock.cached_rule] eq_refl eq_refl).
Defined.

(** X15: the filter of the loader keeps, in their order, the descriptors tagged
    OIE whose query is not empty: it is the filter of the runner followed by
    the test of the query, it changes nothing when applied again, and the
    runner selects all of what it keeps. *)
Theorem filterExecutableDetections_facts (detections : list Detection) :
  Forall (fun d => queryType d = "OIE" /\ query d <> "")
         (filterExecutableDetections detections)
  /\ filterExecutableDetections detections
     = filter (fun d => negb (String.eqb (query d) ""))
              (DetectionRunner.executable_of detections)
  /\ filterExecutableDetections (filterExecutableDetections detections)
     = filterExecutableDetections detections
  /\ DetectionRunner.executable_of (filterExecutableDetections detections)
     = filterExecutableDetections detections.
Proof.
  unfold filterExecutableDetections, DetectionRunner.executable_of.
  split; [|split; [|split]].
  - apply Forall_forall. intros d Hd. apply filter_In in Hd.
    destruct Hd as [_ Hd]. apply andb_prop in Hd. destruct Hd as [Htag Hq].
    split; [now apply String.eqb_eq|].
    intros Hempty. rewrite Hempty in Hq. discriminate Hq.
  - induction detections as [|d ds IH]; [reflexivity|].
    cbn [filter]. destruct (String.eqb (queryType d) "OIE"); cbn [andb filter].
    + destruct (negb (String.eqb (query d) "")); now rewrite IH.
    + exact IH.
  - induction detections as [|d ds IH]; [reflexivity|].
    cbn [filter].
    destruct (String.eqb (queryType d) "OIE" && negb (String.eqb (query d) "")) eqn:E;
      [|exact IH].
    cbn [filter]. now rewrite E, IH.
  - induction detections as [|d ds IH]; [reflexivity|].
    cbn [filter].
    destruct (String.eqb (queryType d) "OIE") eqn:E; cbn [andb]; [|exact IH].
    destruct (negb (String.eqb (query d) "")); [|exact IH].
    cbn [filter]. now rewrite E, IH.
Qed.

End DetectionLoaderMore.

(** ** The command line and the calls of the application *)

Module SecurityHealthCheckFacts.
Import SecurityHealthCheck.

Lemma list_switch_not_offline (arg : string) :
  is_list_switch arg = true -> is_offline_switch arg = false.
Proof.
  unfold is_list_switch, is_offline_switch, is_one_of. intros H.
  apply orb_prop in H. destruct H as [H|H]; apply String.eqb_eq in H; subst arg;
    reflexivity.
Qed.

Lemma parse_from_switches (args : list string) :
  forallb (fun arg => negb (takes_value arg)) args = true ->
  forall options,
    opt_detection (parse_from args options) = opt_detection options
    /\ opt_since (parse_from args options) = opt_since options
    /\ opt_list (parse_from args options)
       = opt_list options || existsb is_list_switch args
    /\ opt_offline (parse_from args options)
       = opt_offline options || existsb is_offline_switch args
    /\ opt_help (parse_from args options)
       = opt_help options
         || existsb (fun arg => negb (is_list_switch arg || is_offline_switch arg)) args.
Proof.
  induction args as [|arg args IH]; intros Hsw options.
  - cbn. now rewrite !orb_false_r.
  - cbn [forallb] in Hsw. apply andb_prop in Hsw. destruct Hsw as [Harg Hrest].
    apply negb_true_iff in Harg. unfold takes_value in Harg.
    apply orb_false_elim in Harg. destruct Harg as [Hd Hs].
    cbn [parse_from existsb]. rewrite Hd, Hs.
    fold (is_list_switch arg). fold (is_offline_switch arg).
    destruct (is_list_switch arg) eqn:Hl.
    + rewrite (list_switch_not_offline arg Hl).
      destruct (IH Hrest {| opt_list := true; opt_detection := opt_detection options;
                            opt_since := opt_since options;
                            opt_offline := opt_offline options;
                            opt_help := opt_help options |})
        as (H1 & H2 & H3 & H4 & H5).
      cbn [opt_list opt_detection opt_since opt_offline opt_help] in *.
      rewrite H1, H2, H3, H4, H5. cbn [orb negb]. now rewrite orb_true_r.
    + destruct (is_offline_switch arg) eqn:Ho.
      * destruct (IH Hrest {| opt_list := opt_list options;
                              opt_detection := opt_detection options;
                              opt_since := opt_since options; opt_offline := true;
                              opt_help := opt_help options |})
          as (H1 & H2 & H3 & H4 & H5).
        cbn [opt_list opt_detection opt_since opt_offline opt_help] in *.
        rewrite H1, H2, H3, H4, H5. cbn [orb negb]. now rewrite orb_true_r.
      * destruct (IH Hrest {| opt_list := opt_list options;
                              opt_detection := opt_detection options;
                              opt_since := opt_since options;
                              opt_offline := opt_offline options; opt_help := true |})
          as (H1 & H2 & H3 & H4 & H5).
        cbn [opt_list opt_detection opt_since opt_offline opt_help] in *.
        rewrite H1, H2, H3, H4, H5. cbn [orb negb]. now rewrite orb_true_r.
Qed.

(** X16: on a command line without [--detection] and [--since] (or [-d], [-s]),
    [list] and [offline] are set exactly when one of their switches is
    there, [help] exactly when some argument is neither of those switches,
    and [detection] and [since] stay null. *)
Theorem parseArguments_switches (args : list string) :
  forallb (fun arg => negb (takes_value arg)) args = true ->
  opt_detection (parseArguments args) = None
  /\ opt_since (parseArguments args) = None
  /\ opt_list (parseArguments args) = existsb is_list_switch args
  /\ opt_offline (parseArguments args) = existsb is_offline_switch args
  /\ opt_help (parseArguments args)
     = existsb (fun arg => negb (is_list_switch arg || is_offline_switch arg)) args.
Proof.
  intros Hsw. exact (parse_from_switches args Hsw default_options).
Qed.

Lemma parseArguments_switches_witness :
  opt_list (parseArguments ["-l"; "--offline"; "--verbose"]) = true
  /\ opt_offline (parseArguments ["-l"; "--offline"; "--verbose"]) = true
  /\ opt_help (parseArguments ["-l"; "--offline"; "--verbose"]) = true.
Proof.
  destruct (parseArguments_switches ["-l"; "--offline"; "--verbose"] eq_refl)
    as (_ & _ & Hl & Ho & Hh).
  repeat split; assumption.
Defined.

Lemma parse_from_switches_only (n : nat) :
  forall args options options',
    (List.length args <= n)%nat ->
    opt_list options = opt_list options' ->
    opt_offline options = opt_offline options' ->
    opt_help options = opt_help options' ->
    opt_list (parse_from args options) = opt_list (parse_from args options')
    /\ opt_offline (parse_from args options) = opt_offline (parse_from args options')
    /\ opt_help (parse_from args options) = opt_help (parse_from args options').
Proof.
  induction n as [|n IH]; intros args options options' Hlen Hl Ho Hh.
  - destruct args; [now cbn | cbn [List.length] in Hlen; lia].
  - destruct args as [|arg rest]; [now cbn|].
    cbn [List.length] in Hlen. cbn [parse_from].
    destruct (is_one_of arg "--list" "-l"); [apply IH; cbn; auto; lia|].
    destruct (is_one_of arg "--detection" "-d").
    { destruct rest as [|value rest']; [now cbn|].
      cbn [List.length] in Hlen. apply IH; cbn; auto; lia. }
    destruct (is_one_of arg "--since" "-s").
    { destruct rest as [|value rest']; [now cbn|].
      cbn [List.length] in Hlen. apply IH; cbn; auto; lia. }
    destruct (is_one_of arg "--offline" "-o"); apply IH; cbn; auto; lia.
Qed.

(** X17: the argument after [--detection] or [--since] (or [-d], [-s]) is their
    value, whatever it reads as: it switches nothing on, and the switches
    are those of the arguments that follow it. *)
Theorem parseArguments_value_is_no_switch (flag value : string) (rest : list string) :
  takes_value flag = true ->
  opt_list (parseArguments (flag :: value :: rest)) = opt_list (parseArguments rest)
  /\ opt_offline (parseArguments (flag :: value :: rest))
     = opt_offline (parseArguments rest)
  /\ opt_help (parseArguments (flag :: value :: rest)) = opt_help (parseArguments rest)
  /\ (is_one_of flag "--detection" "-d" = true ->
      forallb (fun arg => negb (takes_value arg)) rest = true ->
      opt_detection (parseArguments (flag :: value :: rest)) = Some value).
Proof.
  intros Hflag.
  assert (Hnot : is_one_of flag "--list" "-l" = false).
  { unfold takes_value, is_one_of in *.
    repeat (apply orb_prop in Hflag; destruct Hflag as [Hflag|Hflag]);
      apply String.eqb_eq in Hflag; subst flag; reflexivity. }
  unfold parseArguments. cbn [parse_from]. rewrite Hnot.
  unfold takes_value in Hflag.
  destruct (is_one_of flag "--detection" "-d") eqn:Hd.
  - destruct (parse_from_switches_only (List.length rest) rest
                {| opt_list := opt_list default_options; opt_detection := Some value;
                   opt_since := opt_since default_options;
                   opt_offline := opt_offline default_options;
                   opt_help := opt_help default_options |}
                default_options (le_n _) eq_refl eq_refl eq_refl) as (H1 & H2 & H3).
    repeat split; try assumption.
    intros _ Hsw.
    exact (proj1 (parse_from_switches rest Hsw _)).
  - cbn [orb] in Hflag. rewrite Hflag.
    destruct (parse_from_switches_only (List.length rest) rest
                {| opt_list := opt_list default_options;
                   opt_detection := opt_detection default_options;
                   opt_since := Some value;
                   opt_offline := opt_offline default_options;
                   opt_help := opt_help default_options |}
                default_options (le_n _) eq_refl eq_refl eq_refl) as (H1 & H2 & H3).
    repeat split; try assumption. discriminate.
Qed.

Lemma parseArguments_value_is_no_switch_witness :
  opt_help (parseArguments ["-d"; "--help"; "-o"]) = opt_help (parseArguments ["-o"])
  /\ opt_detection (parseArguments ["-d"; "--help"; "-o"]) = Some "--help".
Proof.
  destruct (parseArguments_value_is_no_switch "-d" "--help" ["-o"] eq_refl)
    as (_ & _ & Hh & Hd).
  split; [exact Hh | exact (Hd eq_refl eq_refl)].
Defined.

Lemma find_ext {A} (f g : A -> bool) (l : list A) :
  (forall a, f a = g a) -> find f l = find g l.
Proof.
  intros H. induction l as [|a l IH]; [reflexivity|].
  cbn [find]. now rewrite H, IH.
Qed.

Lemma executable_of_loaded srcs (ds : list Detection) :
  Forall (loaded_from srcs) ds -> DetectionRunner.executable_of ds = ds.
Proof.
  unfold DetectionRunner.executable_of.
  induction 1 as [|d ds (Htag & _) _ IH]; [reflexivity|].
  cbn [filter]. rewrite Htag. cbn. now rewrite IH.
Qed.

Section App.
Context {P : Platform}.
Variable cwd : string.
Variable config : Config.
Variable fuel : nat.

(** A load from a cache that reads and parses. *)
Lemma load_from_cache st r0 w0 text w1 detections :
  fs_mkdir (DetectionLoader.cacheDir cwd) (world st) = (r0, w0) ->
  fs_readFile (DetectionLoader.cacheFile cwd) w0 = (inr text, w1) ->
  JSON_parse text = inr detections ->
  DetectionLoader.loadDetections cwd false st
  = (Returned detections,
     {| world := w1;
        trace := trace st ++ [EMkdir (DetectionLoader.cacheDir cwd);
                              EReadFile (DetectionLoader.cacheFile cwd)] |}).
Proof.
  intros Hmkdir Hread Hparse.
  unfold DetectionLoader.loadDetections, DetectionLoader.loadDetections_from,
         try_catch at 1, bind at 1, perform at 1.
  rewrite Hmkdir.
  destruct r0 as [e|[]].
  - unfold DetectionLoader.fallback, try_catch, DetectionLoader.read_cache,
           bind, perform, lift.
    cbn [world trace]. rewrite Hread, Hparse.
    unfold ret. now rewrite <- List.app_assoc.
  - cbn [negb]. unfold bind at 1, try_catch at 1, bind at 1.
    unfold DetectionLoader.read_cache, bind at 1, perform.
    cbn [world trace]. rewrite Hread. unfold lift. rewrite Hparse.
    unfold ret. now rewrite <- List.app_assoc.
Qed.

(** X18: running one rule by name from the cache.  Nothing is asked of GitHub;
    when no cached rule has the name in its title or file name the process
    exits with code 1 before any query; otherwise the first such rule of the
    cache, whatever its tag, is the one queried, and what its query throws is
    thrown on.  Names are compared in lower case. *)
Theorem runSpecificDetection_offline detectionName st r0 w0 text w1 detections :
  fs_mkdir (DetectionLoader.cacheDir cwd) (world st) = (r0, w0) ->
  fs_readFile (DetectionLoader.cacheFile cwd) w0 = (inr text, w1) ->
  JSON_parse text = inr detections ->
  let st1 := {| world := w1;
                trace := trace st ++ [EMkdir (DetectionLoader.cacheDir cwd);
                                      EReadFile (DetectionLoader.cacheFile cwd)] |} in
  (find (matches detectionName) detections = None ->
   runSpecificDetection cwd config fuel detectionName true st
   = (Returned (Exited 1), st1))
  /\ (forall detection,
        find (matches detectionName) detections = Some detection ->
        In detection detections
        /\ runSpecificDetection cwd config fuel detectionName true st
           = match OktaClient.querySystemLog (cfg_domain config) fuel (query detection)
                     (DetectionRunner.config_since config)
                     (Some (DetectionRunner.config_limit config)) st1 with
             | (Returned _, st2) => (Returned Finished, st2)
             | (Thrown e, st2) => (Thrown e, st2)
             | (OutOfFuel, st2) => (OutOfFuel, st2)
             end)
  /\ (forall other,
        Js.toLowerCase other = Js.toLowerCase detectionName ->
        runSpecificDetection cwd config fuel other true st
        = runSpecificDetection cwd config fuel detectionName true st).
Proof.
  intros Hmkdir Hread Hparse st1.
  pose proof (load_from_cache st r0 w0 text w1 detections Hmkdir Hread Hparse) as Hload.
  split; [|split].
  - intros Hnone. unfold runSpecificDetection, bind. cbn [negb].
    rewrite Hload, Hnone. reflexivity.
  - intros detection Hfound. split; [exact (proj1 (find_some _ _ Hfound))|].
    unfold runSpecificDetection, bind at 1. cbn [negb]. rewrite Hload, Hfound.
    unfold bind, DetectionRunner.runDetection, DetectionRunner.runDetectionWithEvents,
           bind, ret.
    fold st1.
    destruct (OktaClient.querySystemLog (cfg_domain config) fuel (query detection)
                (DetectionRunner.config_since config)
                (Some (DetectionRunner.config_limit config)) st1)
      as [[evs|e|] st2]; reflexivity.
  - intros other Hlower. unfold runSpecificDetection.
    assert (Hsame : forall d, matches other d = matches detectionName d).
    { intros d. unfold matches. now rewrite Hlower. }
    unfold bind.
    destruct (DetectionLoader.loadDetections cwd (negb true) st) as [[ds|e|] st2];
      try reflexivity.
    now rewrite (find_ext _ _ ds Hsame).
Qed.

(** X19: a full run after a forced load with a working file system: every
    descriptor that was loaded is run, in the order of the load, and the
    report is generated from a summary whose total is their number. *)
Theorem runAllDetections_runs_all_loaded st w0 outs st1 w2 qouts st3 :
  fs_mkdir (DetectionLoader.cacheDir cwd) (world st) = (inr tt, w0) ->
  Collections {| world := w0;
                 trace := trace st ++ [EMkdir (DetectionLoader.cacheDir cwd)] |}
    DetectionLoader.sources outs st1 ->
  fs_writeFile (DetectionLoader.cacheFile cwd) (JSON_stringify (contributed outs))
    (world st1) = (inr tt, w2) ->
  QueryRun (cfg_domain config) config fuel
    {| world := w2;
       trace := trace st1 ++ [EWriteFile (DetectionLoader.cacheFile cwd)
                                (JSON_stringify (contributed outs))] |}
    (contributed outs) qouts st3 ->
  exists summary w4,
    runAllDetections cwd config fuel false st
    = (Returned tt,
       {| world := w4; trace := trace st3 ++ [EGenerateReport summary] |})
    /\ total summary = List.length (contributed outs)
    /\ Forall2 describes (contributed outs) (detectionResults summary).
Proof.
  intros Hmkdir Hrun Hwrite Hqueries.
  pose proof (proj1 (DetectionLoaderMore.Collections_props _ _ _ _ Hrun)) as Hloaded.
  pose proof (executable_of_loaded _ _ Hloaded) as Hexec.
  assert (Hselected :
    QueryRun (cfg_domain config) config fuel
      {| world := w2;
         trace := trace st1 ++ [EWriteFile (DetectionLoader.cacheFile cwd)
                                  (JSON_stringify (contributed outs))] |}
      (DetectionRunner.executable_of (contributed outs)) qouts st3)
    by (rewrite Hexec; exact Hqueries).
  destruct (DetectionRunnerMore.runAllDetections_report (cfg_domain config) config fuel
              (contributed outs) _ qouts st3 Hselected) as [w4 Hall].
  eexists. exists w4. split; [|split].
  - unfold runAllDetections, bind at 1. cbn [negb].
    unfold DetectionLoader.loadDetections.
    rewrite (DetectionLoaderMore.remote_phase_run cwd DetectionLoader.sources st w0
               outs st1 Hmkdir Hrun).
    unfold try_catch at 1, bind at 1, perform at 1. rewrite Hwrite.
    unfold ret at 1. unfold bind. rewrite Hall. reflexivity.
  - rewrite DetectionRunnerFacts.tally_total. cbn [DetectionRunner.initial_results total].
    now rewrite Hexec.
  - rewrite DetectionRunnerFacts.tally_results.
    cbn [DetectionRunner.initial_results detectionResults List.app].
    rewrite Hexec at 1.
    apply DetectionRunnerFacts.results_for_describes.
    exact (DetectionRunnerFacts.QueryRun_length _ _ _ _ _ _ _ Hqueries).
Qed.

End App.

(** *** Concrete runs on the scripted platform *)

Lemma runSpecificDetection_offline_witness :
  fst (runSpecificDetection (P := Mock.platform) "/app" Mock.no_config 5 "CACHED" true
         (Mock.start (Mock.offline "[cached rule]" [inr (Mock.last_page [Mock.ev "e"])])))
  = Returned Finished
  /\ runSpecificDetection (P := Mock.platform) "/app" Mock.no_config 5 "no such rule" true
       (Mock.start (Mock.offline "[cached rule]" [inr (Mock.last_page [Mock.ev "e"])]))
     = (Returned (Exited 1),
        Mock.state (Mock.offline "[cached rule]" [inr (Mock.last_page [Mock.ev "e"])])
          [EMkdir (DetectionLoader.cacheDir "/app");
           EReadFile (DetectionLoader.cacheFile "/app")]).
Proof.
  split.
  - destruct (runSpecificDetection_offline (P := Mock.platform) "/app" Mock.no_config 5
                "CACHED"
                (Mock.start (Mock.offline "[cached rule]"
                               [inr (Mock.last_page [Mock.ev "e"])]))
                (inr tt) _ "[cached rule]" _ [Mock.cached_rule]
                eq_refl eq_refl eq_refl) as (_ & Hfound & _).
    destruct (Hfound Mock.cached_rule eq_refl) as [_ Hrun].
    rewrite Hrun. reflexivity.
  - destruct (runSpecificDetection_offline (P := Mock.platform) "/app" Mock.no_config 5
                "no such rule"
                (Mock.start (Mock.offline "[cached rule]"
                               [inr (Mock.last_page [Mock.ev "e"])]))
                (inr tt) _ "[cached rule]" _ [Mock.cached_rule]
                eq_refl eq_refl eq_refl) as (Hnone & _).
    exact (Hnone eq_refl).
Defined.

Lemma runAllDetections_runs_all_loaded_witness :
  exists summary st4,
    runAllDetections (P := Mock.platform) "/app" Mock.negative_config 0 false
      (Mock.start (Mock.with_cache Mock.hunts_only "[cached rule]"))
    = (Returned tt, st4)
    /\ last (trace st4) (ESleep 0) = EGenerateReport summary
    /\ total summary = 2%nat.
Proof.
  destruct DetectionLoaderFacts.hunts_only_run
    as (outs & st1 & Hrun & Hworld & h1 & h2 & Houts & _).
  destruct (DetectionRunnerMore.idle_run (P := Mock.platform) "acme.okta.com"
              Mock.negative_config 0 ltac:(cbn; lia) (contributed outs)
              (Mock.state
                 (snd (Mock.mock_writeFile (DetectionLoader.cacheFile "/app")
                         (Mock.mock_JSON_stringify (contributed outs)) (world st1)))
                 (trace st1 ++ [EWriteFile (DetectionLoader.cacheFile "/app")
                                  (Mock.mock_JSON_stringify (contributed outs))])))
    as (st3 & Hqueries & _).
  destruct (runAllDetections_runs_all_loaded (P := Mock.platform) "/app"
              Mock.negative_config 0
              (Mock.start (Mock.with_cache Mock.hunts_only "[cached rule]"))
              (Mock.with_cache Mock.hunts_only "[cached rule]") outs st1 _ _ st3
              eq_refl Hrun eq_refl Hqueries)
    as (summary & w4 & Hall & Htotal & _).
  eexists summary, _. split; [exact Hall|].
  cbn [trace]. rewrite last_last. split; [reflexivity|].
  rewrite Htotal, Houts. reflexivity.
Defined.

End SecurityHealthCheckFacts.

(** ** Pagination over an end point routed by URL *)

Module OktaClientRouted.
Import OktaClient.

Lemma scan_links_waiting (s : string) :
  scan_links s true = true -> scan_links s false = true.
Proof.
  induction s as [|c s IH]; [discriminate|].
  cbn [scan_links]. destruct (Ascii.eqb c "<"); [auto|].
  destruct (Ascii.eqb c ">"); auto.
Qed.

(** A [<] that is waiting is closed by the first [>] after it. *)
Lemma scan_links_closes (s : string) :
  scan_links s true = true ->
  exists g r, s = g ++ String ">" r /\ Js.includes g ">" = false.
Proof.
  induction s as [|c s IH]; [discriminate|].
  cbn [scan_links]. destruct (Ascii.eqb c ">") eqn:Egt.
  - apply Ascii.eqb_eq in Egt. subst c. cbn. intros _.
    exists "", s. split; reflexivity.
  - intros H.
    assert (Hs : scan_links s true = true) by (destruct (Ascii.eqb c "<"); exact H).
    destruct (IH Hs) as (g & r & -> & Hg).
    exists (String c g), r. split; [reflexivity|].
    cbn [Js.includes Js.starts_with]. rewrite (Ascii.eqb_sym ">" c), Egt.
    cbn [andb]. exact Hg.
Qed.

Lemma includes_tail (c : ascii) (s p : string) :
  Js.includes (String c s) p = false -> Js.includes s p = false.
Proof.
  cbn [Js.includes]. destruct (Js.starts_with p (String c s)); [discriminate | auto].
Qed.

Lemma starts_with_split (p s : string) :
  Js.starts_with p s = true -> exists s', s = p ++ s'.
Proof.
  revert s. induction p as [|a p IH]; intros s H; [now exists s|].
  destruct s as [|b s]; [discriminate H|].
  cbn [Js.starts_with] in H. apply andb_prop in H. destruct H as [Hab Hp].
  apply Ascii.eqb_eq in Hab. subst b.
  destruct (IH s Hp) as [s' ->]. now exists s'.
Qed.

(** A text without [c] that begins [a ++ c ...] begins [a]. *)
Lemma starts_with_before (pat a s : string) (c : ascii) :
  Js.includes pat (String c "") = false ->
  Js.starts_with pat (a ++ String c s) = true -> Js.starts_with pat a = true.
Proof.
  revert a. induction pat as [|p pat IH]; intros a Hc H; [reflexivity|].
  cbn [Js.includes Js.starts_with] in Hc.
  destruct (Ascii.eqb c p) eqn:Ecp; cbn [andb] in Hc; [discriminate Hc|].
  destruct a as [|x a].
  - cbn [append Js.starts_with] in H. apply andb_prop in H. destruct H as [Hpc _].
    rewrite Ascii.eqb_sym, Ecp in Hpc. discriminate Hpc.
  - cbn [append Js.starts_with] in *. apply andb_prop in H. destruct H as [Hpx Hrest].
    rewrite Hpx. cbn [andb]. apply IH; [|exact Hrest].
    destruct pat; [reflexivity | exact Hc].
Qed.

Lemma trimStart_split (r : string) : exists sp, r = sp ++ Js.trimStart r.
Proof.
  induction r as [|c r [sp IH]]; [now exists ""|].
  cbn [Js.trimStart]. destruct (Js.is_space c).
  - exists (String c sp). cbn [append]. now rewrite <- IH.
  - now exists "".
Qed.

Lemma trimStart_app_some (r s : string) :
  Js.trimStart r <> "" -> Js.trimStart (r ++ s) = Js.trimStart r ++ s.
Proof.
  induction r as [|c r IH]; [intros H; now elim H|].
  cbn [append Js.trimStart]. destruct (Js.is_space c); [exact IH | reflexivity].
Qed.

(** What a match that begins at a [<] needs after the [>] that closes it. *)
Lemma match_next_here_shape (g rest x : string) :
  Js.includes g ">" = false ->
  Js.match_next_here (String "<" (g ++ String ">" rest)) = Some x ->
  exists t, rest = String ";" t /\ Js.starts_with Js.rel_next (Js.trimStart t) = true.
Proof.
  intros Hg. unfold Js.match_next_here.
  rewrite JsFacts.span_not_gt_app by assumption.
  destruct g as [|c g]; [discriminate|].
  destruct rest as [|d t]; [discriminate|].
  destruct d as [[] [] [] [] [] [] [] []]; try discriminate.
  destruct (Js.starts_with Js.rel_next (Js.trimStart t)) eqn:E; [|discriminate].
  intros _. now exists t.
Qed.

(** Whole links without a next link hold no match, and none that runs on
    into the link after them. *)
Lemma match_next_first_link (pre tail : string) :
  links_closed pre = true -> Js.includes pre Js.rel_next = false ->
  Js.match_next (pre ++ String "<" tail) = Js.match_next (String "<" tail).
Proof.
  unfold links_closed.
  induction pre as [|c pre IH]; intros Hclosed Hnone; [reflexivity|].
  pose proof (includes_tail _ _ _ Hnone) as Hnone'.
  change (String c pre ++ String "<" tail) with (String c (pre ++ String "<" tail)).
  cbn [Js.match_next].
  destruct (Ascii.eqb c "<") eqn:Elt.
  - apply Ascii.eqb_eq in Elt. subst c. cbn [scan_links Ascii.eqb] in Hclosed.
    change (scan_links pre true = true) in Hclosed.
    destruct (Js.match_next_here (String "<" (pre ++ String "<" tail))) as [x|] eqn:Hm.
    + exfalso.
      destruct (scan_links_closes pre Hclosed) as (g & r & Hpre & Hg).
      rewrite Hpre, JsFacts.app_assoc in Hm.
      change (String ">" r ++ String "<" tail) with (String ">" (r ++ String "<" tail)) in Hm.
      destruct (match_next_here_shape _ _ _ Hg Hm) as (t & Hrest & Hstarts).
      destruct r as [|d r']; [discriminate Hrest|].
      cbn [append] in Hrest. injection Hrest as -> <-.
      destruct (Js.trimStart r') as [|y T] eqn:Etrim.
      * rewrite (JsFacts.trimStart_app r' _ Etrim) in Hstarts. discriminate Hstarts.
      * rewrite trimStart_app_some in Hstarts by (rewrite Etrim; discriminate).
        rewrite Etrim in Hstarts.
        apply starts_with_before in Hstarts; [|reflexivity].
        destruct (starts_with_split _ _ Hstarts) as [T' HT].
        destruct (trimStart_split r') as [sp Hsp]. rewrite Etrim, HT in Hsp.
        assert (Hin : Js.includes (String "<" pre) Js.rel_next = true).
        { rewrite Hpre, Hsp.
          replace (String "<" (g ++ String ">" (String ";" (sp ++ Js.rel_next ++ T'))))
            with (("<" ++ g ++ ">;" ++ sp) ++ Js.rel_next ++ T')
            by (rewrite !JsFacts.app_assoc; reflexivity).
          apply JsFacts.includes_app. }
        rewrite Hin in Hnone. discriminate Hnone.
    + apply IH; [now apply scan_links_waiting | exact Hnone'].
  - rewrite JsMore.match_next_here_other by exact Elt.
    apply IH; [|exact Hnone'].
    cbn [scan_links] in Hclosed. rewrite Elt in Hclosed.
    destruct (Ascii.eqb c ">"); exact Hclosed.
Qed.

Section Client.
Context {P : Platform}.
Variable domain : string.

(** The pagination check takes the target of the first next link, without
    the base URL. *)
Lemma follow_link_routed (url : string) (page : Response) (next : string) :
  next_link_to domain page next ->
  follow_link domain url (headers_link page) = (next, true).
Proof.
  intros (pre & u & ws & post & Hh & Hclosed & Hnone & Hu & Hgt & Hws & ->).
  unfold follow_link. rewrite Hh.
  assert (Ht : truthy (pre ++ "<" ++ u ++ ">;" ++ ws ++ Js.rel_next ++ post) = true).
  { unfold truthy. destruct pre; reflexivity. }
  assert (Hi : Js.includes (pre ++ "<" ++ u ++ ">;" ++ ws ++ Js.rel_next ++ post)
                 Js.rel_next = true).
  { replace (pre ++ "<" ++ u ++ ">;" ++ ws ++ Js.rel_next ++ post)
      with ((pre ++ "<" ++ u ++ ">;" ++ ws) ++ Js.rel_next ++ post)
      by (now rewrite !JsFacts.app_assoc).
    apply JsFacts.includes_app. }
  assert (Hm : Js.match_next (pre ++ "<" ++ u ++ ">;" ++ ws ++ Js.rel_next ++ post)
               = Some u).
  { change (pre ++ "<" ++ u ++ ">;" ++ ws ++ Js.rel_next ++ post)
      with (pre ++ String "<" (u ++ ">;" ++ ws ++ Js.rel_next ++ post)).
    rewrite match_next_first_link by assumption.
    apply JsMore.match_next_found.
    now apply (JsFacts.match_next_here_link u ws post). }
  rewrite Ht, Hi, Hm. reflexivity.
Qed.

(** The loop over a routed end point: it asks for the pages at their URLs,
    one after the other, as long as fewer than [limit] events are
    accumulated. *)
Lemma pagination_routed params limit :
  forall rest url page fuel results w tr,
    Routed domain w ((url, page) :: rest) -> (S (List.length rest) <= fuel)%nat ->
    exists k reqs w',
      pagination domain fuel params limit results url true {| world := w; trace := tr |}
      = (Returned (results ++ events_of (firstn k (page :: map snd rest)))%list,
         {| world := w'; trace := tr ++ paced reqs |})
      /\ List.length reqs = k
      /\ (k <= S (List.length rest))%nat
      /\ ((k < S (List.length rest))%nat ->
          (limit <= Z.of_nat (List.length
                      (results ++ events_of (firstn k (page :: map snd rest)))))%Z)
      /\ (forall j, (j < k)%nat ->
          (Z.of_nat (List.length
             (results ++ events_of (firstn j (page :: map snd rest)))) < limit)%Z)
      /\ map fst reqs = firstn k (url :: map fst rest).
Proof.
  induction rest as [|[next page'] rest IH];
    intros url page fuel results w tr Hrouted Hfuel.
  - (* the last page *)
    destruct (Z.le_gt_cases limit (Z.of_nat (List.length results))) as [Hfull|Hroom].
    + exists 0%nat, [], w. cbn [firstn paced flat_map map].
      change (events_of []) with (@nil LogEvent).
      rewrite !List.app_nil_r, OktaClientFacts.pagination_full by assumption.
      repeat split; cbn [List.length]; try lia.
    + destruct fuel as [|fuel]; [cbn [List.length] in Hfuel; lia|].
      cbn [Routed] in Hrouted. destruct Hrouted as [Hlast Hserve].
      destruct (Hserve (if String.eqb url "/logs" then Some params else None))
        as (w1 & Hget & _).
      rewrite (OktaClientFacts.pagination_step domain fuel params limit results url
                 w tr page w1) by (assumption || lia).
      rewrite (OktaClientFacts.follow_link_last domain _ _ Hlast).
      cbn [fst snd]. rewrite OktaClientFacts.pagination_done.
      exists 1%nat, [(url, if String.eqb url "/logs" then Some params else None)], w1.
      cbn [firstn paced flat_map fst snd List.app map].
      rewrite OktaClientFacts.events_of_cons. change (events_of []) with (@nil LogEvent).
      rewrite !List.app_nil_r.
      repeat split; cbn [List.length]; try lia.
      intros j Hj. assert (j = 0%nat) as -> by lia.
      cbn [firstn]. change (events_of []) with (@nil LogEvent).
      rewrite List.app_nil_r. lia.
  - (* a page that links to the next one *)
    destruct (Z.le_gt_cases limit (Z.of_nat (List.length results))) as [Hfull|Hroom].
    + exists 0%nat, [], w. cbn [firstn paced flat_map map].
      change (events_of []) with (@nil LogEvent).
      rewrite !List.app_nil_r, OktaClientFacts.pagination_full by assumption.
      repeat split; cbn [List.length]; try lia.
    + destruct fuel as [|fuel]; [cbn [List.length] in Hfuel; lia|].
      cbn [Routed] in Hrouted. destruct Hrouted as [Hlink Hserve].
      destruct (Hserve (if String.eqb url "/logs" then Some params else None))
        as (w1 & Hget & Hrest).
      rewrite (OktaClientFacts.pagination_step domain fuel params limit results url
                 w tr page w1) by (assumption || lia).
      rewrite (follow_link_routed url page next Hlink). cbn [fst snd].
      destruct (IH next page' fuel (results ++ data page)%list w1
                  (tr ++ [EHttpGet url (if String.eqb url "/logs" then Some params else None);
                          ESleep 100])%list Hrest)
        as (k & reqs & w' & Hrun & Hlen & Hk & Hstop & Hgo & Hurls).
      { cbn [List.length] in Hfuel. lia. }
      exists (S k), ((url, if String.eqb url "/logs" then Some params else None) :: reqs), w'.
      rewrite Hrun. cbn [firstn paced flat_map fst snd map].
      rewrite OktaClientFacts.events_of_cons.
      rewrite <- !List.app_assoc. cbn [List.app].
      cbn [List.length] in *.
      repeat split; try lia.
      * intros Hlt. rewrite List.app_assoc. apply Hstop. lia.
      * intros [|j] Hj.
        -- cbn [firstn]. change (events_of []) with (@nil LogEvent).
           rewrite List.app_nil_r. lia.
        -- cbn [firstn]. rewrite OktaClientFacts.events_of_cons, List.app_assoc.
           apply Hgo. lia.
      * now rewrite Hurls.
Qed.

(** C3: over an end point routed by URL, whose page at [/logs] and the pages
    after it each link to the next and whose last page carries no next link,
    the query returns the events of all pages in their order, cut to the
    first [limit]; the result has exactly [limit] events when the pages hold
    more.  The requests go to the URLs of the pages, in turn, and one is made
    only while fewer than [limit] events are accumulated: the loop stops at
    the first page that fills the limit although it links to a next one, and
    not before. *)
Theorem querySystemLog_concat_truncated
    (first : Response) (rest : list (string * Response))
    (filter : string) (since : option string) (limit : Z)
    (fuel : nat) (w : World) (tr : list Effect) :
  let route := ("/logs", first) :: rest in
  let pages := map snd route in
  Routed domain w route -> (List.length route <= fuel)%nat ->
  exists reqs w',
    querySystemLog domain fuel filter since (Some limit) {| world := w; trace := tr |}
    = (Returned (firstn (Z.to_nat limit) (events_of pages)),
       {| world := w'; trace := tr ++ paced reqs |})
    /\ ((0 <= limit < Z.of_nat (List.length (events_of pages)))%Z ->
        Z.of_nat (List.length (firstn (Z.to_nat limit) (events_of pages))) = limit)
    /\ map fst reqs = firstn (List.length reqs) (map fst route)
    /\ (List.length reqs <= List.length route)%nat
    /\ ((List.length reqs < List.length route)%nat ->
        (limit <= Z.of_nat (List.length
                    (events_of (firstn (List.length reqs) pages))))%Z)
    /\ (forall j, (j < List.length reqs)%nat ->
        (Z.of_nat (List.length (events_of (firstn j pages))) < limit)%Z)
    /\ (forall j, (limit <= Z.of_nat (List.length (events_of (firstn j pages))))%Z ->
        (List.length reqs <= j)%nat).
Proof.
  intros route pages Hrouted Hfuel. subst route pages.
  cbn [map fst snd List.length] in *.
  destruct (pagination_routed (build_params filter since limit) limit rest "/logs" first
              fuel [] w tr Hrouted Hfuel)
    as (k & reqs & w' & Hrun & Hlen & Hk & Hstop & Hgo & Hurls).
  cbn [List.app] in Hrun, Hstop, Hgo.
  exists reqs, w'. subst k.
  split; [|split; [|split; [|split; [|split; [|split]]]]].
  - unfold querySystemLog, try_catch, bind, ret. rewrite Hrun. f_equal. f_equal.
    destruct (Z.lt_ge_cases limit 0) as [Hneg|Hpos].
    + destruct reqs as [|r reqs].
      * cbn [List.length firstn]. change (events_of []) with (@nil LogEvent).
        unfold Js.slice0. rewrite firstn_nil.
        replace (Z.to_nat limit) with 0%nat by lia. reflexivity.
      * specialize (Hgo 0%nat). cbn [List.length firstn] in Hgo.
        change (events_of []) with (@nil LogEvent) in Hgo.
        cbn [List.length] in Hgo. lia.
    + rewrite JsFacts.slice0_firstn by assumption.
      destruct (Nat.eq_dec (List.length reqs) (S (List.length rest))) as [Hall|Hless].
      * replace (firstn (List.length reqs) (first :: map snd rest))
          with (first :: map snd rest); [reflexivity|].
        symmetry. apply firstn_all2. cbn [List.length]. rewrite length_map. lia.
      * apply OktaClientFacts.firstn_events_of.
        assert (limit <= Z.of_nat (List.length
                  (events_of (firstn (List.length reqs) (first :: map snd rest)))))%Z
          by (apply Hstop; lia).
        lia.
  - intros Hmore. rewrite length_firstn. lia.
  - exact Hurls.
  - exact Hk.
  - exact Hstop.
  - exact Hgo.
  - intros j Hj.
    destruct (Nat.le_gt_cases (List.length reqs) j) as [Hle|Hgt]; [exact Hle|].
    specialize (Hgo j Hgt). lia.
Qed.

End Client.

(** *** Concrete runs on the end point routed by URL *)

Lemma route_routed :
  Routed (P := MockRouted.platform) "acme.okta.com" tt MockRouted.route.
Proof.
  cbn [Routed MockRouted.route]. split.
  - exists "", "https://acme.okta.com/api/v1/logs?after=1", " ", "".
    repeat split; (reflexivity || discriminate).
  - intros sent. exists tt. split; [reflexivity|]. split.
    + exists ("<https://acme.okta.com/api/v1/logs?after=1>; " ++ rel_self ++ ", "),
             "https://acme.okta.com/api/v1/logs?after=2", " ", "".
      repeat split; (reflexivity || discriminate).
    + intros sent'. exists tt. split; [reflexivity|]. split; [exact I|].
      intros sent''. exists tt. split; [reflexivity | exact I].
Qed.

Lemma querySystemLog_concat_truncated_witness :
  exists reqs w',
    querySystemLog (P := MockRouted.platform) "acme.okta.com" 3 "f" None (Some 3%Z)
      MockRouted.start
    = (Returned [Mock.ev "a"; Mock.ev "b"; Mock.ev "c"],
       @Build_State MockRouted.platform w' (paced reqs))
    /\ map fst reqs = firstn (List.length reqs) ["/logs"; "/logs?after=1"; "/logs?after=2"]
    /\ (List.length reqs <= 2)%nat.
Proof.
  destruct (querySystemLog_concat_truncated (P := MockRouted.platform) "acme.okta.com"
              MockRouted.first_page
              [("/logs?after=1", MockRouted.second_page);
               ("/logs?after=2", MockRouted.third_page)]
              "f" None 3%Z 3 tt [] route_routed (le_n 3))
    as (reqs & w' & Hrun & _ & Hurls & _ & _ & _ & Hstop).
  exists reqs, w'. split; [exact Hrun|]. split; [exact Hurls|].
  apply Hstop. cbn. lia.
Defined.

(** The same end point asked for up to 100 events: the three pages are
    fetched at their URLs, the first request alone with parameters. *)
Example querySystemLog_routed_run :
  querySystemLog (P := MockRouted.platform) "acme.okta.com" 3 "f" None (Some 100%Z)
    MockRouted.start
  = (Returned [Mock.ev "a"; Mock.ev "b"; Mock.ev "c"; Mock.ev "d"; Mock.ev "e"],
     @Build_State MockRouted.platform tt
       [ EHttpGet "/logs" (Some (build_params "f" None 100%Z)); ESleep 100;
         EHttpGet "/logs?after=1" None; ESleep 100;
         EHttpGet "/logs?after=2" None; ESleep 100 ]).
Proof. reflexivity. Qed.

End OktaClientRouted.
